(** * A shallow embedding of the HAL trim loader, clock divider,
      RF TX-power controller and power-mode controller

    The C sources (source/trim.c, source/trim_vddif.c, source/clock.c,
    source/rffe.c, source/power_modes.c and the headers under include/) are
    translated function by function.  Unsigned C integers are values of [Z]
    with the wrap-around of the C type written out ([uint8_t], [uint16_t],
    [uint32_t] below are the conversions to the type).  Memory-mapped
    registers live in a register file; every store is also appended to a
    log, so that "this call wrote no register" can be stated.

    The device header hw.h (register map, bit-field constants, the layout of
    TRIM_Type) is not part of the translated sources: what the code takes
    from it is collected in one record per module and is a parameter of the
    development. *)

From Stdlib Require Import ZArith List Bool Lia.
Import ListNotations.
Local Open Scope Z_scope.

(** ** C integer conversions *)

Definition uint8_t (z : Z) : Z := z mod 2 ^ 8.
Definition uint16_t (z : Z) : Z := z mod 2 ^ 16.
Definition uint32_t (z : Z) : Z := z mod 2 ^ 32.

(** [!x] of C on an integer. *)
Definition is_zero (z : Z) : bool := z =? 0.

(** Bitwise complement within 32 bits ([~x] on a uint32_t). *)
Definition not32 (z : Z) : Z := Z.lxor z 0xFFFFFFFF.

(** ** Memory-mapped registers *)

Module MMIO.

(** The 32-bit registers the translated functions touch. *)
Inductive reg : Set :=
  | ACS_BG_CTRL | ACS_VCC_CTRL | ACS_VDDC_CTRL | ACS_VDDM_CTRL
  | ACS_VDDPA_CTRL | ACS_VDDRF_CTRL | ACS_VDDFLASH_CTRL | ACS_VDDIF_CTRL
  | ACS_RCOSC_CTRL | ACS_TEMP_CURR_CFG | ACS_AOUT_CTRL | ACS_VDDRET_CTRL
  | ACS_BOOT_GP_DATA | ACS_GP_DATA | ACS_PWR_MODES_CTRL
  | SYSCTRL_VDDPA_CFG0 | SYSCTRL_WAKEUP_ADDR | SYSCTRL_MEM_ACCESS_CFG
  | SCB_VTOR | SCB_CPACR | WATCHDOG_CTRL
  | CRC_CFG | CRC_VALUE | CRC_ADD (slot : Z)
  | LSAD_CFG | LSAD_INPUT_SEL (channel : Z)
  | RF0_BIAS_0_2 | RF0_REG1A | RF0_REG33 | RF0_ANALOG_INFO
  | CLK_DIV_CFG0 | CLK_DIV_CFG1 | CLK_DIV_CFG2.

Definition reg_eq_dec (a b : reg) : {a = b} + {a <> b}.
Proof. decide equality; apply Z.eq_dec. Defined.

Definition reg_eqb (a b : reg) : bool := if reg_eq_dec a b then true else false.

Lemma reg_eqb_refl r : reg_eqb r r = true.
Proof. unfold reg_eqb. destruct (reg_eq_dec r r); congruence. Qed.

Lemma reg_eqb_neq a b : a <> b -> reg_eqb a b = false.
Proof. unfold reg_eqb. destruct (reg_eq_dec a b); congruence. Qed.

(** A byte alias of a register ([ACS_VDDC_CTRL->VTRIM_BYTE] and the like):
    the register and the byte lane the header places the alias on. *)
Record bytereg : Set := Byte { br_reg : reg; br_lane : Z }.

(** One store, as the bus sees it. *)
Inductive access : Set :=
  | Store32 (r : reg) (v : Z)
  | Store8 (b : bytereg) (v : Z).

Definition access_reg (a : access) : reg :=
  match a with
  | Store32 r _ => r
  | Store8 b _ => br_reg b
  end.

(** What the peripherals do on their own.  The CRC unit folds the word
    stored to one of its ADD registers into VALUE according to CFG, and
    presents FINAL as a function of CFG and VALUE; the LSAD data register is
    read-only for software: [lsad_data k ch] is the code the [k]-th read of
    the run finds on channel [ch]. *)
Record device : Type := mkDevice {
  crc_step : Z -> Z -> Z -> Z -> Z;   (* CFG, ADD slot, VALUE, data *)
  crc_final : Z -> Z -> Z;            (* CFG, VALUE *)
  lsad_data : nat -> Z -> Z
}.

(** The hardware state: the peripherals, the register file, the log of
    stores (newest first) and the number of LSAD data reads so far. *)
Record state : Type := mkState {
  dev : device;
  regs : reg -> Z;
  stores : list access;
  lsad_reads : nat
}.

Definition upd (f : reg -> Z) (r : reg) (v : Z) : reg -> Z :=
  fun x => if reg_eqb x r then v else f x.

Lemma upd_same f r v : upd f r v r = v.
Proof. unfold upd. now rewrite reg_eqb_refl. Qed.

Lemma upd_other f r v x : x <> r -> upd f r v x = f x.
Proof. intros. unfold upd. now rewrite reg_eqb_neq. Qed.

Definition lane_mask (lane : Z) : Z := Z.shiftl 0xFF (8 * lane).

Definition get_lane (w lane : Z) : Z := Z.land (Z.shiftr w (8 * lane)) 0xFF.

Definition set_lane (w lane v : Z) : Z :=
  Z.lor (Z.land w (not32 (lane_mask lane)))
        (Z.shiftl (Z.land v 0xFF) (8 * lane)).

(** A small state monad over the hardware state. *)
Definition M (A : Type) : Type := state -> A * state.

Definition ret {A} (a : A) : M A := fun s => (a, s).

Definition bind {A B} (m : M A) (k : A -> M B) : M B :=
  fun s => let (a, s') := m s in k a s'.

Definition read32 (r : reg) : M Z := fun s => (regs s r, s).

Definition write32 (r : reg) (v : Z) : M unit := fun s =>
  (tt, mkState (dev s) (upd (regs s) r (uint32_t v))
               (Store32 r (uint32_t v) :: stores s) (lsad_reads s)).

Definition read8 (b : bytereg) : M Z := fun s =>
  (get_lane (regs s (br_reg b)) (br_lane b), s).

Definition write8 (b : bytereg) (v : Z) : M unit := fun s =>
  (tt, mkState (dev s)
               (upd (regs s) (br_reg b)
                    (set_lane (regs s (br_reg b)) (br_lane b) (uint8_t v)))
               (Store8 b (uint8_t v) :: stores s) (lsad_reads s)).

(** [LSAD->DATA_TRIM_CH[ch]]: a volatile read, each one sees the next
    conversion result. *)
Definition read_lsad_data (ch : Z) : M Z := fun s =>
  (lsad_data (dev s) (lsad_reads s) ch,
   mkState (dev s) (regs s) (stores s) (S (lsad_reads s))).

(** A store to [CRC->ADD_x]: the unit updates VALUE. *)
Definition crc_add (slot data : Z) : M unit := fun s =>
  (tt, mkState (dev s)
               (upd (regs s) CRC_VALUE
                    (uint32_t (crc_step (dev s) (regs s CRC_CFG) slot
                                        (regs s CRC_VALUE) (uint32_t data))))
               (Store32 (CRC_ADD slot) (uint32_t data) :: stores s)
               (lsad_reads s)).

(** A load of [CRC->FINAL]. *)
Definition read_crc_final : M Z := fun s =>
  (uint32_t (crc_final (dev s) (regs s CRC_CFG) (regs s CRC_VALUE)), s).

Definition run {A} (m : M A) (s : state) : A * state := m s.

End MMIO.

Import MMIO.

Declare Scope hw_scope.
Delimit Scope hw_scope with hw.
Notation "x <- c1 ;; c2" := (bind c1 (fun x => c2))
  (at level 61, c1 at next level, right associativity) : hw_scope.
Notation "c1 ;; c2" := (bind c1 (fun _ => c2))
  (at level 61, right associativity) : hw_scope.
Local Open Scope hw_scope.

(** * The trim loader (source/trim.c, source/trim_vddif.c, include/trim.h) *)

Module Trim.

(** ** Constants of include/trim.h *)

Definition NULL_POINTER : Z := 0.
Definition MIN_32_BIT : Z := 0x00000000.
Definition MAX_32_BIT : Z := 0xFFFFFFFF.
Definition MIN_16_BIT : Z := 0x0000.
Definition MAX_16_BIT : Z := 0xFFFF.
Definition MIN_8_BIT : Z := 0x00.
Definition MAX_8_BIT : Z := 0xFF.
Definition TRIM_8_BIT_TRIM_MASK : Z := 0xFF.
Definition TRIM_16_BIT_TRIM_MASK : Z := 0xFFFF.

Definition ERROR_NO_ERROR : Z := 0.
Definition ERROR_NULL : Z := Z.shiftl 1 1.
Definition ERROR_NO_TRIM_FOUND : Z := Z.shiftl 1 3.
Definition ERROR_INVALID_TRIM : Z := Z.shiftl 1 4.
Definition ERROR_INVALID_CRC : Z := Z.shiftl 1 5.
Definition ERROR_BG_INVALID : Z := Z.shiftl 1 6.
Definition ERROR_BG_V_INVALID : Z := Z.shiftl 1 7.
Definition ERROR_BG_I_INVALID : Z := Z.shiftl 1 8.
Definition ERROR_DCDC_INVALID : Z := Z.shiftl 1 9.
Definition ERROR_VDDC_INVALID : Z := Z.shiftl 1 10.
Definition ERROR_VDDC_STBY_INVALID : Z := Z.shiftl 1 11.
Definition ERROR_VDDM_INVALID : Z := Z.shiftl 1 12.
Definition ERROR_VDDM_STBY_INVALID : Z := Z.shiftl 1 13.
Definition ERROR_VDDRF_INVALID : Z := Z.shiftl 1 14.
Definition ERROR_VDDPA_INVALID : Z := Z.shiftl 1 15.
Definition ERROR_VDDPA_MIN_INVALID : Z := Z.shiftl 1 16.
Definition ERROR_VDDIF_INVALID : Z := Z.shiftl 1 17.
Definition ERROR_VDDFLASH_INVALID : Z := Z.shiftl 1 18.
Definition ERROR_RCOSC_INVALID : Z := Z.shiftl 1 19.
Definition ERROR_RCOSC32_INVALID : Z := Z.shiftl 1 20.
Definition ERROR_LSAD_INVALID : Z := Z.shiftl 1 21.
Definition ERROR_TEMPERATURE_INVALID : Z := Z.shiftl 1 22.
Definition ERROR_THERMISTOR_INVALID : Z := Z.shiftl 1 23.
Definition ERROR_MEASURED_INVALID : Z := Z.shiftl 1 25.

(** [TrimName_t], as the indices the code uses for its arrays. *)
Definition TRIM_BANDGAP : nat := 0.
Definition TRIM_DCDC : nat := 1.
Definition TRIM_VDDC : nat := 2.
Definition TRIM_VDDM : nat := 3.
Definition TRIM_VDDRF : nat := 4.
Definition TRIM_VDDPA : nat := 5.

Definition TRIM_NUM_FUNCTIONS_2_ARGS : nat := 3.
Definition TRIM_NUM_FUNCTIONS_1_ARG : nat := 7.

(** ** What trim.c takes from hw.h

    A 16-bit member is located by the word it lies in and its bit offset in
    that word. *)
Record field16 : Set := F16 { f_word : nat; f_shift : Z }.

Record hw_h : Type := mkHw {
  (* whether the build defines RSL15_CID *)
  RSL15_CID_defined : bool;
  (* record counts *)
  TRIM_RECORDS : nat;
  TRIM_RC_RECORDS : nat;
  TRIM_THERMISTOR_RECORDS : nat;
  TRIM_BANDGAP_CURRENT_OFFSET : nat;
  (* offsetof(TRIM_Type, member) / 4 for the members trim.c names *)
  o_bandgap : nat; o_dcdc : nat; o_vddc : nat; o_vddm : nat;
  o_vddrf : nat; o_vddpa : nat; o_vddif : nat; o_vddflash : nat;
  o_rcosc : nat; o_rcosc32 : nat; o_thermistor : nat;
  o_lsad_hf_gain : nat; o_lsad_lf_gain : nat; o_temp_sensor_offset : nat;
  o_SOS_REV : nat; o_CHECKSUM : nat;
  f_lsad_hf_offset : field16; f_lsad_lf_offset : field16;
  f_thermistor_bias : field16;
  f_temp_sensor_30C : field16; f_bandgap_vref_0_75V : field16;
  f_lsad_vref_1_0V_internal : field16; f_wedac_600mV : field16;
  (* bit fields *)
  ACS_BG_CTRL_ITRIM_Pos : Z;
  ACS_VCC_CTRL_VTRIM_Mask : Z;
  VCC_BUCK : Z;
  (* CRC unit *)
  CRC_CCITT : Z; CRC_32 : Z;
  CRC_CCITT_INIT_VALUE : Z; CRC_32_INIT_VALUE : Z;
  (* byte lanes of the VTRIM aliases *)
  VDDC_VTRIM_lane : Z; VDDC_STANDBY_VTRIM_lane : Z;
  VDDM_VTRIM_lane : Z; VDDM_STANDBY_VTRIM_lane : Z;
  VDDPA_VTRIM_lane : Z; VDDRF_VTRIM_lane : Z;
  VDDFLASH_VTRIM_lane : Z; VDDIF_VTRIM_lane : Z;
  RC_FTRIM_lane : Z
}.

(** ** The calibration region

    Modelled from the spec: the layout of TRIM_Type, which hw.h declares.
    A region is the flash it occupies, read as 32-bit words from its base;
    every sub-record of a voltage or clock domain is one packed word,
    target in the upper and trim in the lower half, the way
    [Sys_Trim_GetTrim] decodes it (spec 4.1: "a table of packed
    (target:16,trim:16) words"), and the dual-byte domains (VDDC, VDDM,
    VDDPA) keep the normal voltage in the low byte of each half. *)
Definition TRIM_Type : Type := nat -> Z.

Definition word_at (r : TRIM_Type) (i : nat) : Z := uint32_t (r i).

(** A non-null [uint32_t *] into the region: [p i] is [p[i]]. *)
Definition words : Type := nat -> Z.

Definition member (r : TRIM_Type) (offset : nat) : words :=
  fun i => word_at r (offset + i).

Definition target16 (w : Z) : Z := Z.land (Z.shiftr w 16) 0xFFFF.
Definition trim16 (w : Z) : Z := Z.land w 0xFFFF.
Definition target_voltage (w : Z) : Z := Z.land (Z.shiftr w 16) 0xFF.
Definition trim_voltage (w : Z) : Z := Z.land w 0xFF.

Definition get16 (r : TRIM_Type) (f : field16) : Z :=
  Z.land (Z.shiftr (word_at r (f_word f)) (f_shift f)) 0xFFFF.

(** ** Sys_Trim_GetTrim *)

(** One pass of the loop body on the word [w = addr[i]]: whether the loop
    breaks, the new [ret_val] and the new [*trim_val]. *)
Definition GetTrim_body (w trim_target : Z) : bool * Z * Z :=
  let ret_val :=
    if (w =? MIN_32_BIT) || (w =? MAX_32_BIT)
    then ERROR_INVALID_TRIM else ERROR_NO_ERROR in
  let stored_target := Z.land (Z.shiftr w 16) TRIM_16_BIT_TRIM_MASK in
  let stored_trim := Z.land w TRIM_16_BIT_TRIM_MASK in
  if (stored_target >? MAX_8_BIT) && (ret_val =? ERROR_NO_ERROR) then
    if trim_target =? stored_target then
      (true, ERROR_NO_ERROR, stored_trim)
    else if trim_target =? Z.land stored_target 0x00FF then
      (true, ERROR_NO_ERROR, Z.land stored_trim 0x00FF)
    else if trim_target =? Z.shiftr (Z.land stored_target 0xFF00) 8 then
      (true, ERROR_NO_ERROR, Z.shiftr (Z.land stored_trim 0xFF00) 8)
    else
      (false, ERROR_NO_TRIM_FOUND, 0xFFFF)
  else if (Z.land stored_trim 0xFF00 =? 0) && (ret_val =? ERROR_NO_ERROR) then
    if trim_target =? stored_target then
      (true, ERROR_NO_ERROR, Z.land stored_trim 0xFF)
    else
      (false, ERROR_NO_TRIM_FOUND, 0xFFFF)
  else
    if trim_target =? Z.land stored_target 0xFF then
      (true, ERROR_NO_ERROR, stored_trim)
    else
      (false, ERROR_NO_TRIM_FOUND, 0xFFFF).

(** The [for] loop from index [i], with [n] iterations left. *)
Fixpoint GetTrim_loop (addr : words) (trim_target : Z) (n i : nat)
                      (ret_val trim_val : Z) : Z * Z :=
  match n with
  | O => (ret_val, trim_val)
  | S n' =>
      match GetTrim_body (uint32_t (addr i)) trim_target with
      | (true, ret_val', trim_val') => (ret_val', trim_val')
      | (false, ret_val', trim_val') =>
          GetTrim_loop addr trim_target n' (S i) ret_val' trim_val'
      end
  end.

(** [ret_val] is declared without an initialiser and is what the function
    returns when the loop body never runs: [indeterminate] stands for the
    value it then holds.  A pointer argument is [None] when null; the
    out-parameter [trim_val] carries the content of its cell, and the
    second component of the result is that cell after the call. *)
Definition Sys_Trim_GetTrim (indeterminate : Z)
    (addr : option words) (trim_target : Z) (record_length : nat)
    (trim_val : option Z) : Z * option Z :=
  match addr, trim_val with
  | Some a, Some v =>
      let (r, v') := GetTrim_loop a (uint16_t trim_target) record_length 0
                                  indeterminate v in
      (r, Some v')
  | _, _ => (ERROR_NULL, trim_val)
  end.

(** The content of a local the callers pass by address. *)
Definition cell (c : option Z) : Z :=
  match c with Some v => v | None => 0 end.

Section Functions.

Variable H : hw_h.

(** The value an uninitialised [ret_val] of [Sys_Trim_GetTrim] holds. *)
Variable indeterminate : Z.

Definition GetTrim := Sys_Trim_GetTrim indeterminate.

(** ** Sys_Trim_CheckCRC

    Only the non-null case is translated: the function stores [ERROR_NULL]
    in [ret_val] for a null region but does not return, and goes on to read
    through the pointer. *)

(** [for (i = top_addr; i <= bottom_addr; i++) SYS_CRC_ADD( *i, 32)], with
    [n] words left from word [i]. *)
Fixpoint CheckCRC_loop (r : TRIM_Type) (n i : nat) : M unit :=
  match n with
  | O => ret tt
  | S n' => crc_add (Z.shiftr 32 3) (word_at r i) ;; CheckCRC_loop r n' (S i)
  end.

Definition Sys_Trim_CheckCRC (trim_region : TRIM_Type) : M Z :=
  let CHECKSUM := word_at trim_region (o_CHECKSUM H) in
  (if CHECKSUM <=? MAX_16_BIT
   then write32 CRC_CFG (CRC_CCITT H) ;;
        write32 CRC_VALUE (CRC_CCITT_INIT_VALUE H)
   else write32 CRC_CFG (CRC_32 H) ;;
        write32 CRC_VALUE (CRC_32_INIT_VALUE H)) ;;
  CheckCRC_loop trim_region (S (o_SOS_REV H)) 0 ;;
  final <- read_crc_final ;;
  if CHECKSUM =? final then ret ERROR_NO_ERROR else ret ERROR_INVALID_CRC.

(** ** Sys_Trim_VerifyTrims *)

Definition sentinel16 (v : Z) : bool := (v =? MIN_16_BIT) || (v =? MAX_16_BIT).
Definition sentinel8 (v : Z) : bool := (v =? MIN_8_BIT) || (v =? MAX_8_BIT).
Definition sentinel32 (v : Z) : bool := (v =? MIN_32_BIT) || (v =? MAX_32_BIT).

Definition set_found (vf : nat -> bool) (k : nat) : nat -> bool :=
  fun j => if Nat.eqb j k then true else vf j.

(** One [if (!valid_found[name]) { ... }] block of the first loop;
    [invalid] is the block's sentinel test. *)
Definition check (name : nat) (flag : Z) (invalid : bool)
                 (st : (nat -> bool) * Z) : (nat -> bool) * Z :=
  let (valid_found, ret_val) := st in
  if negb (valid_found name) then
    if invalid then (valid_found, Z.lor ret_val flag)
    else (set_found valid_found name, Z.land ret_val (not32 flag))
  else st.

(** The body of [for (i = 0; i < 4; i++)]. *)
Definition voltage_body (r : TRIM_Type) (i : nat)
                        (st : (nat -> bool) * Z) : (nat -> bool) * Z :=
  let st := check TRIM_BANDGAP ERROR_BG_INVALID
              (sentinel16 (target16 (word_at r (o_bandgap H + i)))) st in
  let st := check TRIM_DCDC ERROR_DCDC_INVALID
              (sentinel16 (target16 (word_at r (o_dcdc H + i)))) st in
  let st := check TRIM_VDDC ERROR_VDDC_INVALID
              (sentinel8 (target_voltage (word_at r (o_vddc H + i)))) st in
  let st := check TRIM_VDDM ERROR_VDDM_INVALID
              (sentinel8 (target_voltage (word_at r (o_vddm H + i)))) st in
  let st := check TRIM_VDDRF ERROR_VDDRF_INVALID
              (sentinel16 (trim16 (word_at r (o_vddrf H + i)))) st in
  check TRIM_VDDPA ERROR_VDDPA_INVALID
        (sentinel8 (target_voltage (word_at r (o_vddpa H + i)))) st.

Fixpoint voltage_loop (r : TRIM_Type) (n i : nat)
                      (st : (nat -> bool) * Z) : (nat -> bool) * Z :=
  match n with
  | O => st
  | S n' => voltage_loop r n' (S i) (voltage_body r i st)
  end.

(** [if (c) ret_val |= flag]. *)
Definition flag_if (c : bool) (flag ret_val : Z) : Z :=
  if c then Z.lor ret_val flag else ret_val.

(** [for (i = 0; i < TRIM_RC_RECORDS; i++)] over [rcosc[i * 2].target]. *)
Fixpoint rcosc_loop (r : TRIM_Type) (n i : nat) (ret_val : Z) : Z :=
  match n with
  | O => ret_val
  | S n' =>
      rcosc_loop r n' (S i)
        (flag_if (sentinel16 (target16 (word_at r (o_rcosc H + i * 2))))
                 ERROR_RCOSC_INVALID ret_val)
  end.

Definition measured_invalid (r : TRIM_Type) : bool :=
  sentinel16 (get16 r (f_temp_sensor_30C H))
  || sentinel16 (get16 r (f_bandgap_vref_0_75V H))
  || sentinel16 (get16 r (f_lsad_vref_1_0V_internal H))
  || sentinel16 (get16 r (f_wedac_600mV H)).

(** Everything after the CRC check, on the [ret_val] the check left. *)
Definition VerifyTrims_records (r : TRIM_Type) (ret_val : Z) : Z :=
  let ret_val := snd (voltage_loop r 4 0 (fun _ => false, ret_val)) in
  let ret_val := flag_if (sentinel16 (target16 (word_at r (o_vddif H + 0))))
                         ERROR_VDDIF_INVALID ret_val in
  let ret_val := flag_if (sentinel16 (target16 (word_at r (o_vddflash H + 0))))
                         ERROR_VDDFLASH_INVALID ret_val in
  let ret_val := rcosc_loop r (TRIM_RC_RECORDS H) 0 ret_val in
  let ret_val := flag_if (sentinel16 (target16 (word_at r (o_rcosc32 H + 0))))
                         ERROR_RCOSC32_INVALID ret_val in
  let ret_val := flag_if (sentinel16 (get16 r (f_lsad_hf_offset H)))
                         ERROR_LSAD_INVALID ret_val in
  let ret_val := flag_if ((word_at r (o_lsad_hf_gain H) =? MIN_32_BIT)
                          || (word_at r (o_lsad_lf_gain H) =? MAX_32_BIT))
                         ERROR_LSAD_INVALID ret_val in
  let ret_val := flag_if (sentinel32 (word_at r (o_temp_sensor_offset H)))
                         ERROR_TEMPERATURE_INVALID ret_val in
  let ret_val := flag_if (sentinel16 (get16 r (f_thermistor_bias H)))
                         ERROR_THERMISTOR_INVALID ret_val in
  flag_if (measured_invalid r) ERROR_MEASURED_INVALID ret_val.

Definition Sys_Trim_VerifyTrims (trim_region : option TRIM_Type) : M Z :=
  match trim_region with
  | None => ret ERROR_NULL
  | Some r =>
      crc <- Sys_Trim_CheckCRC r ;;
      let ret_val := if negb (crc =? ERROR_NO_ERROR)
                     then Z.lor ERROR_NO_ERROR ERROR_INVALID_CRC
                     else ERROR_NO_ERROR in
      ret (VerifyTrims_records r ret_val)
  end.

(** ** The per-domain loaders *)

Definition ACS_VDDC_CTRL_VTRIM_BYTE := Byte ACS_VDDC_CTRL (VDDC_VTRIM_lane H).
Definition ACS_VDDC_CTRL_STANDBY_VTRIM_BYTE :=
  Byte ACS_VDDC_CTRL (VDDC_STANDBY_VTRIM_lane H).
Definition ACS_VDDM_CTRL_VTRIM_BYTE := Byte ACS_VDDM_CTRL (VDDM_VTRIM_lane H).
Definition ACS_VDDM_CTRL_STANDBY_VTRIM_BYTE :=
  Byte ACS_VDDM_CTRL (VDDM_STANDBY_VTRIM_lane H).
Definition ACS_VDDPA_CTRL_VTRIM_BYTE := Byte ACS_VDDPA_CTRL (VDDPA_VTRIM_lane H).
Definition ACS_VDDRF_CTRL_VTRIM_BYTE := Byte ACS_VDDRF_CTRL (VDDRF_VTRIM_lane H).
Definition ACS_VDDFLASH_CTRL_VTRIM_BYTE :=
  Byte ACS_VDDFLASH_CTRL (VDDFLASH_VTRIM_lane H).
Definition ACS_VDDIF_CTRL_VTRIM_BYTE := Byte ACS_VDDIF_CTRL (VDDIF_VTRIM_lane H).
Definition ACS_RCOSC_CTRL_RC_FTRIM_BYTE := Byte ACS_RCOSC_CTRL (RC_FTRIM_lane H).

(** [if (x) ret_val |= flag] on the result [x] of a lookup. *)
Definition flag_on_error (x flag ret_val : Z) : Z :=
  if negb (x =? 0) then Z.lor ret_val flag else ret_val.

Definition Sys_Trim_LoadBandgap_private (trim_values : option TRIM_Type)
    (target_v target_i : Z) : M Z :=
  match trim_values with
  | None => ret ERROR_NULL
  | Some r =>
      let (e_v, c_v) := GetTrim (Some (member r (o_bandgap H))) target_v
                                (TRIM_RECORDS H) (Some 0) in
      let trim_voltage := cell c_v in
      let ret_val := flag_on_error e_v ERROR_BG_V_INVALID ERROR_NO_ERROR in
      let (e_i, c_i) :=
        GetTrim (Some (member r (o_bandgap H + TRIM_BANDGAP_CURRENT_OFFSET H)))
                target_i (TRIM_RECORDS H) (Some 0) in
      let trim_current := cell c_i in
      let ret_val := flag_on_error e_i ERROR_BG_I_INVALID ret_val in
      let legacy := word_at r (o_CHECKSUM H) <=? MAX_16_BIT in
      let pos := ACS_BG_CTRL_ITRIM_Pos H in
      (if ret_val =? ERROR_NO_ERROR then
         if legacy then
           write32 ACS_BG_CTRL
             (Z.lor (Z.lor (Z.lor
                (Z.land (Z.shiftl trim_current pos) 0xFF000000)
                (Z.land (Z.shiftl trim_current (pos - 2)) 0x00FF0000))
                (Z.land trim_voltage 0x0000FF00))
                (Z.land (Z.shiftr trim_voltage 2) 0x000000FF))
         else
           write32 ACS_BG_CTRL
             (Z.lor (Z.land (Z.shiftl trim_current pos) 0xFFFF0000)
                    (Z.land trim_voltage 0x0000FFFF))
       else if is_zero (Z.land ret_val ERROR_BG_I_INVALID) then
         bg <- read32 ACS_BG_CTRL ;;
         if legacy then
           write32 ACS_BG_CTRL
             (Z.lor (Z.lor (Z.land bg 0x0000FFFF)
                (Z.land (Z.shiftl trim_current pos) 0xFF000000))
                (Z.land (Z.shiftl trim_current (pos - 2)) 0x00FF0000))
         else
           write32 ACS_BG_CTRL
             (Z.lor (Z.land bg 0x0000FFFF)
                    (Z.land (Z.shiftl trim_current pos) 0xFFFF0000))
       else if is_zero (Z.land ret_val ERROR_BG_V_INVALID) then
         bg <- read32 ACS_BG_CTRL ;;
         if legacy then
           write32 ACS_BG_CTRL
             (Z.lor (Z.lor (Z.land bg 0xFFFF0000)
                (Z.land trim_voltage 0x0000FF00))
                (Z.land (Z.shiftr trim_voltage 2) 0x000000FF))
         else
           write32 ACS_BG_CTRL
             (Z.lor (Z.land bg 0xFFFF0000) (Z.land trim_voltage 0x0000FFFF))
       else ret tt) ;;
      ret ret_val
  end.

Definition Sys_Trim_LoadBandgap (trim_values : option TRIM_Type)
    (target_v target_i : Z) : M Z :=
  match trim_values with
  | None => ret ERROR_NULL
  | Some _ => Sys_Trim_LoadBandgap_private trim_values target_v target_i
  end.

Definition Sys_Trim_LoadDCDC_private (trim_values : option TRIM_Type)
    (target : Z) : M Z :=
  vcc <- read32 ACS_VCC_CTRL ;;
  let reg_contents := Z.land vcc (not32 (ACS_VCC_CTRL_VTRIM_Mask H)) in
  match trim_values with
  | None => ret ERROR_NULL
  | Some r =>
      let (ret_val, c) := GetTrim (Some (member r (o_dcdc H))) target
                                  (TRIM_RECORDS H) (Some 0) in
      let trim := cell c in
      if ret_val =? ERROR_NO_ERROR then
        vcc' <- read32 ACS_VCC_CTRL ;;
        write32 ACS_VCC_CTRL
          (Z.lor (if negb (is_zero (Z.land vcc' (VCC_BUCK H)))
                  then Z.shiftr (Z.land trim 0xFF00) 8
                  else Z.land trim 0x00FF)
                 reg_contents) ;;
        ret ret_val
      else ret (Z.lor ret_val ERROR_DCDC_INVALID)
  end.

Definition Sys_Trim_LoadDCDC (trim_values : option TRIM_Type) (target : Z)
    : M Z :=
  match trim_values with
  | None => ret ERROR_NULL
  | Some _ => Sys_Trim_LoadDCDC_private trim_values target
  end.

(** The shape VDDC and VDDM share: two lookups in the same table, each
    result applied to its own byte. *)
Definition load_two (table : words) (flag flag_standby : Z)
    (vtrim standby_vtrim : bytereg) (target target_standby : Z) : M Z :=
  let (e, c) := GetTrim (Some table) target (TRIM_RECORDS H) (Some 0) in
  let trim := cell c in
  let ret_val := flag_on_error e flag ERROR_NO_ERROR in
  let (e_s, c_s) := GetTrim (Some table) target_standby (TRIM_RECORDS H)
                            (Some 0) in
  let standby_trim := cell c_s in
  let ret_val := flag_on_error e_s flag_standby ret_val in
  (if is_zero (Z.land ret_val flag)
   then write8 vtrim (Z.land trim TRIM_8_BIT_TRIM_MASK) else ret tt) ;;
  (if is_zero (Z.land ret_val flag_standby)
   then write8 standby_vtrim (Z.land standby_trim TRIM_8_BIT_TRIM_MASK)
   else ret tt) ;;
  ret ret_val.

Definition Sys_Trim_LoadVDDC_private (trim_values : option TRIM_Type)
    (target target_standby : Z) : M Z :=
  match trim_values with
  | None => ret ERROR_NULL
  | Some r =>
      load_two (member r (o_vddc H)) ERROR_VDDC_INVALID ERROR_VDDC_STBY_INVALID
               ACS_VDDC_CTRL_VTRIM_BYTE ACS_VDDC_CTRL_STANDBY_VTRIM_BYTE
               target target_standby
  end.

Definition Sys_Trim_LoadVDDC (trim_values : option TRIM_Type)
    (target target_standby : Z) : M Z :=
  match trim_values with
  | None => ret ERROR_NULL
  | Some _ => Sys_Trim_LoadVDDC_private trim_values target target_standby
  end.

Definition Sys_Trim_LoadVDDM_private (trim_values : option TRIM_Type)
    (target target_standby : Z) : M Z :=
  match trim_values with
  | None => ret ERROR_NULL
  | Some r =>
      load_two (member r (o_vddm H)) ERROR_VDDM_INVALID ERROR_VDDM_STBY_INVALID
               ACS_VDDM_CTRL_VTRIM_BYTE ACS_VDDM_CTRL_STANDBY_VTRIM_BYTE
               target target_standby
  end.

Definition Sys_Trim_LoadVDDM (trim_values : option TRIM_Type)
    (target target_standby : Z) : M Z :=
  match trim_values with
  | None => ret ERROR_NULL
  | Some _ => Sys_Trim_LoadVDDM_private trim_values target target_standby
  end.

Definition Sys_Trim_LoadVDDPA_private (trim_values : option TRIM_Type)
    (target : Z) : M Z :=
  match trim_values with
  | None => ret ERROR_NULL
  | Some r =>
      let (e, c) := GetTrim (Some (member r (o_vddpa H))) target
                            (TRIM_RECORDS H) (Some 0) in
      let trim := cell c in
      let ret_val := flag_on_error e ERROR_VDDPA_INVALID ERROR_NO_ERROR in
      if ret_val =? ERROR_NO_ERROR then
        write8 ACS_VDDPA_CTRL_VTRIM_BYTE trim ;; ret ret_val
      else ret (Z.lor ret_val ERROR_NO_TRIM_FOUND)
  end.

Definition Sys_Trim_LoadVDDPA (trim_values : option TRIM_Type) (target : Z)
    : M Z :=
  match trim_values with
  | None => ret ERROR_NULL
  | Some _ => Sys_Trim_LoadVDDPA_private trim_values target
  end.

(** The shape VDDRF, VDDFLASH, VDDIF and RCOSC share: one lookup, the low
    byte of the result stored to one byte register. *)
Definition load_byte (table : words) (records : nat) (dest : bytereg)
    (target : Z) : M Z :=
  let (ret_val, c) := GetTrim (Some table) target records (Some 0) in
  let trim := cell c in
  if ret_val =? ERROR_NO_ERROR then
    write8 dest (Z.land trim TRIM_8_BIT_TRIM_MASK) ;; ret ret_val
  else ret ret_val.

Definition Sys_Trim_LoadVDDRF_private (trim_values : option TRIM_Type)
    (target : Z) : M Z :=
  match trim_values with
  | None => ret ERROR_NULL
  | Some r => load_byte (member r (o_vddrf H)) (TRIM_RECORDS H)
                        ACS_VDDRF_CTRL_VTRIM_BYTE target
  end.

Definition Sys_Trim_LoadVDDRF (trim_values : option TRIM_Type) (target : Z)
    : M Z :=
  match trim_values with
  | None => ret ERROR_NULL
  | Some _ => Sys_Trim_LoadVDDRF_private trim_values target
  end.

Definition Sys_Trim_LoadVDDFLASH_private (trim_values : option TRIM_Type)
    (target : Z) : M Z :=
  match trim_values with
  | None => ret ERROR_NULL
  | Some r => load_byte (member r (o_vddflash H)) (TRIM_RECORDS H)
                        ACS_VDDFLASH_CTRL_VTRIM_BYTE target
  end.

Definition Sys_Trim_LoadVDDFLASH (trim_values : option TRIM_Type) (target : Z)
    : M Z :=
  match trim_values with
  | None => ret ERROR_NULL
  | Some _ => Sys_Trim_LoadVDDFLASH_private trim_values target
  end.

Definition Sys_Trim_LoadRCOSC_private (trim_values : option TRIM_Type)
    (target : Z) : M Z :=
  match trim_values with
  | None => ret ERROR_NULL
  | Some r => load_byte (member r (o_rcosc H)) (TRIM_RC_RECORDS H * 4)
                        ACS_RCOSC_CTRL_RC_FTRIM_BYTE target
  end.

Definition Sys_Trim_LoadRCOSC (trim_values : option TRIM_Type) (target : Z)
    : M Z :=
  match trim_values with
  | None => ret ERROR_NULL
  | Some _ => Sys_Trim_LoadRCOSC_private trim_values target
  end.

Definition Sys_Trim_LoadRCOSC32_private (trim_values : option TRIM_Type)
    (target : Z) : M Z :=
  rc <- read32 ACS_RCOSC_CTRL ;;
  let reg_contents := Z.land rc 0xFFFFFF00 in
  match trim_values with
  | None => ret ERROR_NULL
  | Some r =>
      let (ret_val, c) := GetTrim (Some (member r (o_rcosc32 H))) target
                                  (TRIM_RECORDS H) (Some 0) in
      let trim := cell c in
      if ret_val =? ERROR_NO_ERROR then
        write32 ACS_RCOSC_CTRL (Z.lor trim reg_contents) ;; ret ret_val
      else ret ret_val
  end.

Definition Sys_Trim_LoadRCOSC32 (trim_values : option TRIM_Type) (target : Z)
    : M Z :=
  match trim_values with
  | None => ret ERROR_NULL
  | Some _ => Sys_Trim_LoadRCOSC32_private trim_values target
  end.

Definition Sys_Trim_LoadThermistor_private (trim_values : option TRIM_Type)
    (target : Z) : M Z :=
  cfg <- read32 ACS_TEMP_CURR_CFG ;;
  let reg_contents := Z.land cfg 0xFF in
  match trim_values with
  | None => ret ERROR_NULL
  | Some r =>
      let (ret_val, c) := GetTrim (Some (member r (o_thermistor H))) target
                                  (TRIM_THERMISTOR_RECORDS H) (Some 0) in
      let trim := cell c in
      if ret_val =? ERROR_NO_ERROR then
        write32 ACS_TEMP_CURR_CFG (Z.lor (Z.shiftl trim 8) reg_contents) ;;
        ret ret_val
      else ret ret_val
  end.

Definition Sys_Trim_LoadThermistor (trim_values : option TRIM_Type)
    (target : Z) : M Z :=
  match trim_values with
  | None => ret ERROR_NULL
  | Some _ => Sys_Trim_LoadThermistor_private trim_values (uint16_t target)
  end.

(** source/trim_vddif.c, compiled when RSL15_CID is not defined. *)
Definition Sys_Trim_LoadVDDIF_private (trim_values : option TRIM_Type)
    (target : Z) : M Z :=
  match trim_values with
  | None => ret ERROR_NULL
  | Some r => load_byte (member r (o_vddif H)) (TRIM_RECORDS H)
                        ACS_VDDIF_CTRL_VTRIM_BYTE target
  end.

(** [Sys_Trim_LoadVDDIF]: the inline function of include/trim.h when
    RSL15_CID is defined (it ignores both arguments), the function of
    source/trim_vddif.c otherwise. *)
Definition Sys_Trim_LoadVDDIF (trim_values : option TRIM_Type) (target : Z)
    : M Z :=
  if RSL15_CID_defined H then ret ERROR_NO_TRIM_FOUND
  else
    match trim_values with
    | None => ret ERROR_NULL
    | Some _ => Sys_Trim_LoadVDDIF_private trim_values target
    end.

(** ** Sys_Trim_LoadTrims *)

Definition load_trim_functions_2_args
    : list (option TRIM_Type -> Z -> Z -> M Z) :=
  [ Sys_Trim_LoadBandgap_private;
    Sys_Trim_LoadVDDC_private;
    Sys_Trim_LoadVDDM_private ].

Definition load_trim_functions_1_arg
    : list (option TRIM_Type -> Z -> M Z) :=
  [ Sys_Trim_LoadDCDC_private;
    Sys_Trim_LoadVDDRF_private;
    Sys_Trim_LoadVDDPA_private;
    Sys_Trim_LoadVDDIF;
    Sys_Trim_LoadVDDFLASH_private;
    Sys_Trim_LoadRCOSC_private;
    Sys_Trim_LoadRCOSC32_private ].

Fixpoint load_loop_2 (fs : list (option TRIM_Type -> Z -> Z -> M Z))
    (i : nat) (trim_region : option TRIM_Type) (targets_2 : nat -> Z * Z)
    (ret_val : Z) : M Z :=
  match fs with
  | [] => ret ret_val
  | f :: fs' =>
      e <- f trim_region (fst (targets_2 i)) (snd (targets_2 i)) ;;
      load_loop_2 fs' (S i) trim_region targets_2 (Z.lor ret_val e)
  end.

Fixpoint load_loop_1 (fs : list (option TRIM_Type -> Z -> M Z))
    (i : nat) (trim_region : option TRIM_Type) (targets_1 : nat -> Z)
    (ret_val : Z) : M Z :=
  match fs with
  | [] => ret ret_val
  | f :: fs' =>
      e <- f trim_region (targets_1 i) ;;
      load_loop_1 fs' (S i) trim_region targets_1 (Z.lor ret_val e)
  end.

Definition Sys_Trim_LoadTrims (trim_region : option TRIM_Type)
    (targets_1 : nat -> Z) (targets_2 : nat -> Z * Z) : M Z :=
  match trim_region with
  | None => ret ERROR_NULL
  | Some _ =>
      ret_val <- Sys_Trim_VerifyTrims trim_region ;;
      ret_val <- load_loop_2 load_trim_functions_2_args 0 trim_region
                             targets_2 ret_val ;;
      load_loop_1 load_trim_functions_1_arg 0 trim_region targets_1 ret_val
  end.

End Functions.

(** ** The lookup, as the specification words it

    A record is a sentinel when its word is all zero bits or all one bits.
    A record matches a key when the key is its stored target or, for a
    record whose stored target exceeds 8 bits (two packed 8-bit targets), one
    of the two bytes of that target; the value it then supplies is the trim
    half, or the byte of it that goes with the matching byte. *)

Definition sentinel (w : Z) : bool := (w =? 0) || (w =? 0xFFFFFFFF).

Definition record_matches (w key : Z) : bool :=
  let t := target16 w in
  (key =? t)
  || ((t >? 0xFF) && ((key =? Z.land t 0xFF) || (key =? Z.shiftr t 8))).

Definition record_value (w key : Z) : Z :=
  let t := target16 w in
  let v := trim16 w in
  if t >? 0xFF then
    if key =? t then v
    else if key =? Z.land t 0xFF then Z.land v 0xFF
    else Z.shiftr v 8
  else v.

(** ** A header valuation for running the functions

    The statements below hold for every [hw_h]; this one only serves to
    evaluate the functions on concrete regions.  It is not a transcription
    of hw.h. *)
Definition sample_hw (rsl15 : bool) : hw_h :=
  {| RSL15_CID_defined := rsl15;
     TRIM_RECORDS := 4; TRIM_RC_RECORDS := 4; TRIM_THERMISTOR_RECORDS := 2;
     TRIM_BANDGAP_CURRENT_OFFSET := 4;
     o_bandgap := 0; o_dcdc := 8; o_vddc := 12; o_vddm := 16;
     o_vddrf := 20; o_vddpa := 24; o_vddif := 28; o_vddflash := 32;
     o_rcosc := 36; o_rcosc32 := 52; o_thermistor := 56;
     o_lsad_hf_gain := 59; o_lsad_lf_gain := 60; o_temp_sensor_offset := 61;
     o_SOS_REV := 64; o_CHECKSUM := 65;
     f_lsad_hf_offset := F16 58 0; f_lsad_lf_offset := F16 58 16;
     f_thermistor_bias := F16 56 16;
     f_temp_sensor_30C := F16 62 0; f_bandgap_vref_0_75V := F16 62 16;
     f_lsad_vref_1_0V_internal := F16 63 0; f_wedac_600mV := F16 63 16;
     ACS_BG_CTRL_ITRIM_Pos := 16;
     ACS_VCC_CTRL_VTRIM_Mask := 0xFF;
     VCC_BUCK := 0x1000;
     CRC_CCITT := 0; CRC_32 := 1;
     CRC_CCITT_INIT_VALUE := 0xFFFF; CRC_32_INIT_VALUE := 0xFFFFFFFF;
     VDDC_VTRIM_lane := 0; VDDC_STANDBY_VTRIM_lane := 1;
     VDDM_VTRIM_lane := 0; VDDM_STANDBY_VTRIM_lane := 1;
     VDDPA_VTRIM_lane := 0; VDDRF_VTRIM_lane := 0;
     VDDFLASH_VTRIM_lane := 0; VDDIF_VTRIM_lane := 0;
     RC_FTRIM_lane := 1 |}.

(** A region given by its words, erased flash (all ones) beyond them. *)
Definition region_of (l : list Z) : TRIM_Type := fun i => nth i l 0xFFFFFFFF.

(** A toy CRC unit (a running sum) and a silent LSAD, to run the
    functions. *)
Definition sample_device : device :=
  {| crc_step := fun _ _ value data => value + data;
     crc_final := fun _ value => value;
     lsad_data := fun _ _ => 0 |}.

Definition reset_state : state :=
  {| dev := sample_device; regs := fun _ => 0; stores := []; lsad_reads := 0 |}.

(** ** Bit-level facts *)

Lemma land_FFFF_range x : 0 <= Z.land x 0xFFFF < 65536.
Proof.
  change 0xFFFF with (Z.ones 16). rewrite Z.land_ones by lia.
  apply Z.mod_pos_bound. lia.
Qed.

Lemma land_FF_small x : 0 <= x <= 0xFF -> Z.land x 0xFF = x.
Proof.
  intros Hx. change 0xFF with (Z.ones 8). rewrite Z.land_ones by lia.
  apply Z.mod_small. lia.
Qed.

Lemma shiftr_land_FF00 x :
  0 <= x < 65536 -> Z.shiftr (Z.land x 0xFF00) 8 = Z.shiftr x 8.
Proof.
  intros Hx. apply Z.bits_inj'. intros n Hn.
  rewrite !Z.shiftr_spec, Z.land_spec by lia.
  destruct (Z.ltb_spec n 8).
  - replace (Z.testbit 0xFF00 (n + 8)) with true.
    + now rewrite andb_true_r.
    + assert (n = 0 \/ n = 1 \/ n = 2 \/ n = 3 \/ n = 4 \/ n = 5 \/ n = 6 \/ n = 7)
        as Hc by lia.
      destruct Hc as [->|[->|[->|[->|[->|[->|[->| ->]]]]]]]; reflexivity.
  - assert (Z.testbit x (n + 8) = false) as ->; [|reflexivity].
    destruct (Z.eq_dec x 0) as [->|Hne]; [apply Z.bits_0|].
    apply Z.bits_above_log2; [lia|].
    assert (Z.log2 x < 16); [|lia].
    apply Z.log2_lt_pow2; lia.
Qed.

Lemma land_FF_of_no_high x :
  0 <= x < 65536 -> Z.land x 0xFF00 = 0 -> Z.land x 0xFF = x.
Proof.
  intros Hx H0. apply land_FF_small.
  assert (Z.shiftr x 8 = 0) as Hs.
  { rewrite <- shiftr_land_FF00 by lia. now rewrite H0. }
  rewrite Z.shiftr_div_pow2 in Hs by lia.
  change (2 ^ 8) with 256 in Hs.
  assert (x = 256 * (x / 256) + x mod 256) by (apply Z.div_mod; lia).
  assert (0 <= x mod 256 < 256) by (apply Z.mod_pos_bound; lia).
  lia.
Qed.

(** ** Sys_Trim_GetTrim: what one record does *)

Lemma GetTrim_body_record w key :
  sentinel w = false ->
  GetTrim_body w key =
    if record_matches w key
    then (true, ERROR_NO_ERROR, record_value w key)
    else (false, ERROR_NO_TRIM_FOUND, 0xFFFF).
Proof.
  intros Hs. unfold GetTrim_body, record_matches, record_value.
  unfold sentinel in Hs. unfold MIN_32_BIT, MAX_32_BIT. rewrite Hs.
  change (ERROR_NO_ERROR =? ERROR_NO_ERROR) with true.
  rewrite !andb_true_r.
  unfold TRIM_16_BIT_TRIM_MASK, MAX_8_BIT.
  fold (target16 w). fold (trim16 w).
  pose proof (land_FFFF_range (Z.shiftr w 16)) as Ht. fold (target16 w) in Ht.
  pose proof (land_FFFF_range w) as Hv. fold (trim16 w) in Hv.
  destruct (Z.gtb_spec (target16 w) 0xFF) as [Hgt|Hle].
  - rewrite (shiftr_land_FF00 (target16 w)) by lia.
    rewrite (shiftr_land_FF00 (trim16 w)) by lia.
    cbn [andb].
    destruct (key =? target16 w); [reflexivity|].
    destruct (key =? Z.land (target16 w) 0xFF); [reflexivity|].
    destruct (key =? Z.shiftr (target16 w) 8); reflexivity.
  - cbn [andb]. rewrite orb_false_r.
    rewrite (land_FF_small (target16 w)) by lia.
    destruct (Z.eqb_spec (Z.land (trim16 w) 0xFF00) 0) as [H0|H0].
    + rewrite (land_FF_of_no_high (trim16 w)) by lia.
      destruct (key =? target16 w); reflexivity.
    + destruct (key =? target16 w); reflexivity.
Qed.

Lemma GetTrim_body_sentinel w key :
  sentinel w = true -> key <> 0 -> key <> 0xFF ->
  GetTrim_body w key = (false, ERROR_NO_TRIM_FOUND, 0xFFFF).
Proof.
  intros Hs H0 HF. unfold sentinel in Hs.
  apply orb_true_iff in Hs. destruct Hs as [Hs|Hs]; apply Z.eqb_eq in Hs; subst w.
  - unfold GetTrim_body. cbn.
    destruct (Z.eqb_spec key 0); [contradiction|reflexivity].
  - unfold GetTrim_body. cbn.
    destruct (Z.eqb_spec key 255); [contradiction|reflexivity].
Qed.

(** The result of one pass never is [ERROR_INVALID_TRIM]: the value stored
    for a sentinel word is overwritten on every path. *)
Lemma GetTrim_body_result w key :
  snd (fst (GetTrim_body w key)) = ERROR_NO_ERROR
  \/ snd (fst (GetTrim_body w key)) = ERROR_NO_TRIM_FOUND.
Proof.
  unfold GetTrim_body.
  repeat match goal with
         | |- context [if ?c then _ else _] => destruct c
         end; cbn; auto.
Qed.

(** ** The scan *)

Lemma GetTrim_loop_none addr key n : forall i ret_val trim_val,
  (0 < n)%nat ->
  (forall j, (i <= j < i + n)%nat ->
     fst (fst (GetTrim_body (uint32_t (addr j)) key)) = false) ->
  GetTrim_loop addr key n i ret_val trim_val = (ERROR_NO_TRIM_FOUND, 0xFFFF).
Proof.
  induction n as [|n IH]; intros i ret_val trim_val Hn Hnone; [lia|].
  cbn [GetTrim_loop].
  pose proof (Hnone i ltac:(lia)) as Hi.
  pose proof (GetTrim_body_result (uint32_t (addr i)) key) as Hr.
  destruct (GetTrim_body (uint32_t (addr i)) key) as [[b r] v] eqn:Hb.
  cbn in Hi, Hr. subst b.
  destruct n as [|n'].
  - cbn. unfold GetTrim_body in Hb.
    repeat match type of Hb with
           | context [if ?c then _ else _] => destruct c
           end; inversion Hb; reflexivity.
  - apply IH; [lia|]. intros j Hj. apply Hnone. lia.
Qed.

Lemma GetTrim_loop_first addr key k r v : forall n i ret_val trim_val,
  (i <= k < i + n)%nat ->
  (forall j, (i <= j < k)%nat ->
     fst (fst (GetTrim_body (uint32_t (addr j)) key)) = false) ->
  GetTrim_body (uint32_t (addr k)) key = (true, r, v) ->
  GetTrim_loop addr key n i ret_val trim_val = (r, v).
Proof.
  induction n as [|n IH]; intros i ret_val trim_val Hk Hbefore Hhit; [lia|].
  cbn [GetTrim_loop].
  destruct (Nat.eq_dec i k) as [->|Hne].
  - now rewrite Hhit.
  - pose proof (Hbefore i ltac:(lia)) as Hi.
    destruct (GetTrim_body (uint32_t (addr i)) key) as [[b r'] v'].
    cbn in Hi. subst b.
    apply IH; [lia| |assumption].
    intros j Hj. apply Hbefore. lia.
Qed.

Lemma GetTrim_loop_result addr key : forall n i ret_val trim_val,
  (0 < n)%nat ->
  fst (GetTrim_loop addr key n i ret_val trim_val) = ERROR_NO_ERROR
  \/ fst (GetTrim_loop addr key n i ret_val trim_val) = ERROR_NO_TRIM_FOUND.
Proof.
  induction n as [|n IH]; intros i ret_val trim_val Hn; [lia|].
  cbn [GetTrim_loop].
  pose proof (GetTrim_body_result (uint32_t (addr i)) key) as Hr.
  destruct (GetTrim_body (uint32_t (addr i)) key) as [[[|] r] v]; cbn in Hr.
  - exact Hr.
  - destruct n as [|n']; [exact Hr|]. apply IH. lia.
Qed.

(** No call with a table of at least one record returns
    [ERROR_INVALID_TRIM]. *)
Lemma GetTrim_never_INVALID_TRIM indeterminate addr key n v0 :
  (0 < n)%nat ->
  fst (Sys_Trim_GetTrim indeterminate (Some addr) key n (Some v0))
    <> ERROR_INVALID_TRIM.
Proof.
  intros Hn. unfold Sys_Trim_GetTrim.
  pose proof (GetTrim_loop_result addr (uint16_t key) n 0 indeterminate v0 Hn)
    as Hr.
  destruct (GetTrim_loop addr (uint16_t key) n 0 indeterminate v0) as [r v].
  cbn in *. destruct Hr as [-> | ->]; discriminate.
Qed.

Lemma uint16_t_small key : 0 <= key <= 0xFFFF -> uint16_t key = key.
Proof. intros. unfold uint16_t. apply Z.mod_small. lia. Qed.

Lemma no_hit_of_no_match w key :
  key <> 0 -> key <> 0xFF ->
  sentinel w = true \/ record_matches w key = false ->
  fst (fst (GetTrim_body w key)) = false.
Proof.
  intros H0 HF Hw.
  destruct (sentinel w) eqn:Hs.
  - now rewrite GetTrim_body_sentinel.
  - destruct Hw as [Hw|Hw]; [discriminate|].
    rewrite GetTrim_body_record by assumption. now rewrite Hw.
Qed.

(** The lookup where it works as intended.  For a non-null table of at
    least one record, a non-null [trim_val] and a key other than 0 and
    0xFF: if exactly one non-sentinel record matches the key, the lookup
    stores the value of that record through [trim_val] and returns
    [ERROR_NO_ERROR]; if no non-sentinel record matches, it returns
    [ERROR_NO_TRIM_FOUND]; in particular it does for a table of sentinel
    words only. *)
Theorem GetTrim_lookup (indeterminate : Z) (addr : words) (key : Z) (n : nat)
    (v0 : Z) :
  0 <= key <= 0xFFFF -> key <> 0 -> key <> 0xFF -> (0 < n)%nat ->
  (forall k, (k < n)%nat ->
     sentinel (uint32_t (addr k)) = false ->
     record_matches (uint32_t (addr k)) key = true ->
     (forall j, (j < n)%nat -> j <> k ->
        sentinel (uint32_t (addr j)) = true
        \/ record_matches (uint32_t (addr j)) key = false) ->
     Sys_Trim_GetTrim indeterminate (Some addr) key n (Some v0)
       = (ERROR_NO_ERROR, Some (record_value (uint32_t (addr k)) key)))
  /\ ((forall j, (j < n)%nat ->
         sentinel (uint32_t (addr j)) = true
         \/ record_matches (uint32_t (addr j)) key = false) ->
      Sys_Trim_GetTrim indeterminate (Some addr) key n (Some v0)
        = (ERROR_NO_TRIM_FOUND, Some 0xFFFF))
  /\ ((forall j, (j < n)%nat -> sentinel (uint32_t (addr j)) = true) ->
      Sys_Trim_GetTrim indeterminate (Some addr) key n (Some v0)
        = (ERROR_NO_TRIM_FOUND, Some 0xFFFF)).
Proof.
  intros Hkey H0 HF Hn.
  assert (Hnone : (forall j, (j < n)%nat ->
              sentinel (uint32_t (addr j)) = true
              \/ record_matches (uint32_t (addr j)) key = false) ->
            Sys_Trim_GetTrim indeterminate (Some addr) key n (Some v0)
              = (ERROR_NO_TRIM_FOUND, Some 0xFFFF)).
  { intros Hall. unfold Sys_Trim_GetTrim. rewrite uint16_t_small by assumption.
    rewrite (GetTrim_loop_none addr key n 0 indeterminate v0 Hn); [reflexivity|].
    intros j Hj. apply no_hit_of_no_match; auto. apply Hall. lia. }
  split; [|split].
  - intros k Hk Hs Hm Hothers.
    unfold Sys_Trim_GetTrim. rewrite uint16_t_small by assumption.
    rewrite (GetTrim_loop_first addr key k ERROR_NO_ERROR
               (record_value (uint32_t (addr k)) key) n 0 indeterminate v0);
      [reflexivity|lia| |].
    + intros j Hj. apply no_hit_of_no_match; auto. apply Hothers; lia.
    + rewrite GetTrim_body_record by assumption. now rewrite Hm.
  - exact Hnone.
  - intros Hall. apply Hnone. intros j Hj. left. now apply Hall.
Qed.

Definition vddc_table : words :=
  region_of [0xFFFFFFFF; 0x50730A12; 0x50640B0F].

Lemma GetTrim_lookup_witness :
  Sys_Trim_GetTrim 0 (Some vddc_table) 115 3 (Some 0)
    = (ERROR_NO_ERROR, Some 0x12).
Proof.
  pose proof (GetTrim_lookup 0 vddc_table 115 3 0
                ltac:(lia) ltac:(lia) ltac:(lia) ltac:(lia)) as [Hone _].
  apply (Hone 1%nat); [lia|reflexivity|reflexivity|].
  intros j Hj Hne.
  destruct j as [|[|[|j]]]; [left; reflexivity|congruence|right; reflexivity|lia].
Defined.

(** Erased flash, and flash programmed with zeros. *)
Definition erased_table : words := region_of [0xFFFFFFFF; 0xFFFFFFFF].
Definition zeroed_table : words := region_of [0x00000000; 0x00000000].

(** C6, at the inputs where the code departs from it.  For a sentinel word
    the loop body sets [ret_val] to [ERROR_INVALID_TRIM] and skips the two
    branches that test it, but the last branch does not test it: it
    compares the key with the low byte of the word's target half and
    overwrites [ret_val].  So in a table of erased words the lookup of the
    key 0xFF succeeds with the value 0xFFFF, in a table of zero words the
    lookup of the key 0 succeeds with the value 0, and the lookup of 115 in
    the erased table returns [ERROR_NO_TRIM_FOUND]: no table of at least
    one record makes the function return [ERROR_INVALID_TRIM].  A record
    for 115 whose trim half is all ones is returned as found.  On an empty
    table the loop body never runs and the function returns [ret_val] as
    it was left uninitialised. *)
Theorem GetTrim_sentinel_not_rejected :
  (forall i, sentinel (uint32_t (erased_table i)) = true)
  /\ Sys_Trim_GetTrim 0 (Some erased_table) 0xFF 2 (Some 0)
       = (ERROR_NO_ERROR, Some 0xFFFF)
  /\ (forall i, (i < 2)%nat -> sentinel (uint32_t (zeroed_table i)) = true)
  /\ Sys_Trim_GetTrim 0 (Some zeroed_table) 0 2 (Some 0xFFFF)
       = (ERROR_NO_ERROR, Some 0)
  /\ Sys_Trim_GetTrim 0 (Some erased_table) 115 2 (Some 0)
       = (ERROR_NO_TRIM_FOUND, Some 0xFFFF)
  /\ (forall indeterminate addr key n v0, (0 < n)%nat ->
        fst (Sys_Trim_GetTrim indeterminate (Some addr) key n (Some v0))
          <> ERROR_INVALID_TRIM)
  /\ Sys_Trim_GetTrim 0 (Some (region_of [0x0073FFFF])) 115 1 (Some 0)
       = (ERROR_NO_ERROR, Some 0xFFFF)
  /\ (forall indeterminate addr key v0,
        Sys_Trim_GetTrim indeterminate (Some addr) key 0 (Some v0)
          = (indeterminate, Some v0))
  /\ ERROR_NO_ERROR <> ERROR_NO_TRIM_FOUND
  /\ ERROR_NO_TRIM_FOUND <> ERROR_INVALID_TRIM
  /\ ERROR_NO_ERROR <> ERROR_INVALID_TRIM.
Proof.
  split.
  { intros i. unfold erased_table, region_of.
    destruct i as [|[|[|i]]]; reflexivity. }
  split; [reflexivity|].
  split.
  { intros i Hi. destruct i as [|[|i]]; [reflexivity|reflexivity|lia]. }
  split; [reflexivity|].
  split; [reflexivity|].
  split; [intros; now apply GetTrim_never_INVALID_TRIM|].
  split; [reflexivity|].
  split; [reflexivity|].
  repeat split; discriminate.
Qed.

(** ** Sys_Trim_CheckCRC *)

(** The CRC of a list of words, as the unit accumulates it under the
    configuration [cfg] from the initial value [init]. *)
Definition crc_of_words (d : device) (cfg init : Z) (ws : list Z) : Z :=
  uint32_t (crc_final d cfg
              (fold_left (fun value w => uint32_t (crc_step d cfg 4 value w))
                         ws init)).

(** The words the check covers: from the base of the region up to and
    including [SOS_REV]. *)
Definition covered_words (H : hw_h) (r : TRIM_Type) : list Z :=
  map (word_at r) (seq 0 (S (o_SOS_REV H))).

(** The engine the stored checksum selects, and its initial value. *)
Definition engine_for (H : hw_h) (checksum : Z) : Z * Z :=
  if checksum <=? 0xFFFF
  then (uint32_t (CRC_CCITT H), uint32_t (CRC_CCITT_INIT_VALUE H))
  else (uint32_t (CRC_32 H), uint32_t (CRC_32_INIT_VALUE H)).

Definition region_crc (H : hw_h) (d : device) (r : TRIM_Type) : Z :=
  let (cfg, init) := engine_for H (word_at r (o_CHECKSUM H)) in
  crc_of_words d cfg init (covered_words H r).

Lemma uint32_t_idem z : uint32_t (uint32_t z) = uint32_t z.
Proof. unfold uint32_t. apply Z.mod_mod. lia. Qed.

Lemma CheckCRC_loop_step r n i s :
  CheckCRC_loop r (S n) i s
    = CheckCRC_loop r n (S i) (snd (crc_add 4 (word_at r i) s)).
Proof. reflexivity. Qed.

Lemma CheckCRC_loop_spec r : forall n i s,
  dev (snd (CheckCRC_loop r n i s)) = dev s
  /\ regs (snd (CheckCRC_loop r n i s)) CRC_CFG = regs s CRC_CFG
  /\ regs (snd (CheckCRC_loop r n i s)) CRC_VALUE =
       fold_left (fun value w =>
                    uint32_t (crc_step (dev s) (regs s CRC_CFG) 4 value w))
                 (map (word_at r) (seq i n)) (regs s CRC_VALUE).
Proof.
  induction n as [|n IH]; intros i s.
  - cbn. auto.
  - rewrite CheckCRC_loop_step.
    destruct (IH (S i) (snd (crc_add 4 (word_at r i) s))) as (Hd & Hc & Hv).
    rewrite Hd, Hc, Hv. unfold crc_add. cbn [snd dev regs].
    rewrite upd_same. rewrite upd_other by discriminate.
    repeat split. cbn [seq map fold_left].
    unfold word_at at 2. now rewrite uint32_t_idem.
Qed.

Lemma CheckCRC_result H r s :
  fst (Sys_Trim_CheckCRC H r s) =
    (if word_at r (o_CHECKSUM H) =? region_crc H (dev s) r
     then ERROR_NO_ERROR else ERROR_INVALID_CRC)
  /\ regs (snd (Sys_Trim_CheckCRC H r s)) CRC_CFG
       = fst (engine_for H (word_at r (o_CHECKSUM H)))
  /\ dev (snd (Sys_Trim_CheckCRC H r s)) = dev s.
Proof.
  unfold Sys_Trim_CheckCRC, region_crc, engine_for, crc_of_words, covered_words.
  unfold MAX_16_BIT.
  destruct (word_at r (o_CHECKSUM H) <=? 0xFFFF).
  - unfold bind, write32, read_crc_final, ret. cbn [dev regs].
    match goal with
    | |- context [CheckCRC_loop r ?n ?i ?st] =>
        pose proof (CheckCRC_loop_spec r n i st) as Hl;
        destruct (CheckCRC_loop r n i st) as [[] s2]
    end.
    cbn [snd fst dev regs] in *. destruct Hl as (Hd & Hc & Hv).
    rewrite Hd, Hc, Hv. rewrite upd_same.
    rewrite upd_other by discriminate. rewrite upd_same.
    cbn [Z.shiftr].
    destruct (_ =? _); cbn [fst snd dev]; auto.
  - unfold bind, write32, read_crc_final, ret. cbn [dev regs].
    match goal with
    | |- context [CheckCRC_loop r ?n ?i ?st] =>
        pose proof (CheckCRC_loop_spec r n i st) as Hl;
        destruct (CheckCRC_loop r n i st) as [[] s2]
    end.
    cbn [snd fst dev regs] in *. destruct Hl as (Hd & Hc & Hv).
    rewrite Hd, Hc, Hv. rewrite upd_same.
    rewrite upd_other by discriminate. rewrite upd_same.
    destruct (_ =? _); cbn [fst snd dev]; auto.
Qed.

(** C7.  For every trim region, [Sys_Trim_CheckCRC] configures the CRC unit
    for CRC-CCITT when the stored CHECKSUM is at most 0xFFFF and for CRC-32
    otherwise, accumulates the CRC over the words from the base of the
    region up to and including SOS_REV, and returns [ERROR_NO_ERROR] exactly
    when that CRC equals the stored CHECKSUM, [ERROR_INVALID_CRC]
    otherwise. *)
Theorem CheckCRC_correct (H : hw_h) (r : TRIM_Type) (s : state) :
  let checksum := word_at r (o_CHECKSUM H) in
  let result := fst (Sys_Trim_CheckCRC H r s) in
  let engine := regs (snd (Sys_Trim_CheckCRC H r s)) CRC_CFG in
  let crc :=
    crc_of_words (dev s) engine
      (if checksum <=? 0xFFFF
       then uint32_t (CRC_CCITT_INIT_VALUE H)
       else uint32_t (CRC_32_INIT_VALUE H))
      (map (word_at r) (seq 0 (S (o_SOS_REV H)))) in
  engine = (if checksum <=? 0xFFFF
            then uint32_t (CRC_CCITT H) else uint32_t (CRC_32 H))
  /\ (result = ERROR_NO_ERROR <-> checksum = crc)
  /\ (result = ERROR_INVALID_CRC <-> checksum <> crc).
Proof.
  cbn zeta.
  destruct (CheckCRC_result H r s) as (Hres & Hcfg & _).
  rewrite Hres, Hcfg. unfold region_crc, engine_for, covered_words.
  destruct (word_at r (o_CHECKSUM H) <=? 0xFFFF); cbn [fst];
    (split; [reflexivity|]);
    match goal with
    | |- context [?a =? ?b] => destruct (Z.eqb_spec a b)
    end; (split; split; intros; try assumption; try reflexivity;
          try discriminate; try contradiction).
Qed.

(** ** Sys_Trim_VerifyTrims: the bits of the result *)

Lemma testbit_flag m k :
  0 <= m -> Z.testbit (Z.shiftl 1 m) k = (m =? k).
Proof.
  intros Hm. rewrite Z.shiftl_1_l. now apply Z.pow2_bits_eqb.
Qed.

Lemma testbit_not32 x k :
  0 <= k < 32 -> Z.testbit (not32 x) k = negb (Z.testbit x k).
Proof.
  intros Hk. unfold not32. rewrite Z.lxor_spec.
  change 0xFFFFFFFF with (Z.ones 32).
  rewrite Z.ones_spec_low by lia. now destruct (Z.testbit x k).
Qed.

Lemma testbit_flag_if c m e k :
  0 <= m ->
  Z.testbit (flag_if c (Z.shiftl 1 m) e) k = Z.testbit e k || (c && (m =? k)).
Proof.
  intros Hm. unfold flag_if. destruct c.
  - now rewrite Z.lor_spec, testbit_flag.
  - cbn. now rewrite orb_false_r.
Qed.

(** What a domain sees of the state of the first loop: its own
    [valid_found] entry and its own flag bit. *)
Definition dview (name : nat) (m : Z) (st : (nat -> bool) * Z) : bool * bool :=
  (fst st name, Z.testbit (snd st) m).

Definition dview_step (invalid : bool) (v : bool * bool) : bool * bool :=
  if fst v then v else (negb invalid, invalid).

Lemma check_dview_same name m invalid st :
  0 <= m < 32 ->
  dview name m (check name (Z.shiftl 1 m) invalid st)
    = dview_step invalid (dview name m st).
Proof.
  intros Hm. destruct st as [vf e]. unfold check, dview, dview_step. cbn [fst snd].
  destruct (vf name) eqn:Hvf; cbn [negb].
  - cbn [fst snd]. now rewrite Hvf.
  - destruct invalid; cbn [fst snd negb].
    + rewrite Hvf, Z.lor_spec, testbit_flag, Z.eqb_refl by lia.
      now rewrite orb_true_r.
    + unfold set_found. rewrite Nat.eqb_refl.
      rewrite Z.land_spec, testbit_not32, testbit_flag, Z.eqb_refl by lia.
      now rewrite andb_false_r.
Qed.

Lemma check_dview_other name m name' m' invalid st :
  name' <> name -> m' <> m -> 0 <= m -> 0 <= m' < 32 ->
  dview name' m' (check name (Z.shiftl 1 m) invalid st) = dview name' m' st.
Proof.
  intros Hn Hm H0 H1. destruct st as [vf e]. unfold check, dview. cbn [fst snd].
  assert (Hne : (m =? m') = false) by (apply Z.eqb_neq; lia).
  destruct (vf name); cbn [negb]; [reflexivity|].
  destruct invalid; cbn [fst snd].
  - rewrite Z.lor_spec, testbit_flag, Hne by lia. now rewrite orb_false_r.
  - unfold set_found.
    assert ((name' =? name)%nat = false) as -> by now apply Nat.eqb_neq.
    rewrite Z.land_spec, testbit_not32, testbit_flag, Hne by lia.
    now rewrite andb_true_r.
Qed.

Lemma check_bit_other name m invalid st k :
  k <> m -> 0 <= m -> 0 <= k < 32 ->
  Z.testbit (snd (check name (Z.shiftl 1 m) invalid st)) k
    = Z.testbit (snd st) k.
Proof.
  intros Hk H0 H1. destruct st as [vf e]. unfold check. cbn [fst snd].
  assert (Hne : (m =? k) = false) by (apply Z.eqb_neq; lia).
  destruct (vf name); cbn [negb]; [reflexivity|].
  destruct invalid; cbn [fst snd].
  - rewrite Z.lor_spec, testbit_flag, Hne by lia. now rewrite orb_false_r.
  - rewrite Z.land_spec, testbit_not32, testbit_flag, Hne by lia.
    now rewrite andb_true_r.
Qed.

(** The sentinel test each block of the first loop makes on sub-record
    [i] of its domain. *)
Definition invalid_at (H : hw_h) (r : TRIM_Type) (name i : nat) : bool :=
  match name with
  | 0%nat => sentinel16 (target16 (word_at r (o_bandgap H + i)))
  | 1%nat => sentinel16 (target16 (word_at r (o_dcdc H + i)))
  | 2%nat => sentinel8 (target_voltage (word_at r (o_vddc H + i)))
  | 3%nat => sentinel8 (target_voltage (word_at r (o_vddm H + i)))
  | 4%nat => sentinel16 (trim16 (word_at r (o_vddrf H + i)))
  | _ => sentinel8 (target_voltage (word_at r (o_vddpa H + i)))
  end.

(** The bit of the flag of the domain [name] of the first loop. *)
Definition flag_bit (name : nat) : Z :=
  match name with
  | 0%nat => 6 | 1%nat => 9 | 2%nat => 10 | 3%nat => 12 | 4%nat => 14 | _ => 15
  end.

Ltac unfold_flags :=
  unfold ERROR_BG_INVALID, ERROR_DCDC_INVALID, ERROR_VDDC_INVALID,
    ERROR_VDDM_INVALID, ERROR_VDDRF_INVALID, ERROR_VDDPA_INVALID,
    ERROR_VDDIF_INVALID, ERROR_VDDFLASH_INVALID, ERROR_RCOSC_INVALID,
    ERROR_RCOSC32_INVALID, ERROR_LSAD_INVALID, ERROR_TEMPERATURE_INVALID,
    ERROR_THERMISTOR_INVALID, ERROR_MEASURED_INVALID, ERROR_INVALID_CRC in *.

Lemma voltage_body_dview H r i st name :
  (name < 6)%nat ->
  dview name (flag_bit name) (voltage_body H r i st)
    = dview_step (invalid_at H r name i) (dview name (flag_bit name) st).
Proof.
  intros Hname. unfold voltage_body. unfold_flags.
  unfold TRIM_BANDGAP, TRIM_DCDC, TRIM_VDDC, TRIM_VDDM, TRIM_VDDRF, TRIM_VDDPA.
  destruct name as [|[|[|[|[|[|name]]]]]]; [..|lia]; cbn [flag_bit invalid_at];
    repeat first
      [ rewrite check_dview_same by lia
      | rewrite check_dview_other by (try discriminate; lia) ];
    reflexivity.
Qed.

Lemma voltage_body_bit_other H r i st k :
  0 <= k < 32 ->
  k <> 6 -> k <> 9 -> k <> 10 -> k <> 12 -> k <> 14 -> k <> 15 ->
  Z.testbit (snd (voltage_body H r i st)) k = Z.testbit (snd st) k.
Proof.
  intros. unfold voltage_body. unfold_flags.
  now rewrite !check_bit_other by lia.
Qed.

Lemma voltage_loop_dview H r name : forall n i st,
  (name < 6)%nat ->
  dview name (flag_bit name) (voltage_loop H r n i st)
    = fold_left (fun v j => dview_step (invalid_at H r name j) v)
                (seq i n) (dview name (flag_bit name) st).
Proof.
  induction n as [|n IH]; intros i st Hname; [reflexivity|].
  cbn [voltage_loop seq fold_left]. rewrite IH by assumption.
  now rewrite voltage_body_dview.
Qed.

Lemma voltage_loop_bit_other H r k : forall n i st,
  0 <= k < 32 ->
  k <> 6 -> k <> 9 -> k <> 10 -> k <> 12 -> k <> 14 -> k <> 15 ->
  Z.testbit (snd (voltage_loop H r n i st)) k = Z.testbit (snd st) k.
Proof.
  induction n as [|n IH]; intros i st; intros; [reflexivity|].
  cbn [voltage_loop]. rewrite IH by assumption.
  now apply voltage_body_bit_other.
Qed.

(** After the four passes the flag of a domain is set exactly when all
    four of its sub-records failed the test. *)
Lemma voltage_loop_flag H r name c :
  (name < 6)%nat ->
  Z.testbit (snd (voltage_loop H r 4 0 (fun _ => false, c))) (flag_bit name)
    = invalid_at H r name 0 && invalid_at H r name 1
      && invalid_at H r name 2 && invalid_at H r name 3.
Proof.
  intros Hname.
  pose proof (voltage_loop_dview H r name 4 0 (fun _ => false, c) Hname) as Hv.
  unfold dview in Hv at 1. apply (f_equal snd) in Hv. cbn [snd] in Hv.
  rewrite Hv. cbn [seq fold_left]. unfold dview. cbn [fst snd].
  unfold dview_step.
  destruct (invalid_at H r name 0), (invalid_at H r name 1),
    (invalid_at H r name 2), (invalid_at H r name 3); reflexivity.
Qed.

Lemma rcosc_loop_bit H r k : forall n i e,
  Z.testbit (rcosc_loop H r n i e) k
    = Z.testbit e k
      || (existsb (fun j => sentinel16 (target16 (word_at r (o_rcosc H + j * 2))))
                  (seq i n)
          && (19 =? k)).
Proof.
  induction n as [|n IH]; intros i e.
  - cbn. now rewrite orb_false_r.
  - cbn [rcosc_loop seq existsb]. rewrite IH.
    unfold ERROR_RCOSC_INVALID. rewrite testbit_flag_if by lia.
    destruct (Z.testbit e k), (sentinel16 _), (existsb _ _), (19 =? k);
      reflexivity.
Qed.

Ltac simpl_bits :=
  cbn [Z.eqb Pos.eqb];
  repeat rewrite ?andb_false_r, ?orb_false_r, ?andb_true_r, ?orb_false_l.

(** The flag of a domain of the first loop, in the final result. *)
Lemma records_loop_flag H r c name :
  (name < 6)%nat ->
  Z.testbit (VerifyTrims_records H r c) (flag_bit name)
    = invalid_at H r name 0 && invalid_at H r name 1
      && invalid_at H r name 2 && invalid_at H r name 3.
Proof.
  intros Hname. unfold VerifyTrims_records. cbv zeta. unfold_flags.
  rewrite !testbit_flag_if by lia. rewrite rcosc_loop_bit.
  rewrite !testbit_flag_if by lia.
  rewrite voltage_loop_flag by assumption.
  destruct name as [|[|[|[|[|[|name]]]]]]; [..|lia]; cbn [flag_bit];
    simpl_bits; reflexivity.
Qed.

(** Every other bit, in the final result. *)
Lemma records_other_bit H r c k :
  0 <= k < 32 ->
  k <> 6 -> k <> 9 -> k <> 10 -> k <> 12 -> k <> 14 -> k <> 15 ->
  Z.testbit (VerifyTrims_records H r c) k
    = Z.testbit c k
      || (sentinel16 (target16 (word_at r (o_vddif H + 0))) && (17 =? k))
      || (sentinel16 (target16 (word_at r (o_vddflash H + 0))) && (18 =? k))
      || (existsb (fun j => sentinel16 (target16 (word_at r (o_rcosc H + j * 2))))
                  (seq 0 (TRIM_RC_RECORDS H)) && (19 =? k))
      || (sentinel16 (target16 (word_at r (o_rcosc32 H + 0))) && (20 =? k))
      || (sentinel16 (get16 r (f_lsad_hf_offset H)) && (21 =? k))
      || (((word_at r (o_lsad_hf_gain H) =? MIN_32_BIT)
           || (word_at r (o_lsad_lf_gain H) =? MAX_32_BIT)) && (21 =? k))
      || (sentinel32 (word_at r (o_temp_sensor_offset H)) && (22 =? k))
      || (sentinel16 (get16 r (f_thermistor_bias H)) && (23 =? k))
      || (measured_invalid H r && (25 =? k)).
Proof.
  intros. unfold VerifyTrims_records. cbv zeta. unfold_flags.
  rewrite !testbit_flag_if by lia. rewrite rcosc_loop_bit.
  rewrite !testbit_flag_if by lia.
  now rewrite voltage_loop_bit_other by assumption.
Qed.

Lemma all4_spec (f : nat -> bool) :
  f 0%nat && f 1%nat && f 2%nat && f 3%nat = true
  <-> (forall i, (i < 4)%nat -> f i = true).
Proof.
  split.
  - intros Hall i Hi. rewrite !andb_true_iff in Hall.
    destruct Hall as [[[H0 H1] H2] H3].
    destruct i as [|[|[|[|i]]]]; try assumption; lia.
  - intros Hall. rewrite !andb_true_iff. repeat split; apply Hall; lia.
Qed.

Lemma existsb_seq (f : nat -> bool) n :
  existsb f (seq 0 n) = true <-> (exists i, (i < n)%nat /\ f i = true).
Proof.
  rewrite existsb_exists. split; intros [i [Hi Hf]]; exists i; split;
    try assumption; rewrite in_seq in *; lia.
Qed.

(** Whether the result [e] carries the (single-bit) flag. *)
Definition flagged (e flag : Z) : bool := Z.testbit e (Z.log2 flag).

(** C5, as amended.  For every non-null trim region the result of
    [Sys_Trim_VerifyTrims] carries [ERROR_INVALID_CRC] exactly when
    [Sys_Trim_CheckCRC] fails, and, whatever the CRC and the other domains
    are: the flag of bandgap, DCDC, VDDC, VDDM and VDDPA exactly when all
    four sub-records of the domain have a sentinel target; the flag of
    VDDIF, VDDFLASH, RCOSC32 and the thermistor exactly when the first
    sub-record of the domain has a sentinel target; the RCOSC flag exactly
    when at least one of the TRIM_RC_RECORDS checked records has a sentinel
    target; the temperature flag exactly when the sensor offset is a
    sentinel; the measured-reference flag exactly when one of the four
    measured values is a sentinel; the VDDRF flag exactly when all four
    VDDRF sub-records have a sentinel trim; the LSAD flag whenever the
    LSAD high-frequency offset is a sentinel. *)
Theorem VerifyTrims_flags (H : hw_h) (r : TRIM_Type) (s : state) :
  let e := fst (Sys_Trim_VerifyTrims H (Some r) s) in
  (flagged e ERROR_INVALID_CRC = true
     <-> fst (Sys_Trim_CheckCRC H r s) <> ERROR_NO_ERROR)
  /\ (flagged e ERROR_BG_INVALID = true
     <-> forall i, (i < 4)%nat ->
           sentinel16 (target16 (word_at r (o_bandgap H + i))) = true)
  /\ (flagged e ERROR_DCDC_INVALID = true
     <-> forall i, (i < 4)%nat ->
           sentinel16 (target16 (word_at r (o_dcdc H + i))) = true)
  /\ (flagged e ERROR_VDDC_INVALID = true
     <-> forall i, (i < 4)%nat ->
           sentinel8 (target_voltage (word_at r (o_vddc H + i))) = true)
  /\ (flagged e ERROR_VDDM_INVALID = true
     <-> forall i, (i < 4)%nat ->
           sentinel8 (target_voltage (word_at r (o_vddm H + i))) = true)
  /\ (flagged e ERROR_VDDPA_INVALID = true
     <-> forall i, (i < 4)%nat ->
           sentinel8 (target_voltage (word_at r (o_vddpa H + i))) = true)
  /\ (flagged e ERROR_VDDIF_INVALID = true
     <-> sentinel16 (target16 (word_at r (o_vddif H))) = true)
  /\ (flagged e ERROR_VDDFLASH_INVALID = true
     <-> sentinel16 (target16 (word_at r (o_vddflash H))) = true)
  /\ (flagged e ERROR_RCOSC32_INVALID = true
     <-> sentinel16 (target16 (word_at r (o_rcosc32 H))) = true)
  /\ (flagged e ERROR_THERMISTOR_INVALID = true
     <-> sentinel16 (get16 r (f_thermistor_bias H)) = true)
  /\ (flagged e ERROR_RCOSC_INVALID = true
     <-> exists i, (i < TRIM_RC_RECORDS H)%nat
           /\ sentinel16 (target16 (word_at r (o_rcosc H + i * 2))) = true)
  /\ (flagged e ERROR_TEMPERATURE_INVALID = true
     <-> sentinel32 (word_at r (o_temp_sensor_offset H)) = true)
  /\ (flagged e ERROR_MEASURED_INVALID = true
     <-> sentinel16 (get16 r (f_temp_sensor_30C H)) = true
         \/ sentinel16 (get16 r (f_bandgap_vref_0_75V H)) = true
         \/ sentinel16 (get16 r (f_lsad_vref_1_0V_internal H)) = true
         \/ sentinel16 (get16 r (f_wedac_600mV H)) = true)
  /\ (flagged e ERROR_VDDRF_INVALID = true
     <-> forall i, (i < 4)%nat ->
           sentinel16 (trim16 (word_at r (o_vddrf H + i))) = true)
  /\ (sentinel16 (get16 r (f_lsad_hf_offset H)) = true ->
      flagged e ERROR_LSAD_INVALID = true).
Proof.
  cbv zeta. unfold Sys_Trim_VerifyTrims, bind, ret.
  destruct (Sys_Trim_CheckCRC H r s) as [crc s'] eqn:Hcrc. cbn [fst].
  unfold flagged.
  set (c := if negb (crc =? ERROR_NO_ERROR)
            then Z.lor ERROR_NO_ERROR ERROR_INVALID_CRC else ERROR_NO_ERROR).
  assert (Hc : forall k, Z.testbit c k = negb (crc =? ERROR_NO_ERROR) && (5 =? k)).
  { intros k. subst c. destruct (negb (crc =? ERROR_NO_ERROR)); cbn [andb].
    - change (Z.lor ERROR_NO_ERROR ERROR_INVALID_CRC) with (Z.shiftl 1 5).
      now rewrite testbit_flag by lia.
    - apply Z.bits_0. }
  repeat match goal with |- _ /\ _ => split end;
    try match goal with |- _ <-> _ => split end.
  - change (Z.log2 ERROR_INVALID_CRC) with 5.
    rewrite records_other_bit, Hc by lia. simpl_bits.
    intros Hb ->. discriminate.
  - change (Z.log2 ERROR_INVALID_CRC) with 5.
    rewrite records_other_bit, Hc by lia. simpl_bits.
    intros Hne. destruct (Z.eqb_spec crc ERROR_NO_ERROR); [contradiction|reflexivity].
  - change (Z.log2 ERROR_BG_INVALID) with (flag_bit 0).
    rewrite records_loop_flag by lia. apply all4_spec.
  - change (Z.log2 ERROR_BG_INVALID) with (flag_bit 0).
    rewrite records_loop_flag by lia. apply all4_spec.
  - change (Z.log2 ERROR_DCDC_INVALID) with (flag_bit 1).
    rewrite records_loop_flag by lia. apply all4_spec.
  - change (Z.log2 ERROR_DCDC_INVALID) with (flag_bit 1).
    rewrite records_loop_flag by lia. apply all4_spec.
  - change (Z.log2 ERROR_VDDC_INVALID) with (flag_bit 2).
    rewrite records_loop_flag by lia. apply all4_spec.
  - change (Z.log2 ERROR_VDDC_INVALID) with (flag_bit 2).
    rewrite records_loop_flag by lia. apply all4_spec.
  - change (Z.log2 ERROR_VDDM_INVALID) with (flag_bit 3).
    rewrite records_loop_flag by lia. apply all4_spec.
  - change (Z.log2 ERROR_VDDM_INVALID) with (flag_bit 3).
    rewrite records_loop_flag by lia. apply all4_spec.
  - change (Z.log2 ERROR_VDDPA_INVALID) with (flag_bit 5).
    rewrite records_loop_flag by lia. apply all4_spec.
  - change (Z.log2 ERROR_VDDPA_INVALID) with (flag_bit 5).
    rewrite records_loop_flag by lia. apply all4_spec.
  - change (Z.log2 ERROR_VDDIF_INVALID) with 17.
    rewrite records_other_bit, Hc by lia. simpl_bits.
    now rewrite Nat.add_0_r.
  - change (Z.log2 ERROR_VDDIF_INVALID) with 17.
    rewrite records_other_bit, Hc by lia. simpl_bits.
    now rewrite Nat.add_0_r.
  - change (Z.log2 ERROR_VDDFLASH_INVALID) with 18.
    rewrite records_other_bit, Hc by lia. simpl_bits.
    now rewrite Nat.add_0_r.
  - change (Z.log2 ERROR_VDDFLASH_INVALID) with 18.
    rewrite records_other_bit, Hc by lia. simpl_bits.
    now rewrite Nat.add_0_r.
  - change (Z.log2 ERROR_RCOSC32_INVALID) with 20.
    rewrite records_other_bit, Hc by lia. simpl_bits.
    now rewrite Nat.add_0_r.
  - change (Z.log2 ERROR_RCOSC32_INVALID) with 20.
    rewrite records_other_bit, Hc by lia. simpl_bits.
    now rewrite Nat.add_0_r.
  - change (Z.log2 ERROR_THERMISTOR_INVALID) with 23.
    rewrite records_other_bit, Hc by lia. simpl_bits. trivial.
  - change (Z.log2 ERROR_THERMISTOR_INVALID) with 23.
    rewrite records_other_bit, Hc by lia. simpl_bits. trivial.
  - change (Z.log2 ERROR_RCOSC_INVALID) with 19.
    rewrite records_other_bit, Hc by lia. simpl_bits.
    intros Hb. now apply existsb_seq in Hb.
  - change (Z.log2 ERROR_RCOSC_INVALID) with 19.
    rewrite records_other_bit, Hc by lia. simpl_bits.
    intros Hb. now apply existsb_seq.
  - change (Z.log2 ERROR_TEMPERATURE_INVALID) with 22.
    rewrite records_other_bit, Hc by lia. simpl_bits. trivial.
  - change (Z.log2 ERROR_TEMPERATURE_INVALID) with 22.
    rewrite records_other_bit, Hc by lia. simpl_bits. trivial.
  - change (Z.log2 ERROR_MEASURED_INVALID) with 25.
    rewrite records_other_bit, Hc by lia. simpl_bits.
    unfold measured_invalid. rewrite !orb_true_iff. tauto.
  - change (Z.log2 ERROR_MEASURED_INVALID) with 25.
    rewrite records_other_bit, Hc by lia. simpl_bits.
    unfold measured_invalid. rewrite !orb_true_iff. tauto.
  - change (Z.log2 ERROR_VDDRF_INVALID) with (flag_bit 4).
    rewrite records_loop_flag by lia. apply all4_spec.
  - change (Z.log2 ERROR_VDDRF_INVALID) with (flag_bit 4).
    rewrite records_loop_flag by lia. apply all4_spec.
  - change (Z.log2 ERROR_LSAD_INVALID) with 21.
    rewrite records_other_bit, Hc by lia. simpl_bits.
    rewrite !orb_true_iff. tauto.
Qed.

(** A region whose sub-records all are (target 0x73, trim 0x12), except
    that the first VDDFLASH record and the second checked RCOSC record are
    erased. *)
Definition patchy_region : TRIM_Type :=
  fun i => if (i =? 32)%nat || (i =? 38)%nat then 0xFFFFFFFF else 0x00730012.

(** C5 fails as stated.  Under [sample_hw] the VDDFLASH table starts at
    word 32 and the RCOSC table at word 36.  In [patchy_region] the second
    VDDFLASH record and the first RCOSC record have the non-sentinel target
    0x73, and yet the result carries [ERROR_VDDFLASH_INVALID] (only the
    first record is looked at) and [ERROR_RCOSC_INVALID] (one sentinel
    record among those checked is enough). *)
Lemma VerifyTrims_claim_counterexample :
  sentinel16 (target16 (word_at patchy_region (o_vddflash (sample_hw true) + 1)))
    = false
  /\ flagged (fst (Sys_Trim_VerifyTrims (sample_hw true) (Some patchy_region)
                                        reset_state))
             ERROR_VDDFLASH_INVALID = true
  /\ sentinel16 (target16 (word_at patchy_region (o_rcosc (sample_hw true) + 0)))
       = false
  /\ flagged (fst (Sys_Trim_VerifyTrims (sample_hw true) (Some patchy_region)
                                        reset_state))
             ERROR_RCOSC_INVALID = true.
Proof. repeat split; vm_compute; reflexivity. Qed.

(** ** Byte lanes *)

Lemma testbit_FF k : Z.testbit 0xFF k = (0 <=? k) && (k <? 8).
Proof.
  change 0xFF with (Z.ones 8).
  destruct (Z.leb_spec 0 k); [|now rewrite Z.testbit_neg_r by lia].
  destruct (Z.ltb_spec k 8).
  - now rewrite Z.ones_spec_low by lia.
  - now rewrite Z.ones_spec_high by lia.
Qed.

Lemma get_set_lane_same w l v :
  0 <= l < 4 -> get_lane (set_lane w l v) l = Z.land v 0xFF.
Proof.
  intros Hl. unfold get_lane, set_lane, lane_mask.
  apply Z.bits_inj'. intros k Hk.
  rewrite !Z.land_spec, Z.shiftr_spec, Z.lor_spec, Z.land_spec by lia.
  rewrite !Z.shiftl_spec by lia.
  replace (k + 8 * l - 8 * l) with k by lia.
  rewrite Z.land_spec, testbit_FF.
  destruct (Z.ltb_spec k 8); cbn [andb];
    [|now rewrite !andb_false_r].
  rewrite testbit_not32 by lia. rewrite Z.shiftl_spec by lia.
  replace (k + 8 * l - 8 * l) with k by lia.
  rewrite testbit_FF.
  assert ((0 <=? k) = true) as -> by (apply Z.leb_le; lia).
  assert ((k <? 8) = true) as -> by (apply Z.ltb_lt; lia).
  cbn. now rewrite !andb_false_r, !andb_true_r.
Qed.

Lemma get_set_lane_other w l l' v :
  0 <= l < 4 -> 0 <= l' < 4 -> l' <> l ->
  get_lane (set_lane w l v) l' = get_lane w l'.
Proof.
  intros Hl Hl' Hne. unfold get_lane, set_lane, lane_mask.
  apply Z.bits_inj'. intros k Hk.
  rewrite !Z.land_spec, !Z.shiftr_spec, Z.lor_spec, Z.land_spec by lia.
  rewrite testbit_FF.
  destruct (Z.ltb_spec k 8); [|now rewrite !andb_false_r].
  rewrite testbit_not32 by lia. rewrite !Z.shiftl_spec by lia.
  rewrite Z.land_spec, !testbit_FF.
  assert (((0 <=? k + 8 * l' - 8 * l) && (k + 8 * l' - 8 * l <? 8)) = false)
    as ->.
  { apply andb_false_iff.
    destruct (Z.leb_spec 0 (k + 8 * l' - 8 * l)); [right|left; reflexivity].
    apply Z.ltb_ge. lia. }
  now rewrite andb_false_r, orb_false_r, andb_true_r.
Qed.

(** ** Sys_Trim_LoadVDDC *)

Lemma flag_on_error_zero flag ret_val :
  flag_on_error ERROR_NO_ERROR flag ret_val = ret_val.
Proof. reflexivity. Qed.

Lemma flag_on_error_nonzero x flag ret_val :
  x <> ERROR_NO_ERROR -> flag_on_error x flag ret_val = Z.lor ret_val flag.
Proof.
  intros Hx. unfold flag_on_error.
  destruct (Z.eqb_spec x 0); [contradiction|reflexivity].
Qed.

(** C8, as amended.  When the lookup of the normal-voltage target succeeds
    and the lookup of the standby target fails, [Sys_Trim_LoadVDDC] stores
    the low byte of the value found to the VTRIM byte, leaves the standby
    VTRIM byte as it was, and returns exactly [ERROR_VDDC_STBY_INVALID];
    when the standby lookup succeeds and the normal lookup fails, it stores
    to the standby byte, leaves the VTRIM byte and returns exactly
    [ERROR_VDDC_INVALID]. *)
Theorem LoadVDDC_partial (H : hw_h) (indeterminate : Z) (r : TRIM_Type)
    (target target_standby : Z) (s : state) :
  0 <= VDDC_VTRIM_lane H < 4 ->
  0 <= VDDC_STANDBY_VTRIM_lane H < 4 ->
  VDDC_VTRIM_lane H <> VDDC_STANDBY_VTRIM_lane H ->
  let table := Some (member r (o_vddc H)) in
  let normal :=
    GetTrim indeterminate table target (TRIM_RECORDS H) (Some 0) in
  let standby :=
    GetTrim indeterminate table target_standby (TRIM_RECORDS H) (Some 0) in
  let result :=
    Sys_Trim_LoadVDDC H indeterminate (Some r) target target_standby s in
  let vtrim := fun s => get_lane (regs s ACS_VDDC_CTRL) (VDDC_VTRIM_lane H) in
  let standby_vtrim :=
    fun s => get_lane (regs s ACS_VDDC_CTRL) (VDDC_STANDBY_VTRIM_lane H) in
  (fst normal = ERROR_NO_ERROR -> fst standby <> ERROR_NO_ERROR ->
     fst result = ERROR_VDDC_STBY_INVALID
     /\ vtrim (snd result) = Z.land (cell (snd normal)) 0xFF
     /\ standby_vtrim (snd result) = standby_vtrim s)
  /\ (fst normal <> ERROR_NO_ERROR -> fst standby = ERROR_NO_ERROR ->
     fst result = ERROR_VDDC_INVALID
     /\ standby_vtrim (snd result) = Z.land (cell (snd standby)) 0xFF
     /\ vtrim (snd result) = vtrim s).
Proof.
  intros Hl Hl' Hne. cbv zeta.
  unfold Sys_Trim_LoadVDDC, Sys_Trim_LoadVDDC_private, load_two.
  destruct (GetTrim indeterminate (Some (member r (o_vddc H))) target
              (TRIM_RECORDS H) (Some 0)) as [e c].
  destruct (GetTrim indeterminate (Some (member r (o_vddc H))) target_standby
              (TRIM_RECORDS H) (Some 0)) as [e' c'].
  cbn [fst snd]. split.
  - intros -> He'.
    rewrite flag_on_error_zero, flag_on_error_nonzero by assumption.
    change (is_zero (Z.land (Z.lor ERROR_NO_ERROR ERROR_VDDC_STBY_INVALID)
                            ERROR_VDDC_INVALID)) with true.
    change (is_zero (Z.land (Z.lor ERROR_NO_ERROR ERROR_VDDC_STBY_INVALID)
                            ERROR_VDDC_STBY_INVALID)) with false.
    unfold bind, write8, ret. cbn [fst snd regs br_reg br_lane
      ACS_VDDC_CTRL_VTRIM_BYTE ACS_VDDC_CTRL_STANDBY_VTRIM_BYTE].
    unfold ACS_VDDC_CTRL_VTRIM_BYTE. cbn [br_reg br_lane].
    rewrite upd_same. split; [reflexivity|]. split.
    + rewrite get_set_lane_same by assumption.
      unfold uint8_t, TRIM_8_BIT_TRIM_MASK.
      change (2 ^ 8) with 256.
      change 0xFF with (Z.ones 8). rewrite !Z.land_ones by lia.
      change (2 ^ 8) with 256. now rewrite !Z.mod_mod by lia.
    + now rewrite get_set_lane_other by (assumption || congruence).
  - intros He ->.
    rewrite flag_on_error_zero, flag_on_error_nonzero by assumption.
    change (is_zero (Z.land (Z.lor ERROR_NO_ERROR ERROR_VDDC_INVALID)
                            ERROR_VDDC_INVALID)) with false.
    change (is_zero (Z.land (Z.lor ERROR_NO_ERROR ERROR_VDDC_INVALID)
                            ERROR_VDDC_STBY_INVALID)) with true.
    unfold bind, write8, ret. cbn [fst snd regs].
    unfold ACS_VDDC_CTRL_STANDBY_VTRIM_BYTE. cbn [br_reg br_lane].
    rewrite upd_same. split; [reflexivity|]. split.
    + rewrite get_set_lane_same by assumption.
      unfold uint8_t, TRIM_8_BIT_TRIM_MASK.
      change 0xFF with (Z.ones 8). rewrite !Z.land_ones by lia.
      change (2 ^ 8) with 256. now rewrite !Z.mod_mod by lia.
    + now rewrite get_set_lane_other by (assumption || congruence).
Qed.

(** A region whose records all are (target 0x73 = 115, trim 0x12): the
    lookup of 115 succeeds in every table, the lookup of 80 fails. *)
Definition uniform_region : TRIM_Type := fun _ => 0x00730012.

Lemma LoadVDDC_partial_witness :
  (fst (Sys_Trim_LoadVDDC (sample_hw true) 0 (Some uniform_region) 115 80
                          reset_state) = ERROR_VDDC_STBY_INVALID
   /\ get_lane (regs (snd (Sys_Trim_LoadVDDC (sample_hw true) 0
                             (Some uniform_region) 115 80 reset_state))
                     ACS_VDDC_CTRL) 0 = 0x12)
  /\ (fst (Sys_Trim_LoadVDDC (sample_hw true) 0 (Some uniform_region) 80 115
                             reset_state) = ERROR_VDDC_INVALID
      /\ get_lane (regs (snd (Sys_Trim_LoadVDDC (sample_hw true) 0
                                (Some uniform_region) 80 115 reset_state))
                        ACS_VDDC_CTRL) 1 = 0x12).
Proof.
  split.
  - pose proof (LoadVDDC_partial (sample_hw true) 0 uniform_region 115 80
                  reset_state ltac:(cbn; lia) ltac:(cbn; lia)
                  ltac:(cbn; lia)) as [Hnormal _].
    destruct Hnormal as (He & Hv & _);
      [reflexivity|vm_compute; discriminate|].
    split; [exact He|exact Hv].
  - pose proof (LoadVDDC_partial (sample_hw true) 0 uniform_region 80 115
                  reset_state ltac:(cbn; lia) ltac:(cbn; lia)
                  ltac:(cbn; lia)) as [_ Hstandby].
    destruct Hstandby as (He & Hv & _);
      [vm_compute; discriminate|reflexivity|].
    split; [exact He|exact Hv].
Defined.

(** The reset state, with the VTRIM byte of ACS_VDDC_CTRL already at
    0x12. *)
Definition trimmed_state : state :=
  {| dev := sample_device;
     regs := fun x => if reg_eqb x ACS_VDDC_CTRL then 0x12 else 0;
     stores := []; lsad_reads := 0 |}.

(** C8 fails as stated.  The normal lookup succeeds and the standby lookup
    fails, the value found is stored, and the VTRIM byte after the call
    equals the VTRIM byte before it: nothing makes the two differ. *)
Lemma LoadVDDC_claim_counterexample :
  fst (GetTrim 0 (Some (member uniform_region (o_vddc (sample_hw true)))) 115
               (TRIM_RECORDS (sample_hw true)) (Some 0)) = ERROR_NO_ERROR
  /\ fst (GetTrim 0 (Some (member uniform_region (o_vddc (sample_hw true)))) 80
                  (TRIM_RECORDS (sample_hw true)) (Some 0)) <> ERROR_NO_ERROR
  /\ stores (snd (Sys_Trim_LoadVDDC (sample_hw true) 0 (Some uniform_region)
                                    115 80 trimmed_state))
       = [Store8 (Byte ACS_VDDC_CTRL 0) 0x12]
  /\ get_lane (regs (snd (Sys_Trim_LoadVDDC (sample_hw true) 0
                            (Some uniform_region) 115 80 trimmed_state))
                    ACS_VDDC_CTRL) 0
       = get_lane (regs trimmed_state ACS_VDDC_CTRL) 0.
Proof. repeat split; vm_compute; congruence. Qed.

(** ** Null pointers *)

(** C10, as amended.  Called with a null pointer, [Sys_Trim_LoadTrims],
    [Sys_Trim_VerifyTrims], [Sys_Trim_GetTrim] (null table or null
    [trim_val]) and the public loaders of trim.c return exactly
    [ERROR_NULL], leave the hardware state as it was (no register is
    stored to) and leave the cell behind [trim_val] as it was.
    [Sys_Trim_LoadVDDIF] does so when RSL15_CID is not defined; when it is,
    the function is the inline one of trim.h, which returns
    [ERROR_NO_TRIM_FOUND] whatever its arguments, also without a store. *)
Theorem null_pointer_rejected (H : hw_h) (indeterminate : Z) (s : state)
    (targets_1 : nat -> Z) (targets_2 : nat -> Z * Z)
    (addr : option words) (trim_val : option Z) (key : Z) (n : nat)
    (t1 t2 : Z) :
  Sys_Trim_LoadTrims H indeterminate None targets_1 targets_2 s = (ERROR_NULL, s)
  /\ Sys_Trim_VerifyTrims H None s = (ERROR_NULL, s)
  /\ Sys_Trim_GetTrim indeterminate None key n trim_val = (ERROR_NULL, trim_val)
  /\ Sys_Trim_GetTrim indeterminate addr key n None = (ERROR_NULL, None)
  /\ Sys_Trim_LoadBandgap H indeterminate None t1 t2 s = (ERROR_NULL, s)
  /\ Sys_Trim_LoadDCDC H indeterminate None t1 s = (ERROR_NULL, s)
  /\ Sys_Trim_LoadVDDC H indeterminate None t1 t2 s = (ERROR_NULL, s)
  /\ Sys_Trim_LoadVDDM H indeterminate None t1 t2 s = (ERROR_NULL, s)
  /\ Sys_Trim_LoadVDDPA H indeterminate None t1 s = (ERROR_NULL, s)
  /\ Sys_Trim_LoadVDDRF H indeterminate None t1 s = (ERROR_NULL, s)
  /\ Sys_Trim_LoadVDDFLASH H indeterminate None t1 s = (ERROR_NULL, s)
  /\ Sys_Trim_LoadRCOSC H indeterminate None t1 s = (ERROR_NULL, s)
  /\ Sys_Trim_LoadRCOSC32 H indeterminate None t1 s = (ERROR_NULL, s)
  /\ Sys_Trim_LoadThermistor H indeterminate None t1 s = (ERROR_NULL, s)
  /\ Sys_Trim_LoadVDDIF H indeterminate None t1 s
       = (if RSL15_CID_defined H then ERROR_NO_TRIM_FOUND else ERROR_NULL, s).
Proof.
  repeat split; try reflexivity.
  - now destruct addr.
  - unfold Sys_Trim_LoadVDDIF. now destruct (RSL15_CID_defined H).
Qed.

(** C10 fails as stated: in a build that defines RSL15_CID the public
    loader [Sys_Trim_LoadVDDIF], called with a null region, returns
    [ERROR_NO_TRIM_FOUND] and not [ERROR_NULL]. *)
Lemma null_pointer_claim_counterexample :
  fst (Sys_Trim_LoadVDDIF (sample_hw true) 0 None 180 reset_state)
    = ERROR_NO_TRIM_FOUND
  /\ ERROR_NO_TRIM_FOUND <> ERROR_NULL.
Proof. split; [reflexivity|discriminate]. Qed.

End Trim.

(** * The clock dividers (source/clock.c) *)

Module Clock.

(** What clock.c takes from hw.h. *)
Record hw_h : Type := mkHw {
  RSL15_CID_defined : bool;
  CLK_DIV_CFG0_SLOWCLK_PRESCALE_Pos : Z;
  CLK_DIV_CFG0_BBCLK_PRESCALE_Pos : Z;
  CLK_DIV_CFG0_UARTCLK_PRESCALE_Pos : Z;
  CLK_DIV_CFG1_DCCLK_PRESCALE_Pos : Z;
  CLK_DIV_CFG1_SENSOR_CLK_PRESCALE_Pos : Z;
  CPCLK_PRESCALE_6 : Z;
  DCCLK_ENABLE : Z; DCCLK_DISABLE : Z;
  CPCLK_ENABLE : Z; SENSOR_CLK_ENABLE : Z;
  ACS_VCC_CTRL_BUCK_ENABLE_Pos : Z;
  VCC_BUCK : Z;
  ANALOG_INFO_CLK_DIG_READY_BYTE : Z;
  USRCLK_SRC_RFCLK : Z; USRCLK_SRC_SYSCLK : Z;
  ANALOG_INFO_lane : Z;
  CK_DIV_1_6_lane : Z
}.

(** [d = clk / freq; if (clk % freq == 0) d = d - 1;] on uint32_t. *)
Definition prescale (clk freq : Z) : Z :=
  let d := clk / freq in
  if clk mod freq =? 0 then uint32_t (d - 1) else d.

(** The loop of the builds without RSL15_CID,
    [for (div = 0; freq != 0; freq = freq >> 1)], on the binary digits of
    a positive [freq]: it counts the digits in [div] and the ones in
    [flag]. *)
Fixpoint log2_loop (freq : positive) (div flag : Z) : Z * Z :=
  match freq with
  | xH => (div + 1, flag + 1)
  | xO f => log2_loop f (div + 1) flag
  | xI f => log2_loop f (div + 1) (flag + 1)
  end.

Definition sensorclk_log2 (sensorclk_freq : Z) : Z :=
  let sensorclk_freq := 1000000 / sensorclk_freq in
  let (sensorclk_div, sensorclk_div_flag) :=
    match sensorclk_freq with
    | Zpos p => log2_loop p 0 0
    | _ => (0, 0)
    end in
  if sensorclk_div_flag =? 1 then uint32_t (sensorclk_div - 1)
  else sensorclk_div.

Section Functions.

Variable H : hw_h.

(** The global [SystemCoreClock]. *)
Variable SystemCoreClock : Z.

Definition RF0_ANALOG_INFO_ANALOG_INFO_BYTE :=
  Byte RF0_ANALOG_INFO (ANALOG_INFO_lane H).
Definition RF0_REG33_CK_DIV_1_6_CK_DIV_1_6_BYTE :=
  Byte RF0_REG33 (CK_DIV_1_6_lane H).

Definition slowclk_div : Z := prescale SystemCoreClock 1000000.
Definition bbclk_div : Z := prescale SystemCoreClock 8000000.
Definition uartclk_div (uartclk_freq : Z) : Z :=
  prescale SystemCoreClock uartclk_freq.
Definition dcclk_div : Z := prescale SystemCoreClock 4000000.

Definition sensorclk_div (sensorclk_freq : Z) : Z :=
  if RSL15_CID_defined H then prescale SystemCoreClock sensorclk_freq
  else sensorclk_log2 sensorclk_freq.

(** Whether USERCLK is taken from the RF clock. *)
Definition userclk_from_rf (userclk_freq : Z) (s : state) : bool :=
  (userclk_freq >? SystemCoreClock)
  && (Z.land (fst (read8 RF0_ANALOG_INFO_ANALOG_INFO_BYTE s))
             (ANALOG_INFO_CLK_DIG_READY_BYTE H)
      =? ANALOG_INFO_CLK_DIG_READY_BYTE H).

Definition userclk_div (userclk_freq : Z) (s : state) : Z :=
  if userclk_from_rf userclk_freq s then
    let d := (48000000 / fst (read8 RF0_REG33_CK_DIV_1_6_CK_DIV_1_6_BYTE s))
             / userclk_freq in
    if SystemCoreClock mod userclk_freq =? 0 then uint32_t (d - 1) else d
  else prescale SystemCoreClock userclk_freq.

(** The divisions of the call; a zero divisor is undefined in C. *)
Definition divides_by_zero (uartclk_freq sensorclk_freq userclk_freq : Z)
    (s : state) : bool :=
  (uartclk_freq =? 0) || (sensorclk_freq =? 0) || (userclk_freq =? 0)
  || (userclk_from_rf userclk_freq s
      && (fst (read8 RF0_REG33_CK_DIV_1_6_CK_DIV_1_6_BYTE s) =? 0)).

Definition DividerConfig_body (uartclk_freq sensorclk_freq userclk_freq : Z)
    : M unit :=
  write32 CLK_DIV_CFG0
    (Z.lor (Z.lor
       (Z.shiftl slowclk_div (CLK_DIV_CFG0_SLOWCLK_PRESCALE_Pos H))
       (Z.shiftl bbclk_div (CLK_DIV_CFG0_BBCLK_PRESCALE_Pos H)))
       (Z.shiftl (uartclk_div uartclk_freq)
                 (CLK_DIV_CFG0_UARTCLK_PRESCALE_Pos H))) ;;
  vcc <- read32 ACS_VCC_CTRL ;;
  write32 CLK_DIV_CFG1
    (Z.lor (Z.lor (Z.lor (Z.lor (Z.lor
       (Z.shiftl dcclk_div (CLK_DIV_CFG1_DCCLK_PRESCALE_Pos H))
       (CPCLK_PRESCALE_6 H))
       (Z.shiftl (sensorclk_div sensorclk_freq)
                 (CLK_DIV_CFG1_SENSOR_CLK_PRESCALE_Pos H)))
       (if Z.land vcc (Z.shiftl 1 (ACS_VCC_CTRL_BUCK_ENABLE_Pos H))
           =? VCC_BUCK H
        then DCCLK_ENABLE H else DCCLK_DISABLE H))
       (CPCLK_ENABLE H))
       (SENSOR_CLK_ENABLE H)) ;;
  fun s =>
    write32 CLK_DIV_CFG2
      (Z.lor (userclk_div userclk_freq s)
             (if userclk_from_rf userclk_freq s
              then USRCLK_SRC_RFCLK H else USRCLK_SRC_SYSCLK H)) s.

(** [None]: the call divides by zero. *)
Definition Sys_Clocks_DividerConfig
    (uartclk_freq sensorclk_freq userclk_freq : Z) (s : state)
    : option state :=
  if divides_by_zero uartclk_freq sensorclk_freq userclk_freq s then None
  else Some (snd (DividerConfig_body uartclk_freq sensorclk_freq
                                     userclk_freq s)).

End Functions.

(** ** The divisor, as the specification words it *)

(** [floor (clk / freq)], less one exactly when [freq] divides [clk]. *)
Definition floor_divisor (clk freq : Z) : Z :=
  clk / freq - (if clk mod freq =? 0 then 1 else 0).

Definition sample_hw (rsl15 : bool) : hw_h :=
  {| RSL15_CID_defined := rsl15;
     CLK_DIV_CFG0_SLOWCLK_PRESCALE_Pos := 0;
     CLK_DIV_CFG0_BBCLK_PRESCALE_Pos := 8;
     CLK_DIV_CFG0_UARTCLK_PRESCALE_Pos := 16;
     CLK_DIV_CFG1_DCCLK_PRESCALE_Pos := 0;
     CLK_DIV_CFG1_SENSOR_CLK_PRESCALE_Pos := 16;
     CPCLK_PRESCALE_6 := 0x500;
     DCCLK_ENABLE := 0x80; DCCLK_DISABLE := 0;
     CPCLK_ENABLE := 0x8000; SENSOR_CLK_ENABLE := 0x800000;
     ACS_VCC_CTRL_BUCK_ENABLE_Pos := 12;
     VCC_BUCK := 0x1000;
     ANALOG_INFO_CLK_DIG_READY_BYTE := 0x2;
     USRCLK_SRC_RFCLK := 0x0; USRCLK_SRC_SYSCLK := 0x1000;
     ANALOG_INFO_lane := 3;
     CK_DIV_1_6_lane := 3 |}.

(** A state in which the RF clock is ready and its prescaler byte is 1. *)
Definition rf_ready_state : state :=
  {| dev := Trim.sample_device;
     regs := fun x => if reg_eqb x RF0_ANALOG_INFO then 0x02000000
                      else if reg_eqb x RF0_REG33 then 0x01000000 else 0;
     stores := []; lsad_reads := 0 |}.

Lemma prescale_floor clk freq :
  0 < clk < 2 ^ 32 -> 0 < freq -> prescale clk freq = floor_divisor clk freq.
Proof.
  intros Hclk Hfreq. unfold prescale, floor_divisor.
  destruct (Z.eqb_spec (clk mod freq) 0) as [Hex|Hex]; [|lia].
  unfold uint32_t. apply Z.mod_small.
  pose proof (Z.div_mod clk freq ltac:(lia)) as Hdm.
  assert (0 < clk / freq) by nia.
  assert (clk / freq <= clk) by (apply Z.div_le_upper_bound; nia).
  lia.
Qed.

Lemma userclk_from_rf_ext H clk freq s1 s2 :
  regs s1 RF0_ANALOG_INFO = regs s2 RF0_ANALOG_INFO ->
  userclk_from_rf H clk freq s1 = userclk_from_rf H clk freq s2.
Proof.
  intros Heq. unfold userclk_from_rf, read8, RF0_ANALOG_INFO_ANALOG_INFO_BYTE.
  cbn [fst br_reg br_lane]. now rewrite Heq.
Qed.

Lemma log2_loop_count p : forall div flag,
  fst (log2_loop p div flag) = div + Z.log2 (Zpos p) + 1
  /\ flag + 1 <= snd (log2_loop p div flag)
  /\ (snd (log2_loop p div flag) = flag + 1
      <-> Zpos p = 2 ^ Z.log2 (Zpos p)).
Proof.
  induction p as [p IH|p IH|]; intros div flag; cbn [log2_loop].
  - destruct (IH (div + 1) (flag + 1)) as (Hd & Hf & _).
    rewrite Hd, Pos2Z.inj_xI, Z.log2_succ_double by lia.
    split; [lia|]. split; [lia|]. split; [lia|].
    intros Hpow. exfalso.
    assert (Hodd : Z.odd (2 * Z.pos p + 1) = true).
    { rewrite Z.add_comm, Z.odd_add_mul_2. reflexivity. }
    rewrite Hpow in Hodd.
    pose proof (Z.log2_nonneg (Z.pos p)).
    replace (Z.succ (Z.log2 (Z.pos p))) with (1 + Z.log2 (Z.pos p)) in Hodd
      by lia.
    rewrite Z.pow_add_r, Z.pow_1_r, Z.odd_mul in Hodd by lia.
    discriminate.
  - destruct (IH (div + 1) flag) as (Hd & Hf & Hiff).
    rewrite Hd, Pos2Z.inj_xO, Z.log2_double by lia.
    split; [lia|]. split; [lia|].
    rewrite Hiff. pose proof (Z.log2_nonneg (Z.pos p)).
    rewrite Z.pow_succ_r by lia. lia.
  - cbn. split; [lia|]. split; [lia|]. split; reflexivity.
Qed.

(** The loop of the builds without RSL15_CID computes the binary
    logarithm, rounded up, of the quotient 1000000 / sensorclk_freq. *)
Lemma sensorclk_log2_log2_up sensorclk_freq :
  0 < sensorclk_freq ->
  sensorclk_log2 sensorclk_freq = Z.log2_up (1000000 / sensorclk_freq).
Proof.
  intros Hf. unfold sensorclk_log2.
  assert (Hq : 0 <= 1000000 / sensorclk_freq <= 1000000).
  { split; [apply Z.div_pos; lia|]. apply Z.div_le_upper_bound; nia. }
  destruct (1000000 / sensorclk_freq) as [|p|p] eqn:Eq; [reflexivity| |lia].
  destruct (log2_loop_count p 0 0) as (Hd & Hfl & Hiff).
  destruct (log2_loop p 0 0) as [d fl]. cbn [fst snd] in *.
  pose proof (Z.log2_nonneg (Z.pos p)) as Hnn.
  assert (Hlt : Z.log2 (Z.pos p) < 32).
  { apply Z.log2_lt_pow2; lia. }
  destruct (Z.eqb_spec fl 1) as [E|E].
  - assert (Hpow : Z.pos p = 2 ^ Z.log2 (Z.pos p)) by (apply Hiff; lia).
    rewrite Hd. unfold uint32_t. rewrite Z.mod_small by lia.
    rewrite Hpow at 2. rewrite Z.log2_up_pow2 by lia. lia.
  - assert (Hnpow : Z.pos p <> 2 ^ Z.log2 (Z.pos p)).
    { intros Hpow. apply E. apply Hiff in Hpow. lia. }
    pose proof (Z.le_log2_log2_up (Z.pos p)) as Hle.
    pose proof (Z.le_log2_up_succ_log2 (Z.pos p)) as Hsucc.
    assert (Z.log2 (Z.pos p) <> Z.log2_up (Z.pos p)).
    { intros Heq. apply Hnpow. apply Z.log2_log2_up_exact in Heq; [|lia].
      destruct Heq as [b Hb]. rewrite Hb.
      destruct (Z.le_gt_cases 0 b).
      - now rewrite Z.log2_pow2.
      - rewrite Z.pow_neg_r in Hb by lia. lia. }
    lia.
Qed.

(** What the call leaves in CLK->DIV_CFG0 and CLK->DIV_CFG1, the further
    stores apart. *)
Lemma DividerConfig_body_CFG H clk uartclk_freq sensorclk_freq userclk_freq s :
  let s' := snd (DividerConfig_body H clk uartclk_freq sensorclk_freq
                                    userclk_freq s) in
  regs s' CLK_DIV_CFG0
    = uint32_t
        (Z.lor (Z.lor
           (Z.shiftl (slowclk_div clk) (CLK_DIV_CFG0_SLOWCLK_PRESCALE_Pos H))
           (Z.shiftl (bbclk_div clk) (CLK_DIV_CFG0_BBCLK_PRESCALE_Pos H)))
           (Z.shiftl (uartclk_div clk uartclk_freq)
                     (CLK_DIV_CFG0_UARTCLK_PRESCALE_Pos H)))
  /\ regs s' CLK_DIV_CFG1
     = uint32_t
         (Z.lor (Z.lor (Z.lor (Z.lor (Z.lor
            (Z.shiftl (dcclk_div clk) (CLK_DIV_CFG1_DCCLK_PRESCALE_Pos H))
            (CPCLK_PRESCALE_6 H))
            (Z.shiftl (sensorclk_div H clk sensorclk_freq)
                      (CLK_DIV_CFG1_SENSOR_CLK_PRESCALE_Pos H)))
            (if Z.land (regs s ACS_VCC_CTRL)
                       (Z.shiftl 1 (ACS_VCC_CTRL_BUCK_ENABLE_Pos H))
                =? VCC_BUCK H
             then DCCLK_ENABLE H else DCCLK_DISABLE H))
            (CPCLK_ENABLE H))
            (SENSOR_CLK_ENABLE H)).
Proof.
  cbv zeta. unfold DividerConfig_body, bind, write32, read32.
  cbn [fst snd regs].
  rewrite !upd_other by discriminate. rewrite !upd_same.
  rewrite !upd_other by discriminate. rewrite !upd_same.
  split; reflexivity.
Qed.

(** The SENSORCLK prescaler of the amended claim: the rule of the other
    domains where RSL15_CID is defined, the exponent of a power-of-two
    division of the 1 MHz SLOWCLK elsewhere. *)
Definition sensor_prescaler (H : hw_h) (clk sensorclk_freq : Z) : Z :=
  if RSL15_CID_defined H then floor_divisor clk sensorclk_freq
  else Z.log2_up (1000000 / sensorclk_freq).

(** C9, as amended.  With a non-zero SystemCoreClock and non-zero targets,
    the divisors of SLOWCLK (1 MHz), BBCLK (8 MHz), UARTCLK and DCCLK
    (4 MHz), and the divisor of SENSORCLK in a build that defines
    RSL15_CID, are floor(SystemCoreClock / target), less one exactly when
    the division is exact; in a build without RSL15_CID the SENSORCLK
    prescaler is the binary logarithm, rounded up, of the integer quotient
    1,000,000 / sensorclk_freq.  A call that divides by no zero leaves
    these five divisors, shifted to their fields, in CLK->DIV_CFG0 and
    CLK->DIV_CFG1.  With SystemCoreClock = 48,000,000 the UART divisor is
    47 for 1,000,000 Hz and 53 for 900,000 Hz. *)
Theorem DividerConfig_divisors (H : hw_h)
    (SystemCoreClock uartclk_freq sensorclk_freq userclk_freq : Z)
    (s : state) :
  0 < SystemCoreClock < 2 ^ 32 ->
  0 < uartclk_freq -> 0 < sensorclk_freq -> 0 < userclk_freq ->
  slowclk_div SystemCoreClock = floor_divisor SystemCoreClock 1000000
  /\ bbclk_div SystemCoreClock = floor_divisor SystemCoreClock 8000000
  /\ uartclk_div SystemCoreClock uartclk_freq
       = floor_divisor SystemCoreClock uartclk_freq
  /\ dcclk_div SystemCoreClock = floor_divisor SystemCoreClock 4000000
  /\ (RSL15_CID_defined H = true ->
      sensorclk_div H SystemCoreClock sensorclk_freq
        = floor_divisor SystemCoreClock sensorclk_freq)
  /\ (RSL15_CID_defined H = false ->
      sensorclk_div H SystemCoreClock sensorclk_freq
        = Z.log2_up (1000000 / sensorclk_freq))
  /\ (divides_by_zero H SystemCoreClock uartclk_freq sensorclk_freq
                      userclk_freq s = false ->
      exists s',
        Sys_Clocks_DividerConfig H SystemCoreClock uartclk_freq
                                 sensorclk_freq userclk_freq s = Some s'
        /\ regs s' CLK_DIV_CFG0
           = uint32_t
               (Z.lor (Z.lor
                  (Z.shiftl (floor_divisor SystemCoreClock 1000000)
                            (CLK_DIV_CFG0_SLOWCLK_PRESCALE_Pos H))
                  (Z.shiftl (floor_divisor SystemCoreClock 8000000)
                            (CLK_DIV_CFG0_BBCLK_PRESCALE_Pos H)))
                  (Z.shiftl (floor_divisor SystemCoreClock uartclk_freq)
                            (CLK_DIV_CFG0_UARTCLK_PRESCALE_Pos H)))
        /\ regs s' CLK_DIV_CFG1
           = uint32_t
               (Z.lor (Z.lor (Z.lor (Z.lor (Z.lor
                  (Z.shiftl (floor_divisor SystemCoreClock 4000000)
                            (CLK_DIV_CFG1_DCCLK_PRESCALE_Pos H))
                  (CPCLK_PRESCALE_6 H))
                  (Z.shiftl (sensor_prescaler H SystemCoreClock sensorclk_freq)
                            (CLK_DIV_CFG1_SENSOR_CLK_PRESCALE_Pos H)))
                  (if Z.land (regs s ACS_VCC_CTRL)
                             (Z.shiftl 1 (ACS_VCC_CTRL_BUCK_ENABLE_Pos H))
                      =? VCC_BUCK H
                   then DCCLK_ENABLE H else DCCLK_DISABLE H))
                  (CPCLK_ENABLE H))
                  (SENSOR_CLK_ENABLE H)))
  /\ uartclk_div 48000000 1000000 = 47
  /\ uartclk_div 48000000 900000 = 53.
Proof.
  intros Hclk Hu Hs Huser.
  assert (Hsensor : sensorclk_div H SystemCoreClock sensorclk_freq
                    = sensor_prescaler H SystemCoreClock sensorclk_freq).
  { unfold sensorclk_div, sensor_prescaler.
    destruct (RSL15_CID_defined H).
    - now apply prescale_floor.
    - now apply sensorclk_log2_log2_up. }
  split; [apply prescale_floor; lia|].
  split; [apply prescale_floor; lia|].
  split; [now apply prescale_floor|].
  split; [apply prescale_floor; lia|].
  split.
  { intros Hr. rewrite Hsensor. unfold sensor_prescaler. now rewrite Hr. }
  split.
  { intros Hr. rewrite Hsensor. unfold sensor_prescaler. now rewrite Hr. }
  split; [|split; reflexivity].
  intros Hdef. unfold Sys_Clocks_DividerConfig. rewrite Hdef.
  eexists. split; [reflexivity|].
  destruct (DividerConfig_body_CFG H SystemCoreClock uartclk_freq
              sensorclk_freq userclk_freq s) as [Hcfg0 Hcfg1].
  rewrite Hcfg0, Hcfg1, Hsensor.
  unfold slowclk_div, bbclk_div, uartclk_div, dcclk_div.
  rewrite !prescale_floor by lia. split; reflexivity.
Qed.

Lemma DividerConfig_divisors_witness :
  sensorclk_div (sample_hw true) 48000000 1000000 = 47
  /\ sensorclk_div (sample_hw false) 48000000 300000 = 2
  /\ option_map (fun s' => regs s' CLK_DIV_CFG0)
       (Sys_Clocks_DividerConfig (sample_hw true) 48000000 900000 1000000
                                 1000000 Trim.reset_state)
     = Some (Z.lor (Z.lor 47 (Z.shiftl 5 8)) (Z.shiftl 53 16)).
Proof.
  pose proof (DividerConfig_divisors (sample_hw true) 48000000 900000
                1000000 1000000 Trim.reset_state
                ltac:(lia) ltac:(lia) ltac:(lia) ltac:(lia))
    as (_ & _ & _ & _ & Hsensor & _ & Hcall & _).
  pose proof (DividerConfig_divisors (sample_hw false) 48000000 900000
                300000 1000000 Trim.reset_state
                ltac:(lia) ltac:(lia) ltac:(lia) ltac:(lia))
    as (_ & _ & _ & _ & _ & Hlog & _).
  split; [|split].
  - rewrite Hsensor by reflexivity. reflexivity.
  - rewrite Hlog by reflexivity. reflexivity.
  - destruct Hcall as (s' & Hrun & Hcfg0 & _); [reflexivity|].
    rewrite Hrun. cbn [option_map]. rewrite Hcfg0. reflexivity.
Defined.

(** C9 fails as stated for the sensor clock.  In a build without RSL15_CID
    and with a 48 MHz SystemCoreClock, the SENSORCLK prescaler for a
    300 kHz target is 2, the binary logarithm, rounded up, of
    1,000,000 / 300,000 = 3, and the call stores it in the SENSORCLK field
    of CLK->DIV_CFG1 (bits 16 and up in the sample layout):
    floor(48,000,000 / 300,000) is 160 and the division is exact, so the
    claimed rule gives 159. *)
Lemma DividerConfig_claim_counterexample :
  sensorclk_div (sample_hw false) 48000000 300000 = 2
  /\ option_map (fun s' => Z.land (Z.shiftr (regs s' CLK_DIV_CFG1) 16) 0x7)
       (Sys_Clocks_DividerConfig (sample_hw false) 48000000 1000000 300000
                                 1000000 Trim.reset_state) = Some 2
  /\ 48000000 / 300000 = 160
  /\ 48000000 mod 300000 = 0
  /\ floor_divisor 48000000 300000 = 159.
Proof. repeat split; vm_compute; reflexivity. Qed.

End Clock.

(** * The RF TX-power controller (source/rffe.c, include/rffe.h) *)

Module RFFE.

(** ** Constants of include/rffe.h *)

Definition V_TO_MV : Z := 1000.
Definition MAX_LSAD_CHANNEL : Z := 7.
Definition VCC_VDDRF_MARGIN : Z := 50.
Definition MV_PER_DBM_VDDPA : Z := 100.
Definition MV_PER_DBM_VDDRF : Z := 75.
Definition STEPS_PER_DBM_VDDRF : Z := 6.
Definition STEPS_PER_DBM_VDDPA : Z := 10.
Definition RF_MAX_POWER : Z := 6.
Definition RF_MAX_POWER_NO_VDDPA : Z := 2.
Definition RF_NO_VDDPA_TYPICAL_POWER : Z := 0.
Definition RF_MIN_POWER : Z := -17.
Definition PA_PWR_BYTE_0DBM : Z := 0x0C.
Definition PA_ENABLE_BIAS_SETTING : Z := 0xF3.
Definition PA_DISABLE_BIAS_SETTING : Z := 0x73.
Definition SW_CTRL_DELAY_3_BYTE : Z := 0x2.
Definition RAMPUP_DELAY_3_BYTE : Z := 0x2.
Definition DISABLE_DELAY_3_BYTE : Z := 0x2.
Definition ERRNO_TX_POWER_MARKER : Z := 0x30.
Definition ERRNO_RFFE_INVALIDSETTING_ERROR : Z :=
  Z.lor 0x03 ERRNO_TX_POWER_MARKER.
Definition ERRNO_RFFE_VCC_INSUFFICIENT : Z := Z.lor 0x04 ERRNO_TX_POWER_MARKER.
Definition ERROR_NO_ERROR : Z := Trim.ERROR_NO_ERROR.
Definition TARGET_VDDRF_1070 : Z := 107.

(** [CONVERT(x)]: an ADC code to millivolts, on uint32_t. *)
Definition CONVERT (x : Z) : Z := uint32_t (Z.shiftr (uint32_t (x * 1000)) 13).

(** ** What rffe.c takes from hw.h *)
Record hw_h : Type := mkHw {
  trim_h : Trim.hw_h;
  RSL15_CID_is_202 : bool;
  LSAD_NORMAL : Z; LSAD_PRESCALE_200 : Z; VBAT_DIV2_ENABLE : Z;
  LSAD_POS_INPUT_AOUT : Z; LSAD_NEG_INPUT_GND : Z;
  ACS_AOUT_CTRL_TEST_AOUT_Mask : Z; ACS_AOUT_CTRL_AOUT_TO_GPIO_Mask : Z;
  AOUT_NOT_CONNECTED_TO_GPIO : Z; SEL_AOUT_TO_GPIO : Z;
  AOUT_VCC : Z;
  DYNAMIC_CTRL_DISABLE_BYTE : Z; DYNAMIC_CTRL_ENABLE_BYTE : Z;
  VDDPA_INITIAL_TRIM_1P10V : Z; VDDPA_SW_VDDRF : Z; VDDPA_SW_HIZ : Z;
  VDDPA_ISENSE_DISABLE : Z; VDDPA_DISABLE : Z;
  ACS_VDDPA_CTRL_VTRIM_Pos : Z;
  DYNAMIC_CTRL_lane : Z; SW_CTRL_DELAY_lane : Z;
  RAMPUP_DELAY_lane : Z; DISABLE_DELAY_lane : Z;
  BIAS_0_IQ_RXTX_lane : Z; PA_PWR_lane : Z
}.

(** ** Sys_RFFE_GetMedian *)

Definition Sys_RFFE_GetMedian (a b c : Z) : Z :=
  let (a, b) := if a >? b then (b, a) else (a, b) in
  if b >? c then
    let (b, c) := (c, b) in
    let (a, b) := if a >? b then (b, a) else (a, b) in
    b
  else b.

Section Functions.

Variable H : hw_h.

(** The calibration record the code reads through [TRIM]. *)
Variable trims : Trim.TRIM_Type.

(** Floating point is not embedded.  [supply_mV offset gain mv] stands for
    [(uint32_t)((mv / 1000.0f - offset_error) / gain_error * 1000)], with
    [offset_error] and [gain_error] derived from the LSAD trims
    [offset] and [gain]; [float_to_uint8 x] stands for the conversion to
    uint8_t of a float whose value is the integer [x] (C defines it only
    for [0 <= x <= 255]).  Everything else the code computes in float is
    exact on the small half-integers involved and is written with
    integers. *)
Variable supply_mV : Z -> Z -> Z -> Z.
Variable float_to_uint8 : Z -> Z.

Definition SYSCTRL_VDDPA_CFG0_DYNAMIC_CTRL_BYTE :=
  Byte SYSCTRL_VDDPA_CFG0 (DYNAMIC_CTRL_lane H).
Definition SYSCTRL_VDDPA_CFG0_SW_CTRL_DELAY_BYTE :=
  Byte SYSCTRL_VDDPA_CFG0 (SW_CTRL_DELAY_lane H).
Definition SYSCTRL_VDDPA_CFG0_RAMPUP_DELAY_BYTE :=
  Byte SYSCTRL_VDDPA_CFG0 (RAMPUP_DELAY_lane H).
Definition SYSCTRL_VDDPA_CFG0_DISABLE_DELAY_BYTE :=
  Byte SYSCTRL_VDDPA_CFG0 (DISABLE_DELAY_lane H).
Definition ACS_VDDRF_CTRL_VTRIM_BYTE :=
  Byte ACS_VDDRF_CTRL (Trim.VDDRF_VTRIM_lane (trim_h H)).
Definition ACS_VDDPA_CTRL_VTRIM_BYTE :=
  Byte ACS_VDDPA_CTRL (Trim.VDDPA_VTRIM_lane (trim_h H)).
Definition RF0_BIAS_0_2_BIAS_0_IQ_RXTX_BYTE :=
  Byte RF0_BIAS_0_2 (BIAS_0_IQ_RXTX_lane H).
Definition RF0_REG1A_PA_PWR_PA_PWR_BYTE := Byte RF0_REG1A (PA_PWR_lane H).

(** [trims->vddpa[2].trim_voltage] and [trims->vddrf[1].trim]. *)
Definition vddpa_2_trim_voltage : Z :=
  Trim.trim_voltage (Trim.word_at trims (Trim.o_vddpa (trim_h H) + 2)).
Definition vddrf_1_trim : Z :=
  Trim.trim16 (Trim.word_at trims (Trim.o_vddrf (trim_h H) + 1)).

(** ** Sys_RFFE_MeasureSupply

    Three reads of the data register, [Sys_Delay] apart; the delays leave
    no trace in the state. *)
Definition Sys_RFFE_MeasureSupply (channel : Z) : M Z :=
  supply1 <- read_lsad_data channel ;;
  supply2 <- read_lsad_data channel ;;
  supply3 <- read_lsad_data channel ;;
  ret (uint32_t
         (supply_mV (Trim.get16 trims (Trim.f_lsad_lf_offset (trim_h H)))
                    (Trim.word_at trims (Trim.o_lsad_lf_gain (trim_h H)))
                    (CONVERT (Sys_RFFE_GetMedian (uint32_t supply1)
                                                 (uint32_t supply2)
                                                 (uint32_t supply3))))).

(** The value the code stores to ACS->VDDPA_CTRL, up to the switch
    setting. *)
Definition vddpa_ctrl_value (sw : Z) : Z :=
  Z.lor (Z.lor (Z.lor (Z.lor (VDDPA_INITIAL_TRIM_1P10V H) sw)
                             (VDDPA_ISENSE_DISABLE H))
               (VDDPA_DISABLE H))
        (Z.shiftl vddpa_2_trim_voltage (ACS_VDDPA_CTRL_VTRIM_Pos H)).

(** [ACS_VDDRF_CTRL->VTRIM_BYTE += power_error * STEPS_PER_DBM_VDDRF], with
    [power_error = target - (pa_pwr_temp - PA_PWR_BYTE_0DBM) * 1.5]. *)
Definition compensate_vddrf (target pa_pwr_temp : Z) : M unit :=
  vtrim <- read8 ACS_VDDRF_CTRL_VTRIM_BYTE ;;
  write8 ACS_VDDRF_CTRL_VTRIM_BYTE
    (float_to_uint8
       (vtrim + (target * 6 - (pa_pwr_temp - PA_PWR_BYTE_0DBM) * 9))).

(** [if (pa_pwr_temp != 0xff) { ... }]; [Device_RF_SetMaxPwrIdx] is the
    empty weak function of rffe.c. *)
Definition commit_pa_pwr (pa_pwr_temp : Z) : M unit :=
  if negb (pa_pwr_temp =? 0xff)
  then write8 RF0_REG1A_PA_PWR_PA_PWR_BYTE pa_pwr_temp
  else ret tt.

(** ** Sys_RFFE_SetTXPower_NoVDDPA *)

(** The branch for [target > RF_NO_VDDPA_TYPICAL_POWER]: the error and
    [pa_pwr_temp]. *)
Definition NoVDDPA_boost (target lsad_channel : Z) : M (Z * Z) :=
  aout <- read32 ACS_AOUT_CTRL ;;
  write32 ACS_AOUT_CTRL (Z.lor aout (AOUT_VCC H)) ;;
  vcc <- Sys_RFFE_MeasureSupply lsad_channel ;;
  let vddrf_max := uint32_t (vcc - VCC_VDDRF_MARGIN) in
  if vddrf_max <? uint32_t (TARGET_VDDRF_1070 * 10 + target * MV_PER_DBM_VDDRF)
  then ret (ERRNO_RFFE_VCC_INSUFFICIENT, 0xff)
  else
    write8 SYSCTRL_VDDPA_CFG0_DYNAMIC_CTRL_BYTE (DYNAMIC_CTRL_DISABLE_BYTE H) ;;
    write32 ACS_VDDPA_CTRL (vddpa_ctrl_value (VDDPA_SW_VDDRF H)) ;;
    write8 ACS_VDDRF_CTRL_VTRIM_BYTE
           (vddrf_1_trim + target * STEPS_PER_DBM_VDDRF) ;;
    write8 RF0_BIAS_0_2_BIAS_0_IQ_RXTX_BYTE PA_DISABLE_BIAS_SETTING ;;
    ret (ERROR_NO_ERROR, PA_PWR_BYTE_0DBM).

(** The branch for [target <= RF_NO_VDDPA_TYPICAL_POWER].  [upper_trim] and
    [lower_trim] are [(target + 0.5f) * 2] and [(target - 0.5f) * 2], the
    integers [2 * target + 1] and [2 * target - 1]. *)
Definition NoVDDPA_nominal (target : Z) : M (Z * Z) :=
  write8 SYSCTRL_VDDPA_CFG0_DYNAMIC_CTRL_BYTE (DYNAMIC_CTRL_DISABLE_BYTE H) ;;
  write32 ACS_VDDPA_CTRL (vddpa_ctrl_value (VDDPA_SW_VDDRF H)) ;;
  write8 ACS_VDDRF_CTRL_VTRIM_BYTE vddrf_1_trim ;;
  let upper_trim := 2 * target + 1 in
  let lower_trim := 2 * target - 1 in
  pa_pwr_temp <-
    (if is_zero (Z.rem upper_trim 3) then
       let pa_pwr_temp :=
         uint8_t (PA_PWR_BYTE_0DBM + float_to_uint8 (Z.quot upper_trim 3)) in
       compensate_vddrf target pa_pwr_temp ;; ret pa_pwr_temp
     else if is_zero (Z.rem lower_trim 3) then
       let pa_pwr_temp := uint8_t (PA_PWR_BYTE_0DBM + Z.quot lower_trim 3) in
       compensate_vddrf target pa_pwr_temp ;; ret pa_pwr_temp
     else
       ret (uint8_t (PA_PWR_BYTE_0DBM + Z.quot (target * 2) 3))) ;;
  write8 RF0_BIAS_0_2_BIAS_0_IQ_RXTX_BYTE PA_DISABLE_BIAS_SETTING ;;
  ret (ERROR_NO_ERROR, pa_pwr_temp).

Definition Sys_RFFE_SetTXPower_NoVDDPA (target lsad_channel : Z) : M Z :=
  lsad_bk <- read32 (LSAD_INPUT_SEL lsad_channel) ;;
  aout_bk <- read32 ACS_AOUT_CTRL ;;
  lsad_cfg_bk <- read32 LSAD_CFG ;;
  write32 LSAD_CFG
    (if RSL15_CID_is_202 H
     then Z.lor (LSAD_NORMAL H) (LSAD_PRESCALE_200 H)
     else Z.lor (Z.lor (LSAD_NORMAL H) (LSAD_PRESCALE_200 H))
                (VBAT_DIV2_ENABLE H)) ;;
  write32 (LSAD_INPUT_SEL lsad_channel)
          (Z.lor (LSAD_POS_INPUT_AOUT H) (LSAD_NEG_INPUT_GND H)) ;;
  aout <- read32 ACS_AOUT_CTRL ;;
  write32 ACS_AOUT_CTRL
    (Z.land aout (not32 (Z.lor (ACS_AOUT_CTRL_TEST_AOUT_Mask H)
                               (ACS_AOUT_CTRL_AOUT_TO_GPIO_Mask H)))) ;;
  aout <- read32 ACS_AOUT_CTRL ;;
  write32 ACS_AOUT_CTRL
    (Z.lor aout (Z.lor (AOUT_NOT_CONNECTED_TO_GPIO H) (SEL_AOUT_TO_GPIO H))) ;;
  r <- (if target >? RF_NO_VDDPA_TYPICAL_POWER
        then NoVDDPA_boost target lsad_channel
        else NoVDDPA_nominal target) ;;
  let (error, pa_pwr_temp) := r : Z * Z in
  write32 LSAD_CFG lsad_cfg_bk ;;
  write32 ACS_AOUT_CTRL aout_bk ;;
  write32 (LSAD_INPUT_SEL lsad_channel) lsad_bk ;;
  commit_pa_pwr pa_pwr_temp ;;
  ret error.

(** ** Sys_RFFE_SetTXPower_VDDPA *)

Definition Sys_RFFE_SetTXPower_VDDPA (target lsad_channel : Z) : M Z :=
  write32 ACS_VDDPA_CTRL (vddpa_ctrl_value (VDDPA_SW_HIZ H)) ;;
  write8 SYSCTRL_VDDPA_CFG0_DYNAMIC_CTRL_BYTE (DYNAMIC_CTRL_ENABLE_BYTE H) ;;
  write8 SYSCTRL_VDDPA_CFG0_SW_CTRL_DELAY_BYTE SW_CTRL_DELAY_3_BYTE ;;
  write8 SYSCTRL_VDDPA_CFG0_RAMPUP_DELAY_BYTE RAMPUP_DELAY_3_BYTE ;;
  write8 SYSCTRL_VDDPA_CFG0_DISABLE_DELAY_BYTE DISABLE_DELAY_3_BYTE ;;
  write8 RF0_BIAS_0_2_BIAS_0_IQ_RXTX_BYTE PA_ENABLE_BIAS_SETTING ;;
  let pa_pwr_temp :=
    uint8_t (PA_PWR_BYTE_0DBM + Z.quot ((target - RF_MAX_POWER) * 2) 3) in
  (if negb (is_zero (Z.rem target 3)) then
     vtrim <- read8 ACS_VDDPA_CTRL_VTRIM_BYTE ;;
     write8 ACS_VDDPA_CTRL_VTRIM_BYTE
       (float_to_uint8
          (vtrim + ((target - RF_MAX_POWER) * 10
                    - (pa_pwr_temp - PA_PWR_BYTE_0DBM) * 15)))
   else ret tt) ;;
  commit_pa_pwr pa_pwr_temp ;;
  ret ERROR_NO_ERROR.

(** ** Sys_RFFE_SetTXPower

    [target] is an int8_t, [lsad_channel] a uint8_t. *)
Definition Sys_RFFE_SetTXPower (target lsad_channel : Z) (pa_en : bool)
    : M Z :=
  let rffe_error := ERROR_NO_ERROR in
  if (lsad_channel >? MAX_LSAD_CHANNEL)
     || (rffe_error =? ERRNO_RFFE_INVALIDSETTING_ERROR)
  then ret ERRNO_RFFE_INVALIDSETTING_ERROR
  else if (target >? RF_MAX_POWER) || (target <? RF_MIN_POWER)
  then ret ERRNO_RFFE_INVALIDSETTING_ERROR
  else if (target <=? RF_MAX_POWER) && (target >=? RF_MIN_POWER) then
    if (negb pa_en && (target <=? RF_MAX_POWER_NO_VDDPA) && (target >? 0))
       || (target <=? 0)
    then
      rffe_error <- Sys_RFFE_SetTXPower_NoVDDPA target lsad_channel ;;
      if rffe_error =? ERRNO_RFFE_VCC_INSUFFICIENT then
        e <- Sys_RFFE_SetTXPower_VDDPA target lsad_channel ;;
        ret (Z.lor rffe_error e)
      else ret rffe_error
    else Sys_RFFE_SetTXPower_VDDPA target lsad_channel
  else ret ERRNO_RFFE_INVALIDSETTING_ERROR.

End Functions.

(** ** Valuations for running the functions *)

Definition sample_hw : hw_h :=
  {| trim_h := Trim.sample_hw true;
     RSL15_CID_is_202 := true;
     LSAD_NORMAL := 0; LSAD_PRESCALE_200 := 0x2; VBAT_DIV2_ENABLE := 0x10;
     LSAD_POS_INPUT_AOUT := 0x10; LSAD_NEG_INPUT_GND := 0xF;
     ACS_AOUT_CTRL_TEST_AOUT_Mask := 0x1F;
     ACS_AOUT_CTRL_AOUT_TO_GPIO_Mask := 0xF00;
     AOUT_NOT_CONNECTED_TO_GPIO := 0x1000; SEL_AOUT_TO_GPIO := 0;
     AOUT_VCC := 0x3;
     DYNAMIC_CTRL_DISABLE_BYTE := 0; DYNAMIC_CTRL_ENABLE_BYTE := 1;
     VDDPA_INITIAL_TRIM_1P10V := 0x2000000; VDDPA_SW_VDDRF := 0x20000;
     VDDPA_SW_HIZ := 0; VDDPA_ISENSE_DISABLE := 0; VDDPA_DISABLE := 0;
     ACS_VDDPA_CTRL_VTRIM_Pos := 0;
     DYNAMIC_CTRL_lane := 0; SW_CTRL_DELAY_lane := 1;
     RAMPUP_DELAY_lane := 2; DISABLE_DELAY_lane := 3;
     BIAS_0_IQ_RXTX_lane := 0; PA_PWR_lane := 2 |}.

(** An ideally calibrated converter (no offset, unit gain), and a
    conversion to uint8_t that wraps. *)
Definition ideal_supply_mV (offset gain mv : Z) : Z := mv.
Definition wrapping_float_to_uint8 (x : Z) : Z := uint8_t x.

(** A region whose records all are (target 0x73, trim 0x12) and whose
    LSAD low-frequency calibration is the ideal one: [lf_offset] is 0 and
    [lf_gain] is 0x10000, a gain error of 65536 / 65536 = 1. *)
Definition calibrated_region : Trim.TRIM_Type :=
  fun i => if (i =? 58)%nat then 0
           else if (i =? 60)%nat then 0x10000 else 0x00730012.

(** A state whose LSAD data register always reads [code]. *)
Definition state_reading (code : Z) : state :=
  {| dev := {| crc_step := fun _ _ value data => value + data;
               crc_final := fun _ value => value;
               lsad_data := fun _ _ => code |};
     regs := fun _ => 0; stores := []; lsad_reads := 0 |}.



(** ** Path selection *)

Lemma SetTXPower_takes_VDDPA H trims supply f2u8 target ch pa_en s :
  0 <= ch <= MAX_LSAD_CHANNEL ->
  RF_MAX_POWER_NO_VDDPA < target <= RF_MAX_POWER ->
  Sys_RFFE_SetTXPower H trims supply f2u8 target ch pa_en s
    = Sys_RFFE_SetTXPower_VDDPA H trims f2u8 target ch s.
Proof.
  unfold MAX_LSAD_CHANNEL, RF_MAX_POWER_NO_VDDPA, RF_MAX_POWER.
  intros Hch Ht. unfold Sys_RFFE_SetTXPower.
  unfold MAX_LSAD_CHANNEL, RF_MAX_POWER_NO_VDDPA, RF_MAX_POWER, RF_MIN_POWER.
  assert ((ch >? 7) = false) as -> by lia.
  assert ((target >? 6) = false) as -> by lia.
  assert ((target <? -17) = false) as -> by lia.
  assert ((target <=? 6) = true) as -> by lia.
  assert ((target >=? -17) = true) as -> by lia.
  assert ((target <=? 2) = false) as -> by lia.
  assert ((target <=? 0) = false) as -> by lia.
  cbn. now rewrite andb_false_r.
Qed.

Lemma SetTXPower_takes_NoVDDPA H trims supply f2u8 target ch pa_en s :
  0 <= ch <= MAX_LSAD_CHANNEL ->
  RF_MIN_POWER <= target <= RF_MAX_POWER_NO_VDDPA ->
  target <= 0 \/ pa_en = false ->
  Sys_RFFE_SetTXPower H trims supply f2u8 target ch pa_en s
    = (let (e, s1) := Sys_RFFE_SetTXPower_NoVDDPA H trims supply f2u8
                        target ch s in
       if e =? ERRNO_RFFE_VCC_INSUFFICIENT then
         let (e2, s2) := Sys_RFFE_SetTXPower_VDDPA H trims f2u8 target ch s1 in
         (Z.lor e e2, s2)
       else (e, s1)).
Proof.
  unfold MAX_LSAD_CHANNEL, RF_MAX_POWER_NO_VDDPA, RF_MIN_POWER.
  intros Hch Ht Hsel. unfold Sys_RFFE_SetTXPower.
  unfold MAX_LSAD_CHANNEL, RF_MAX_POWER_NO_VDDPA, RF_MAX_POWER, RF_MIN_POWER.
  assert ((ch >? 7) = false) as -> by lia.
  assert ((target >? 6) = false) as -> by lia.
  assert ((target <? -17) = false) as -> by lia.
  assert ((target <=? 6) = true) as -> by lia.
  assert ((target >=? -17) = true) as -> by lia.
  assert ((target <=? 2) = true) as -> by lia.
  cbn [orb andb].
  change (ERROR_NO_ERROR =? ERRNO_RFFE_INVALIDSETTING_ERROR) with false.
  cbn [orb andb].
  assert (Hbranch : negb pa_en && true && (target >? 0) || (target <=? 0) = true).
  { destruct Hsel as [Hle| ->].
    - assert ((target <=? 0) = true) as -> by lia. now rewrite orb_true_r.
    - cbn. destruct (Z.leb_spec target 0); [now rewrite orb_true_r|].
      assert ((target >? 0) = true) as -> by lia. reflexivity. }
  rewrite Hbranch. unfold bind at 1.
  destruct (Sys_RFFE_SetTXPower_NoVDDPA H trims supply f2u8 target ch s)
    as [e s1].
  destruct (e =? ERRNO_RFFE_VCC_INSUFFICIENT); [|reflexivity].
  unfold bind, ret.
  now destruct (Sys_RFFE_SetTXPower_VDDPA H trims f2u8 target ch s1).
Qed.

(** ** The No-PA attempt when VCC is too low *)

(** Registers hold 32-bit values. *)
Definition wf_regs (s : state) : Prop :=
  forall r, regs s r = uint32_t (regs s r).

Lemma MeasureSupply_reads H trims supply ch s :
  fst (Sys_RFFE_MeasureSupply H trims supply ch s)
    = uint32_t
        (supply
           (Trim.get16 trims (Trim.f_lsad_lf_offset (trim_h H)))
           (Trim.word_at trims (Trim.o_lsad_lf_gain (trim_h H)))
           (CONVERT
              (Sys_RFFE_GetMedian
                 (uint32_t (lsad_data (dev s) (lsad_reads s) ch))
                 (uint32_t (lsad_data (dev s) (S (lsad_reads s)) ch))
                 (uint32_t (lsad_data (dev s) (S (S (lsad_reads s))) ch))))).
Proof. reflexivity. Qed.

(** While the measured VCC is at least the margin, so that the unsigned
    subtraction does not wrap: if VCC less the margin is below the VDDRF
    level the target needs, the No-PA attempt returns
    [ERRNO_RFFE_VCC_INSUFFICIENT] and leaves every register at its value
    before the call. *)
Lemma NoVDDPA_insufficient H trims supply f2u8 target ch s :
  0 < target <= RF_MAX_POWER_NO_VDDPA ->
  wf_regs s ->
  VCC_VDDRF_MARGIN <= fst (Sys_RFFE_MeasureSupply H trims supply ch s) ->
  fst (Sys_RFFE_MeasureSupply H trims supply ch s) - VCC_VDDRF_MARGIN
    < TARGET_VDDRF_1070 * 10 + target * MV_PER_DBM_VDDRF ->
  fst (Sys_RFFE_SetTXPower_NoVDDPA H trims supply f2u8 target ch s)
    = ERRNO_RFFE_VCC_INSUFFICIENT
  /\ forall r,
       regs (snd (Sys_RFFE_SetTXPower_NoVDDPA H trims supply f2u8 target ch s)) r
         = regs s r.
Proof.
  unfold RF_MAX_POWER_NO_VDDPA, VCC_VDDRF_MARGIN, TARGET_VDDRF_1070,
    MV_PER_DBM_VDDRF.
  intros Ht Hwf Hmargin Hlow.
  rewrite MeasureSupply_reads in Hmargin, Hlow.
  unfold Sys_RFFE_SetTXPower_NoVDDPA, RF_NO_VDDPA_TYPICAL_POWER.
  assert ((target >? 0) = true) as -> by lia.
  cbv [bind ret read32 write32 NoVDDPA_boost Sys_RFFE_MeasureSupply
       read_lsad_data fst snd regs dev lsad_reads stores].
  unfold VCC_VDDRF_MARGIN, TARGET_VDDRF_1070, MV_PER_DBM_VDDRF.
  set (vcc := uint32_t (supply _ _ _)) in *.
  assert (Hvcc : 0 <= vcc < 2 ^ 32) by (apply Z.mod_pos_bound; lia).
  assert (Hcmp : (uint32_t (vcc - 50) <? uint32_t (107 * 10 + target * 75)) = true).
  { unfold uint32_t. rewrite !Z.mod_small by lia. lia. }
  rewrite Hcmp.
  cbv [commit_pa_pwr negb Z.eqb Pos.eqb ret fst snd regs].
  split; [reflexivity|].
  intros r. unfold upd.
  destruct (reg_eq_dec r (LSAD_INPUT_SEL ch)) as [->|Hn1].
  - rewrite reg_eqb_refl. symmetry. apply Hwf.
  - rewrite (reg_eqb_neq _ _ Hn1).
    destruct (reg_eq_dec r ACS_AOUT_CTRL) as [->|Hn2].
    + rewrite reg_eqb_refl. symmetry. apply Hwf.
    + rewrite (reg_eqb_neq _ _ Hn2).
      destruct (reg_eq_dec r LSAD_CFG) as [->|Hn3].
      * rewrite reg_eqb_refl. symmetry. apply Hwf.
      * now rewrite (reg_eqb_neq _ _ Hn3).
Qed.

(** Under the same condition [Sys_RFFE_SetTXPower] goes on to the PA path
    within the call and returns the error of the No-PA attempt or-ed with
    the result of the PA path. *)
Lemma SetTXPower_fallback H trims supply f2u8 target ch s :
  0 <= ch <= MAX_LSAD_CHANNEL ->
  0 < target <= RF_MAX_POWER_NO_VDDPA ->
  wf_regs s ->
  VCC_VDDRF_MARGIN <= fst (Sys_RFFE_MeasureSupply H trims supply ch s) ->
  fst (Sys_RFFE_MeasureSupply H trims supply ch s) - VCC_VDDRF_MARGIN
    < TARGET_VDDRF_1070 * 10 + target * MV_PER_DBM_VDDRF ->
  Sys_RFFE_SetTXPower H trims supply f2u8 target ch false s
    = (Z.lor ERRNO_RFFE_VCC_INSUFFICIENT
         (fst (Sys_RFFE_SetTXPower_VDDPA H trims f2u8 target ch
                 (snd (Sys_RFFE_SetTXPower_NoVDDPA H trims supply f2u8
                         target ch s)))),
       snd (Sys_RFFE_SetTXPower_VDDPA H trims f2u8 target ch
              (snd (Sys_RFFE_SetTXPower_NoVDDPA H trims supply f2u8
                      target ch s)))).
Proof.
  intros Hch Ht Hwf Hmargin Hlow.
  destruct (NoVDDPA_insufficient H trims supply f2u8 target ch s Ht Hwf
              Hmargin Hlow) as [He _].
  rewrite SetTXPower_takes_NoVDDPA;
    [|assumption|unfold RF_MIN_POWER, RF_MAX_POWER_NO_VDDPA in *; lia|now right].
  destruct (Sys_RFFE_SetTXPower_NoVDDPA H trims supply f2u8 target ch s)
    as [e s1]. cbn [fst snd] in *. subst e.
  change (ERRNO_RFFE_VCC_INSUFFICIENT =? ERRNO_RFFE_VCC_INSUFFICIENT) with true.
  cbn iota.
  now destruct (Sys_RFFE_SetTXPower_VDDPA H trims f2u8 target ch s1).
Qed.

(** C1, at the input where the code departs from it.  The LSAD
    calibration is ideal and the data register reads 0 on all three samples,
    so the measured VCC is 0 mV; VCC less the 50 mV margin is below the
    1145 mV a target of 1 dBm needs.  The subtraction is unsigned and wraps
    to 4294967246, the test [vddrf_max < 1145] is false, and the No-PA
    attempt takes the branch for a sufficient VCC: it returns
    [ERROR_NO_ERROR], has stored to ACS->VDDPA_CTRL and raised the VDDRF
    trim byte, and [Sys_RFFE_SetTXPower] returns just that, without the PA
    path. *)
Theorem SetTXPower_low_reading_no_fallback :
  Trim.get16 calibrated_region (Trim.f_lsad_lf_offset (trim_h sample_hw)) = 0
  /\ Trim.word_at calibrated_region (Trim.o_lsad_lf_gain (trim_h sample_hw))
     = 65536
  /\ fst (Sys_RFFE_MeasureSupply sample_hw calibrated_region ideal_supply_mV 6
                                 (state_reading 0)) = 0
  /\ 0 - VCC_VDDRF_MARGIN < TARGET_VDDRF_1070 * 10 + 1 * MV_PER_DBM_VDDRF
  /\ uint32_t (0 - VCC_VDDRF_MARGIN) = 4294967246
  /\ fst (Sys_RFFE_SetTXPower_NoVDDPA sample_hw calibrated_region
            ideal_supply_mV wrapping_float_to_uint8 1 6 (state_reading 0))
       = ERROR_NO_ERROR
  /\ regs (state_reading 0) ACS_VDDRF_CTRL = 0
  /\ regs (snd (Sys_RFFE_SetTXPower_NoVDDPA sample_hw calibrated_region
                  ideal_supply_mV wrapping_float_to_uint8 1 6
                  (state_reading 0))) ACS_VDDRF_CTRL = 24
  /\ Sys_RFFE_SetTXPower sample_hw calibrated_region ideal_supply_mV
        wrapping_float_to_uint8 1 6 false (state_reading 0)
     = Sys_RFFE_SetTXPower_NoVDDPA sample_hw calibrated_region
         ideal_supply_mV wrapping_float_to_uint8 1 6 (state_reading 0)
  /\ Z.land (fst (Sys_RFFE_SetTXPower sample_hw calibrated_region
                    ideal_supply_mV wrapping_float_to_uint8 1 6 false
                    (state_reading 0)))
            ERRNO_RFFE_VCC_INSUFFICIENT
     <> ERRNO_RFFE_VCC_INSUFFICIENT.
Proof.
  repeat (split; [vm_compute; reflexivity|]). vm_compute. discriminate.
Qed.

(** The fallback, run: the data register reads 9011, which the ideal
    converter takes for 1099 mV. *)
Example SetTXPower_fallback_run :
  fst (Sys_RFFE_SetTXPower sample_hw calibrated_region ideal_supply_mV
         wrapping_float_to_uint8 1 6 false (state_reading 9011))
    = ERRNO_RFFE_VCC_INSUFFICIENT.
Proof.
  rewrite SetTXPower_fallback; [reflexivity| | | | |];
    vm_compute; intuition congruence.
Qed.

(** ** Which registers the paths store to *)

Lemma NoVDDPA_0dBm_no_error H trims supply f2u8 ch s :
  fst (Sys_RFFE_SetTXPower_NoVDDPA H trims supply f2u8 0 ch s)
    = ERROR_NO_ERROR.
Proof. reflexivity. Qed.

(** C4, as amended.  For every valid LSAD channel, a target of 3 dBm with
    the power amplifier not requested takes the PA path, and a target of
    0 dBm takes the No-PA path.  That path returns [ERROR_NO_ERROR] and
    stores, in this order, to LSAD_CFG, LSAD_INPUT_SEL of the channel and
    ACS_AOUT_CTRL (twice) to set the measurement up, to the dynamic-VDDPA
    control byte (disable), to ACS->VDDPA_CTRL (the whole register, VDDPA
    disabled and switched to VDDRF), to the VDDRF trim byte (the nominal
    trim) and to the PA bias byte (PA disabled), then restores LSAD_CFG,
    ACS_AOUT_CTRL and LSAD_INPUT_SEL and stores 0x0C to the PA_PWR byte. *)
Theorem SetTXPower_path_selection (H : hw_h) (trims : Trim.TRIM_Type)
    (supply : Z -> Z -> Z -> Z) (f2u8 : Z -> Z) (ch : Z) (s : state) :
  0 <= ch <= MAX_LSAD_CHANNEL ->
  Sys_RFFE_SetTXPower H trims supply f2u8 3 ch false s
    = Sys_RFFE_SetTXPower_VDDPA H trims f2u8 3 ch s
  /\ Sys_RFFE_SetTXPower H trims supply f2u8 0 ch false s
     = Sys_RFFE_SetTXPower_NoVDDPA H trims supply f2u8 0 ch s
  /\ fst (Sys_RFFE_SetTXPower_NoVDDPA H trims supply f2u8 0 ch s)
     = ERROR_NO_ERROR
  /\ stores (snd (Sys_RFFE_SetTXPower_NoVDDPA H trims supply f2u8 0 ch s))
     = rev
         [ Store32 LSAD_CFG
             (uint32_t (if RSL15_CID_is_202 H
                        then Z.lor (LSAD_NORMAL H) (LSAD_PRESCALE_200 H)
                        else Z.lor (Z.lor (LSAD_NORMAL H) (LSAD_PRESCALE_200 H))
                                   (VBAT_DIV2_ENABLE H)));
           Store32 (LSAD_INPUT_SEL ch)
             (uint32_t (Z.lor (LSAD_POS_INPUT_AOUT H) (LSAD_NEG_INPUT_GND H)));
           Store32 ACS_AOUT_CTRL
             (uint32_t
                (Z.land (regs s ACS_AOUT_CTRL)
                   (not32 (Z.lor (ACS_AOUT_CTRL_TEST_AOUT_Mask H)
                                 (ACS_AOUT_CTRL_AOUT_TO_GPIO_Mask H)))));
           Store32 ACS_AOUT_CTRL
             (uint32_t
                (Z.lor
                   (uint32_t
                      (Z.land (regs s ACS_AOUT_CTRL)
                         (not32 (Z.lor (ACS_AOUT_CTRL_TEST_AOUT_Mask H)
                                       (ACS_AOUT_CTRL_AOUT_TO_GPIO_Mask H)))))
                   (Z.lor (AOUT_NOT_CONNECTED_TO_GPIO H) (SEL_AOUT_TO_GPIO H))));
           Store8 (SYSCTRL_VDDPA_CFG0_DYNAMIC_CTRL_BYTE H)
             (uint8_t (DYNAMIC_CTRL_DISABLE_BYTE H));
           Store32 ACS_VDDPA_CTRL
             (uint32_t (vddpa_ctrl_value H trims (VDDPA_SW_VDDRF H)));
           Store8 (ACS_VDDRF_CTRL_VTRIM_BYTE H) (uint8_t (vddrf_1_trim H trims));
           Store8 (RF0_BIAS_0_2_BIAS_0_IQ_RXTX_BYTE H) PA_DISABLE_BIAS_SETTING;
           Store32 LSAD_CFG (uint32_t (regs s LSAD_CFG));
           Store32 ACS_AOUT_CTRL (uint32_t (regs s ACS_AOUT_CTRL));
           Store32 (LSAD_INPUT_SEL ch) (uint32_t (regs s (LSAD_INPUT_SEL ch)));
           Store8 (RF0_REG1A_PA_PWR_PA_PWR_BYTE H) PA_PWR_BYTE_0DBM ]
       ++ stores s.
Proof.
  intros Hch. split; [|split; [|split]].
  - apply SetTXPower_takes_VDDPA; [assumption|].
    unfold RF_MAX_POWER_NO_VDDPA, RF_MAX_POWER. lia.
  - rewrite SetTXPower_takes_NoVDDPA;
      [|assumption|unfold RF_MIN_POWER, RF_MAX_POWER_NO_VDDPA; lia|left; lia].
    pose proof (NoVDDPA_0dBm_no_error H trims supply f2u8 ch s) as He.
    destruct (Sys_RFFE_SetTXPower_NoVDDPA H trims supply f2u8 0 ch s)
      as [e s1].
    cbn [fst] in He. subst e. reflexivity.
  - apply NoVDDPA_0dBm_no_error.
  - unfold Sys_RFFE_SetTXPower_NoVDDPA, NoVDDPA_nominal,
      RF_NO_VDDPA_TYPICAL_POWER.
    change (0 >? 0) with false.
    change (is_zero (Z.rem (2 * 0 + 1) 3)) with false.
    change (is_zero (Z.rem (2 * 0 - 1) 3)) with false.
    change (uint8_t (PA_PWR_BYTE_0DBM + Z.quot (0 * 2) 3)) with 12.
    cbv [bind ret read32 write32 write8 commit_pa_pwr fst snd regs stores
         negb Z.eqb Pos.eqb rev app].
    rewrite !upd_same. rewrite !upd_other by discriminate.
    reflexivity.
Qed.

Lemma SetTXPower_path_selection_witness :
  Sys_RFFE_SetTXPower sample_hw Trim.uniform_region ideal_supply_mV
    wrapping_float_to_uint8 3 6 false (state_reading 12000)
  = Sys_RFFE_SetTXPower_VDDPA sample_hw Trim.uniform_region
      wrapping_float_to_uint8 3 6 (state_reading 12000).
Proof.
  exact (proj1 (SetTXPower_path_selection sample_hw Trim.uniform_region
                  ideal_supply_mV wrapping_float_to_uint8 6
                  (state_reading 12000) ltac:(unfold MAX_LSAD_CHANNEL; lia))).
Defined.

(** C4 fails as stated: the call for 0 dBm does store to ACS->VDDPA_CTRL
    (and to the dynamic-VDDPA control byte and the PA bias byte), not only
    to the VDDRF trim and PA_PWR registers. *)
Lemma SetTXPower_claim_counterexample :
  existsb (fun a => reg_eqb (access_reg a) ACS_VDDPA_CTRL)
    (stores (snd (Sys_RFFE_SetTXPower sample_hw Trim.uniform_region
                    ideal_supply_mV wrapping_float_to_uint8 0 6 false
                    (state_reading 12000)))) = true
  /\ regs (state_reading 12000) ACS_VDDPA_CTRL
     <> regs (snd (Sys_RFFE_SetTXPower sample_hw Trim.uniform_region
                    ideal_supply_mV wrapping_float_to_uint8 0 6 false
                    (state_reading 12000))) ACS_VDDPA_CTRL.
Proof. split; vm_compute; congruence. Qed.

End RFFE.

(** * The power-mode controller (source/power_modes.c) *)

Module PowerModes.

(** What power_modes.c takes from hw.h and from the build. *)
Record hw_h : Type := mkHw {
  FPU_USED : bool;           (* __FPU_USED is defined and is 1 *)
  ACS_VDDRET_CTRL_VDDMRET_VTRIM_Pos : Z;
  ACS_VDDRET_CTRL_VDDACS_VTRIM_Pos : Z;
  ACS_VDDRET_CTRL_VDDTRET_ENABLE_Pos : Z;
  ACS_VDDRET_CTRL_VDDCRET_VTRIM_Pos : Z;
  VDDMRET_ENABLE : Z;
  VDDCRET_DISABLE : Z;
  PWR_SLEEP_MODE : Z;
  WATCHDOG_REFRESH : Z;
  CRC_32 : Z; CRC_BIG_ENDIAN : Z; CRC_BIT_ORDER_STANDARD : Z;
  CRC_32_INIT_VALUE : Z;
  WAKEUP_IRQn : Z;
  BLE_IRQs : list Z          (* BLE_HSLOT_IRQn ... BLE_SW_IRQn, in the
                                order the handler enables them *)
}.

(** The addresses the linker script provides, and the address of the wake
    handler. *)
Record linker : Type := mkLinker {
  app_ptr : Z;          (* &app_ptr[0] *)
  stack : Z;            (* &__stack *)
  Wakeup_addr : Z;      (* &__Wakeup_addr *)
  WakeupFromRAM : Z     (* &_Sys_PowerModes_WakeupFromRAM *)
}.

(** include/power_modes.h *)
Record sleep_mode_ret_regulator_cfg : Type := mkRet {
  vddm_ret_trim : Z; vddt_ret : Z; vddacs_ret_trim : Z; vddc_ret_trim : Z
}.

Record clock_cfg_t : Type := mkClock {
  systemclk_freq : Z; uartclk_freq : Z; sensorclk_freq : Z; userclk_freq : Z
}.

Record sleep_mode_cfg : Type := mkCfg {
  wakeup_cfg : Z;
  boot_cfg : Z;
  clock_cfg : clock_cfg_t;
  app_gpio_config : Z;     (* function pointer, 0 when null *)
  DMA_channel_RF : Z;
  ble_present : Z;
  vddret_ctrl : sleep_mode_ret_regulator_cfg;
  app_addr : Z             (* function pointer, 0 when null *)
}.

(** What the core does besides loads and stores. *)
Inductive event : Set :=
  | disable_irq | enable_irq | ISB | WFI
  | NVIC_EnableIRQ (irq : Z)
  | call (address : Z).

(** The machine: the peripherals, the RAM as 32-bit words by address, and
    the events so far (newest first). *)
Record machine : Type := mkMachine {
  hw : state;
  ram : Z -> Z;
  trace : list event
}.

Definition on_hw {A} (c : M A) (m : machine) : A * machine :=
  let (a, s) := c (hw m) in (a, mkMachine s (ram m) (trace m)).

Definition do_hw (c : M unit) (m : machine) : machine := snd (on_hw c m).

Definition emit (e : event) (m : machine) : machine :=
  mkMachine (hw m) (ram m) (e :: trace m).

Definition load (m : machine) (a : Z) : Z := uint32_t (ram m a).

Definition store (a v : Z) (m : machine) : machine :=
  mkMachine (hw m) (fun x => if x =? a then uint32_t v else ram m x) (trace m).

(** [SYS_WATCHDOG_REFRESH()] *)
Definition SYS_WATCHDOG_REFRESH (H : hw_h) : machine -> machine :=
  do_hw (write32 WATCHDOG_CTRL (WATCHDOG_REFRESH H)).

Section Functions.

Variable H : hw_h.
Variable L : linker.

(** ** _Sys_PowerModes_CalculateCRC *)

(** [for (i = 0; i < 7; i++) { Sys_CRC_Add(crc, *cptr, 32); cptr += 1; }]
    with [n] passes left and [cptr] at address [a]. *)
Fixpoint CalculateCRC_loop (n : nat) (a : Z) (m : machine) : machine :=
  match n with
  | O => m
  | S n' =>
      CalculateCRC_loop n' (a + 4)
        (do_hw (crc_add (Z.shiftr 32 3) (load m a)) m)
  end.

Definition _Sys_PowerModes_CalculateCRC (m : machine) : Z * machine :=
  let m := do_hw (write32 CRC_CFG
                    (Z.lor (Z.lor (CRC_32 H) (CRC_BIG_ENDIAN H))
                           (CRC_BIT_ORDER_STANDARD H))) m in
  let m := do_hw (write32 CRC_VALUE (CRC_32_INIT_VALUE H)) m in
  let m := CalculateCRC_loop 7 (Wakeup_addr L) m in
  on_hw read_crc_final m.

(** ** _Sys_PowerModes_Sleep_MemoryRetention

    [p] is the pointer [p_sleep_mode_cfg], [cfg] the structure behind
    it. *)
Definition _Sys_PowerModes_Sleep_MemoryRetention (p : Z)
    (cfg : sleep_mode_cfg) (m : machine) : machine :=
  let r := vddret_ctrl cfg in
  let m := do_hw
    (write32 ACS_VDDRET_CTRL
       (Z.lor (Z.lor (Z.lor (Z.lor (Z.lor
          (Z.shiftl (vddm_ret_trim r) (ACS_VDDRET_CTRL_VDDMRET_VTRIM_Pos H))
          (VDDMRET_ENABLE H))
          (Z.shiftl (vddacs_ret_trim r) (ACS_VDDRET_CTRL_VDDACS_VTRIM_Pos H)))
          (Z.shiftl (vddt_ret r) (ACS_VDDRET_CTRL_VDDTRET_ENABLE_Pos H)))
          (Z.shiftl (vddc_ret_trim r) (ACS_VDDRET_CTRL_VDDCRET_VTRIM_Pos H)))
          (VDDCRET_DISABLE H))) m in
  let m := store (app_ptr L + 4 * 0) (stack L) m in
  let m := store (app_ptr L + 4 * 1) (regs (hw m) SCB_VTOR) m in
  let m := store (app_ptr L + 4 * 2) (WakeupFromRAM L) m in
  let m := store (app_ptr L + 4 * 3) 0x0 m in
  let m := store (app_ptr L + 4 * 4) 0x0 m in
  let m := store (app_ptr L + 4 * 5) 0x0 m in
  let m := store (app_ptr L + 4 * 6) 0x0 m in
  let (crc, m) := _Sys_PowerModes_CalculateCRC m in
  let m := store (app_ptr L + 4 * 7) crc m in
  let m := do_hw (write32 SYSCTRL_WAKEUP_ADDR (Wakeup_addr L)) m in
  let m := do_hw (v <- read32 SYSCTRL_MEM_ACCESS_CFG ;;
                  write32 ACS_BOOT_GP_DATA v) m in
  let m := do_hw (write32 ACS_GP_DATA p) m in
  let m := do_hw (write32 ACS_PWR_MODES_CTRL (PWR_SLEEP_MODE H)) m in
  emit WFI m.

(** ** _Sys_PowerModes_WakeupFromRAM *)

(** The structure a configuration pointer leads to. *)
Variable cfg_at : Z -> sleep_mode_cfg.

(** [_Sys_PowerModes_Sleep_WakeupInit], the wake sequence the handler
    shares with the other wake paths.  It waits for flags of the clock
    detector, of the DMA and of the baseband, whose behaviour is not part
    of this development; the handler is translated for a sequence that
    returns, and what it does to the machine is a parameter. *)
Variable _Sys_PowerModes_Sleep_WakeupInit : sleep_mode_cfg -> machine -> machine.

(** Where the handler stands when it is observed: it has returned, or it
    is in its [while (1)] loop. *)
Inductive status : Type :=
  | Returned (m : machine)
  | Spinning (m : machine).

(** [while (1) { }]: [n] more passes are observed; the body is empty. *)
Fixpoint while_1 (n : nat) (m : machine) : status :=
  match n with
  | O => Spinning m
  | S n' => while_1 n' m
  end.

Definition enable_irqs (irqs : list Z) (m : machine) : machine :=
  fold_left (fun m irq => emit (NVIC_EnableIRQ irq) m) irqs m.

(** The handler up to and including [__ISB()], for the configuration
    [cfg] its pointer leads to. *)
Definition WakeupFromRAM_prologue (cfg : sleep_mode_cfg) (m : machine)
    : machine :=
  let m := SYS_WATCHDOG_REFRESH H m in
  let m := emit (NVIC_EnableIRQ (WAKEUP_IRQn H)) m in
  let m := if FPU_USED H
           then do_hw (cpacr <- read32 SCB_CPACR ;;
                       write32 SCB_CPACR
                         (Z.lor cpacr (Z.lor (Z.shiftl 3 (10 * 2))
                                             (Z.shiftl 3 (11 * 2))))) m
           else m in
  let m := _Sys_PowerModes_Sleep_WakeupInit cfg m in
  let m := if negb (is_zero (ble_present cfg))
           then enable_irqs (BLE_IRQs H) m else m in
  let m := emit enable_irq m in
  emit ISB m.

(** The handler, observed after [n] passes of its final loop if it gets
    there.  The application function, when called, is taken to return. *)
Definition _Sys_PowerModes_WakeupFromRAM (n : nat) (m : machine) : status :=
  let m := emit disable_irq m in
  let p_sleep_mode_cfg := regs (hw m) ACS_GP_DATA in
  let cfg := cfg_at p_sleep_mode_cfg in
  let m := WakeupFromRAM_prologue cfg m in
  if negb (is_zero (app_addr cfg)) then
    Returned (emit (call (app_addr cfg)) m)
  else
    let m := SYS_WATCHDOG_REFRESH H m in
    while_1 n m.

End Functions.

(** The stores to the watchdog control register so far. *)
Definition watchdog_refreshes (m : machine) : nat :=
  length (filter (fun a => reg_eqb (access_reg a) WATCHDOG_CTRL)
                 (stores (hw m))).

Definition machine_of (s : status) : machine :=
  match s with Returned m => m | Spinning m => m end.

Definition calls_of (m : machine) : list Z :=
  flat_map (fun e => match e with call a => [a] | _ => [] end) (trace m).

Definition sample_hw : hw_h :=
  {| FPU_USED := true;
     ACS_VDDRET_CTRL_VDDMRET_VTRIM_Pos := 1;
     ACS_VDDRET_CTRL_VDDACS_VTRIM_Pos := 9;
     ACS_VDDRET_CTRL_VDDTRET_ENABLE_Pos := 16;
     ACS_VDDRET_CTRL_VDDCRET_VTRIM_Pos := 25;
     VDDMRET_ENABLE := 0x1; VDDCRET_DISABLE := 0x0;
     PWR_SLEEP_MODE := 0x1; WATCHDOG_REFRESH := 0x1;
     CRC_32 := 0x1; CRC_BIG_ENDIAN := 0x2; CRC_BIT_ORDER_STANDARD := 0x0;
     CRC_32_INIT_VALUE := 0xFFFFFFFF;
     WAKEUP_IRQn := 0;
     BLE_IRQs := [28; 29; 30; 31; 32; 33; 34; 35; 36] |}.

Definition sample_linker : linker :=
  {| app_ptr := 0x20000000; stack := 0x20010000;
     Wakeup_addr := 0x20000000; WakeupFromRAM := 0x20000101 |}.

Definition sample_cfg (app : Z) : sleep_mode_cfg :=
  {| wakeup_cfg := 0; boot_cfg := 0;
     clock_cfg := mkClock 48000000 1000000 1000000 1000000;
     app_gpio_config := 0;
     DMA_channel_RF := 0; ble_present := 0;
     vddret_ctrl := mkRet 1 0 1 1; app_addr := app |}.

Definition reset_machine : machine :=
  {| hw := Trim.reset_state; ram := fun _ => 0; trace := [] |}.

(** ** The wake configuration block *)

Lemma CalculateCRC_loop_spec : forall n a m,
  ram (CalculateCRC_loop n a m) = ram m
  /\ trace (CalculateCRC_loop n a m) = trace m
  /\ dev (hw (CalculateCRC_loop n a m)) = dev (hw m)
  /\ (forall r, r <> CRC_VALUE ->
        regs (hw (CalculateCRC_loop n a m)) r = regs (hw m) r)
  /\ regs (hw (CalculateCRC_loop n a m)) CRC_VALUE
     = fold_left (fun value w =>
                    uint32_t (crc_step (dev (hw m)) (regs (hw m) CRC_CFG) 4
                                       value w))
                 (map (fun i => load m (a + 4 * Z.of_nat i)) (seq 0 n))
                 (regs (hw m) CRC_VALUE).
Proof.
  induction n as [|n IH]; intros a m.
  - cbn. auto.
  - cbn [CalculateCRC_loop].
    set (m1 := do_hw (crc_add (Z.shiftr 32 3) (load m a)) m).
    destruct (IH (a + 4) m1) as (Hram & Htrace & Hdev & Hregs & Hvalue).
    assert (Hram1 : ram m1 = ram m) by reflexivity.
    assert (Htrace1 : trace m1 = trace m) by reflexivity.
    assert (Hdev1 : dev (hw m1) = dev (hw m)) by reflexivity.
    assert (Hregs1 : forall r, r <> CRC_VALUE -> regs (hw m1) r = regs (hw m) r).
    { intros r Hr. subst m1. unfold do_hw, on_hw, crc_add.
      cbn [snd hw regs]. now rewrite upd_other. }
    assert (Hvalue1 : regs (hw m1) CRC_VALUE
              = uint32_t (crc_step (dev (hw m)) (regs (hw m) CRC_CFG) 4
                                   (regs (hw m) CRC_VALUE) (load m a))).
    { subst m1. unfold do_hw, on_hw, crc_add. cbn [snd hw regs].
      rewrite upd_same. unfold load. now rewrite Trim.uint32_t_idem. }
    rewrite Hram, Htrace, Hdev, Hvalue, Hdev1, Hvalue1,
      (Hregs1 CRC_CFG) by discriminate.
    repeat split; try assumption.
    + intros r Hr. now rewrite Hregs, Hregs1.
    + cbn [seq map fold_left]. rewrite <- seq_shift, map_map.
      replace (a + 4 * Z.of_nat 0) with a by lia.
      f_equal. apply map_ext. intros i. unfold load. rewrite Hram1.
      f_equal. f_equal. lia.
Qed.

Lemma on_hw_read_crc_final m :
  on_hw read_crc_final m
  = (uint32_t (crc_final (dev (hw m)) (regs (hw m) CRC_CFG)
                         (regs (hw m) CRC_VALUE)),
     mkMachine (hw m) (ram m) (trace m)).
Proof. reflexivity. Qed.

(** The machine once the engine is configured and seeded. *)
Definition crc_setup (H : hw_h) (m : machine) : machine :=
  do_hw (write32 CRC_VALUE (CRC_32_INIT_VALUE H))
    (do_hw (write32 CRC_CFG
              (Z.lor (Z.lor (CRC_32 H) (CRC_BIG_ENDIAN H))
                     (CRC_BIT_ORDER_STANDARD H))) m).

Lemma crc_setup_spec H m :
  regs (hw (crc_setup H m)) CRC_CFG
    = uint32_t (Z.lor (Z.lor (CRC_32 H) (CRC_BIG_ENDIAN H))
                      (CRC_BIT_ORDER_STANDARD H))
  /\ regs (hw (crc_setup H m)) CRC_VALUE = uint32_t (CRC_32_INIT_VALUE H)
  /\ (forall r, r <> CRC_VALUE -> r <> CRC_CFG ->
        regs (hw (crc_setup H m)) r = regs (hw m) r)
  /\ dev (hw (crc_setup H m)) = dev (hw m)
  /\ ram (crc_setup H m) = ram m
  /\ trace (crc_setup H m) = trace m.
Proof.
  unfold crc_setup, do_hw, on_hw, write32. cbn [snd hw regs dev ram trace].
  split; [|split; [|split; [|split; [|split]]]].
  - rewrite upd_other by discriminate. apply upd_same.
  - apply upd_same.
  - intros r Hv Hc. now rewrite !upd_other by assumption.
  - reflexivity.
  - reflexivity.
  - reflexivity.
Qed.

Lemma CalculateCRC_unfold H L m :
  _Sys_PowerModes_CalculateCRC H L m
  = on_hw read_crc_final (CalculateCRC_loop 7 (Wakeup_addr L) (crc_setup H m)).
Proof. reflexivity. Qed.

(** What the read-out does with the machine the loop leaves, for any two
    machines related as the set-up and the loop relate them. *)
Lemma crc_readout L m m1 m2 cfg init :
  regs (hw m1) CRC_CFG = cfg ->
  regs (hw m1) CRC_VALUE = init ->
  dev (hw m1) = dev (hw m) ->
  ram m1 = ram m ->
  dev (hw m2) = dev (hw m1) ->
  (forall r, r <> CRC_VALUE -> regs (hw m2) r = regs (hw m1) r) ->
  regs (hw m2) CRC_VALUE
    = fold_left (fun value w =>
                   uint32_t (crc_step (dev (hw m1)) (regs (hw m1) CRC_CFG) 4
                                      value w))
                (map (fun i => load m1 (Wakeup_addr L + 4 * Z.of_nat i))
                     (seq 0 7))
                (regs (hw m1) CRC_VALUE) ->
  fst (on_hw read_crc_final m2)
    = Trim.crc_of_words (dev (hw m)) cfg init
        (map (fun i => load m (Wakeup_addr L + 4 * Z.of_nat i)) (seq 0 7)).
Proof.
  intros Hcfg1 Hvalue1 Hdev1 Hram1 Hdev Hregs Hvalue.
  rewrite on_hw_read_crc_final. cbn [fst].
  rewrite Hdev, Hvalue, (Hregs CRC_CFG), Hcfg1, Hvalue1, Hdev1 by discriminate.
  unfold Trim.crc_of_words. do 3 f_equal.
  apply map_ext. intros i. unfold load. now rewrite Hram1.
Qed.

Lemma ram_on_hw {A} (c : M A) m : ram (snd (on_hw c m)) = ram m.
Proof. unfold on_hw. now destruct (c (hw m)). Qed.

Lemma trace_on_hw {A} (c : M A) m : trace (snd (on_hw c m)) = trace m.
Proof. unfold on_hw. now destruct (c (hw m)). Qed.

Lemma hw_on_hw_read_crc_final m : hw (snd (on_hw read_crc_final m)) = hw m.
Proof. reflexivity. Qed.

(** The CRC the function returns is the CRC-32 of the seven words that lie
    at [__Wakeup_addr]; the RAM and the trace are as before. *)
Lemma CalculateCRC_spec H L m :
  fst (_Sys_PowerModes_CalculateCRC H L m)
    = Trim.crc_of_words (dev (hw m))
        (uint32_t (Z.lor (Z.lor (CRC_32 H) (CRC_BIG_ENDIAN H))
                         (CRC_BIT_ORDER_STANDARD H)))
        (uint32_t (CRC_32_INIT_VALUE H))
        (map (fun i => load m (Wakeup_addr L + 4 * Z.of_nat i)) (seq 0 7))
  /\ ram (snd (_Sys_PowerModes_CalculateCRC H L m)) = ram m
  /\ trace (snd (_Sys_PowerModes_CalculateCRC H L m)) = trace m
  /\ (forall r, r <> CRC_VALUE -> r <> CRC_CFG ->
        regs (hw (snd (_Sys_PowerModes_CalculateCRC H L m))) r = regs (hw m) r).
Proof.
  rewrite CalculateCRC_unfold.
  destruct (crc_setup_spec H m)
    as (Hcfg1 & Hvalue1 & Hregs1 & Hdev1 & Hram1 & Htrace1).
  destruct (CalculateCRC_loop_spec 7 (Wakeup_addr L) (crc_setup H m))
    as (Hram & Htrace & Hdev & Hregs & Hvalue).
  split; [|split; [|split]].
  - now apply (crc_readout L m (crc_setup H m)).
  - now rewrite ram_on_hw, Hram.
  - now rewrite trace_on_hw, Htrace.
  - intros r Hv Hc.
    rewrite hw_on_hw_read_crc_final, Hregs by assumption. now apply Hregs1.
Qed.

(** The machine's parts under the operations of the model. *)
Lemma ram_store a v m x :
  ram (store a v m) x = if x =? a then uint32_t v else ram m x.
Proof. reflexivity. Qed.

Lemma hw_store a v m : hw (store a v m) = hw m.
Proof. reflexivity. Qed.

Lemma ram_do_hw c m : ram (do_hw c m) = ram m.
Proof. apply ram_on_hw. Qed.

Lemma ram_emit e m : ram (emit e m) = ram m.
Proof. reflexivity. Qed.

Lemma hw_emit e m : hw (emit e m) = hw m.
Proof. reflexivity. Qed.

Lemma regs_do_hw_write32 r v m :
  regs (hw (do_hw (write32 r v) m)) = upd (regs (hw m)) r (uint32_t v).
Proof. reflexivity. Qed.

Lemma dev_do_hw_write32 r v m : dev (hw (do_hw (write32 r v) m)) = dev (hw m).
Proof. reflexivity. Qed.

Lemma regs_do_hw_copy src dst m :
  regs (hw (do_hw (v <- read32 src ;; write32 dst v) m))
    = upd (regs (hw m)) dst (uint32_t (regs (hw m) src)).
Proof. reflexivity. Qed.

(** Memory with the words [ws] stored one after the other from word [i] of
    the array at [base] on. *)
Fixpoint overlay (base : Z) (i : nat) (ws : list Z) (mem : Z -> Z) : Z -> Z :=
  match ws with
  | [] => mem
  | w :: ws' =>
      overlay base (S i) ws'
        (fun x => if x =? base + 4 * Z.of_nat i then w else mem x)
  end.

(** The first seven words of the block, for the vector table base
    [vtor]. *)
Definition block_words (L : linker) (vtor : Z) : list Z :=
  [uint32_t (stack L); uint32_t vtor; uint32_t (WakeupFromRAM L); 0; 0; 0; 0].

(** The machine when [_Sys_PowerModes_CalculateCRC] is called: the
    retention regulators are set and [app_ptr[0]] to [app_ptr[6]] are
    stored. *)
Definition block_stored (H : hw_h) (L : linker) (cfg : sleep_mode_cfg)
    (m : machine) : machine :=
  let r := vddret_ctrl cfg in
  let m := do_hw
    (write32 ACS_VDDRET_CTRL
       (Z.lor (Z.lor (Z.lor (Z.lor (Z.lor
          (Z.shiftl (vddm_ret_trim r) (ACS_VDDRET_CTRL_VDDMRET_VTRIM_Pos H))
          (VDDMRET_ENABLE H))
          (Z.shiftl (vddacs_ret_trim r) (ACS_VDDRET_CTRL_VDDACS_VTRIM_Pos H)))
          (Z.shiftl (vddt_ret r) (ACS_VDDRET_CTRL_VDDTRET_ENABLE_Pos H)))
          (Z.shiftl (vddc_ret_trim r) (ACS_VDDRET_CTRL_VDDCRET_VTRIM_Pos H)))
          (VDDCRET_DISABLE H))) m in
  let m := store (app_ptr L + 4 * 0) (stack L) m in
  let m := store (app_ptr L + 4 * 1) (regs (hw m) SCB_VTOR) m in
  let m := store (app_ptr L + 4 * 2) (WakeupFromRAM L) m in
  let m := store (app_ptr L + 4 * 3) 0x0 m in
  let m := store (app_ptr L + 4 * 4) 0x0 m in
  let m := store (app_ptr L + 4 * 5) 0x0 m in
  store (app_ptr L + 4 * 6) 0x0 m.

Lemma MemoryRetention_unfold H L p cfg m :
  _Sys_PowerModes_Sleep_MemoryRetention H L p cfg m
  = emit WFI
      (do_hw (write32 ACS_PWR_MODES_CTRL (PWR_SLEEP_MODE H))
         (do_hw (write32 ACS_GP_DATA p)
            (do_hw (v <- read32 SYSCTRL_MEM_ACCESS_CFG ;;
                    write32 ACS_BOOT_GP_DATA v)
               (do_hw (write32 SYSCTRL_WAKEUP_ADDR (Wakeup_addr L))
                  (store (app_ptr L + 4 * 7)
                     (fst (_Sys_PowerModes_CalculateCRC H L
                             (block_stored H L cfg m)))
                     (snd (_Sys_PowerModes_CalculateCRC H L
                             (block_stored H L cfg m)))))))).
Proof.
  unfold _Sys_PowerModes_Sleep_MemoryRetention.
  change (let (crc, m0) :=
            _Sys_PowerModes_CalculateCRC H L (block_stored H L cfg m) in
          emit WFI
            (do_hw (write32 ACS_PWR_MODES_CTRL (PWR_SLEEP_MODE H))
               (do_hw (write32 ACS_GP_DATA p)
                  (do_hw (v <- read32 SYSCTRL_MEM_ACCESS_CFG ;;
                          write32 ACS_BOOT_GP_DATA v)
                     (do_hw (write32 SYSCTRL_WAKEUP_ADDR (Wakeup_addr L))
                        (store (app_ptr L + 4 * 7) crc m0)))))
          = emit WFI
      (do_hw (write32 ACS_PWR_MODES_CTRL (PWR_SLEEP_MODE H))
         (do_hw (write32 ACS_GP_DATA p)
            (do_hw (v <- read32 SYSCTRL_MEM_ACCESS_CFG ;;
                    write32 ACS_BOOT_GP_DATA v)
               (do_hw (write32 SYSCTRL_WAKEUP_ADDR (Wakeup_addr L))
                  (store (app_ptr L + 4 * 7)
                     (fst (_Sys_PowerModes_CalculateCRC H L
                             (block_stored H L cfg m)))
                     (snd (_Sys_PowerModes_CalculateCRC H L
                             (block_stored H L cfg m))))))))).
  now destruct (_Sys_PowerModes_CalculateCRC H L (block_stored H L cfg m)).
Qed.

Lemma hw_block_stored H L cfg m :
  dev (hw (block_stored H L cfg m)) = dev (hw m)
  /\ regs (hw (block_stored H L cfg m)) SCB_VTOR = regs (hw m) SCB_VTOR.
Proof.
  unfold block_stored. cbv zeta. rewrite !hw_store.
  rewrite dev_do_hw_write32, regs_do_hw_write32, upd_other by discriminate.
  split; reflexivity.
Qed.

Lemma ram_block_stored H L cfg m x :
  ram (block_stored H L cfg m) x
  = overlay (app_ptr L) 0 (block_words L (regs (hw m) SCB_VTOR)) (ram m) x.
Proof.
  unfold block_stored. cbv zeta. rewrite !ram_store, !hw_store.
  rewrite ram_do_hw, regs_do_hw_write32, upd_other by discriminate.
  reflexivity.
Qed.

Ltac decide_addr :=
  repeat match goal with
  | |- context [?a =? ?b] =>
      first [ rewrite (proj2 (Z.eqb_eq a b)) by lia
            | rewrite (proj2 (Z.eqb_neq a b)) by lia ]
  end.

(** The RAM the function leaves: the block's first seven words, then the
    value [_Sys_PowerModes_CalculateCRC] returned at [app_ptr[7]]. *)
Lemma ram_MemoryRetention H L p cfg m x :
  ram (_Sys_PowerModes_Sleep_MemoryRetention H L p cfg m) x
  = if x =? app_ptr L + 4 * 7
    then uint32_t (fst (_Sys_PowerModes_CalculateCRC H L
                          (block_stored H L cfg m)))
    else overlay (app_ptr L) 0 (block_words L (regs (hw m) SCB_VTOR))
                 (ram m) x.
Proof.
  rewrite MemoryRetention_unfold, ram_emit, !ram_do_hw, ram_store.
  destruct (CalculateCRC_spec H L (block_stored H L cfg m))
    as (_ & Hram & _).
  now rewrite Hram, ram_block_stored.
Qed.

Lemma block_word H L p cfg m i :
  (i < 7)%nat ->
  load (_Sys_PowerModes_Sleep_MemoryRetention H L p cfg m)
       (app_ptr L + 4 * Z.of_nat i)
  = nth i (block_words L (regs (hw m) SCB_VTOR)) 0.
Proof.
  intros Hi. unfold load. rewrite ram_MemoryRetention.
  rewrite (proj2 (Z.eqb_neq _ _)) by lia.
  do 7 (destruct i as [|i];
        [cbn [overlay block_words nth]; decide_addr;
         rewrite ?Trim.uint32_t_idem; reflexivity|]).
  lia.
Qed.

(** The CRC of the seven words at [__Wakeup_addr] once the block's first
    seven words are stored. *)
Definition block_crc (H : hw_h) (L : linker) (m : machine) : Z :=
  Trim.crc_of_words (dev (hw m))
    (uint32_t (Z.lor (Z.lor (CRC_32 H) (CRC_BIG_ENDIAN H))
                     (CRC_BIT_ORDER_STANDARD H)))
    (uint32_t (CRC_32_INIT_VALUE H))
    (map (fun i => uint32_t
                     (overlay (app_ptr L) 0
                        (block_words L (regs (hw m) SCB_VTOR)) (ram m)
                        (Wakeup_addr L + 4 * Z.of_nat i)))
         (seq 0 7)).

Lemma crc_word H L p cfg m :
  load (_Sys_PowerModes_Sleep_MemoryRetention H L p cfg m)
       (app_ptr L + 4 * Z.of_nat 7)
  = block_crc H L m.
Proof.
  unfold load. rewrite ram_MemoryRetention.
  rewrite (proj2 (Z.eqb_eq _ _)) by lia.
  destruct (CalculateCRC_spec H L (block_stored H L cfg m)) as (Hcrc & _).
  destruct (hw_block_stored H L cfg m) as (Hdev & _).
  assert (Hloads :
    map (fun i => load (block_stored H L cfg m)
                       (Wakeup_addr L + 4 * Z.of_nat i)) (seq 0 7)
    = map (fun i => uint32_t
                      (overlay (app_ptr L) 0
                         (block_words L (regs (hw m) SCB_VTOR)) (ram m)
                         (Wakeup_addr L + 4 * Z.of_nat i))) (seq 0 7)).
  { apply map_ext. intros i. unfold load. now rewrite ram_block_stored. }
  rewrite Hcrc, Hdev, Hloads. unfold block_crc, Trim.crc_of_words.
  now rewrite !Trim.uint32_t_idem.
Qed.

Lemma WAKEUP_ADDR_set H L p cfg m :
  regs (hw (_Sys_PowerModes_Sleep_MemoryRetention H L p cfg m))
       SYSCTRL_WAKEUP_ADDR
  = uint32_t (Wakeup_addr L).
Proof.
  rewrite MemoryRetention_unfold, hw_emit.
  rewrite !regs_do_hw_write32, regs_do_hw_copy, !upd_other by discriminate.
  rewrite regs_do_hw_write32. apply upd_same.
Qed.

Lemma block_crc_same_address H L m :
  Wakeup_addr L = app_ptr L ->
  block_crc H L m
  = Trim.crc_of_words (dev (hw m))
      (uint32_t (Z.lor (Z.lor (CRC_32 H) (CRC_BIG_ENDIAN H))
                       (CRC_BIT_ORDER_STANDARD H)))
      (uint32_t (CRC_32_INIT_VALUE H))
      (block_words L (regs (hw m) SCB_VTOR)).
Proof.
  intros E. unfold block_crc. f_equal. rewrite E.
  cbn [seq map overlay block_words]. decide_addr.
  rewrite !Trim.uint32_t_idem. reflexivity.
Qed.

(** C2, as amended.  [_Sys_PowerModes_Sleep_MemoryRetention] leaves, in the
    eight words of [app_ptr], the stack pointer, the value of [SCB->VTOR],
    the address of [_Sys_PowerModes_WakeupFromRAM], four zero words
    ([app_ptr[3]] to [app_ptr[6]]) and, as the last word, the CRC-32 of the
    seven words at [__Wakeup_addr] as they are once the first seven words
    are stored; it sets [SYSCTRL->WAKEUP_ADDR] to the address
    [__Wakeup_addr]; and where [__Wakeup_addr] is the address of [app_ptr],
    the CRC is that of the block's own first seven words. *)
Theorem MemoryRetention_wake_block H L p cfg m :
  map (fun i => load (_Sys_PowerModes_Sleep_MemoryRetention H L p cfg m)
                     (app_ptr L + 4 * Z.of_nat i)) (seq 0 8)
    = [uint32_t (stack L); uint32_t (regs (hw m) SCB_VTOR);
       uint32_t (WakeupFromRAM L); 0; 0; 0; 0; block_crc H L m]
  /\ regs (hw (_Sys_PowerModes_Sleep_MemoryRetention H L p cfg m))
          SYSCTRL_WAKEUP_ADDR
     = uint32_t (Wakeup_addr L)
  /\ (Wakeup_addr L = app_ptr L ->
      block_crc H L m
      = Trim.crc_of_words (dev (hw m))
          (uint32_t (Z.lor (Z.lor (CRC_32 H) (CRC_BIG_ENDIAN H))
                           (CRC_BIT_ORDER_STANDARD H)))
          (uint32_t (CRC_32_INIT_VALUE H))
          [uint32_t (stack L); uint32_t (regs (hw m) SCB_VTOR);
           uint32_t (WakeupFromRAM L); 0; 0; 0; 0]).
Proof.
  split; [|split].
  - cbn [seq map].
    rewrite crc_word, !block_word by lia. reflexivity.
  - apply WAKEUP_ADDR_set.
  - apply block_crc_same_address.
Qed.

(** A machine in which the application runs: the vector table at
    0x00100000, the RAM filled with a pattern. *)
Definition running_machine : machine :=
  {| hw := {| dev := Trim.sample_device;
              regs := fun r => if reg_eqb r SCB_VTOR then 0x00100000 else 0;
              stores := []; lsad_reads := 0 |};
     ram := fun _ => 0xA5A5A5A5;
     trace := [] |}.

Lemma MemoryRetention_wake_block_witness :
  Wakeup_addr sample_linker = app_ptr sample_linker
  /\ block_crc sample_hw sample_linker running_machine
     = Trim.crc_of_words Trim.sample_device 3 0xFFFFFFFF
         [0x20010000; 0x00100000; 0x20000101; 0; 0; 0; 0].
Proof.
  split; [reflexivity|].
  destruct (MemoryRetention_wake_block sample_hw sample_linker 0x20001000
              (sample_cfg 0x1001) running_machine) as (_ & _ & Hcrc).
  apply Hcrc. reflexivity.
Defined.

(** C2 fails as stated.  The block the code writes has four zero words
    between the wake entry address and the CRC: the word after three zero
    words, [app_ptr[6]], is a fourth zero and not the CRC, which lies in
    [app_ptr[7]]. *)
Lemma MemoryRetention_claim_counterexample :
  let m' := _Sys_PowerModes_Sleep_MemoryRetention sample_hw sample_linker
              0x20001000 (sample_cfg 0x1001) running_machine in
  map (fun i => load m' (app_ptr sample_linker + 4 * Z.of_nat i)) (seq 0 8)
    = [0x20010000; 0x00100000; 0x20000101; 0; 0; 0; 0; 0x40110100]
  /\ load m' (app_ptr sample_linker + 4 * 6)
     <> block_crc sample_hw sample_linker running_machine.
Proof.
  split; [vm_compute; reflexivity | vm_compute; discriminate].
Qed.

(** ** The wake handler *)

Lemma while_1_spins n m : while_1 n m = Spinning m.
Proof. induction n as [|n IH]; [reflexivity | exact IH]. Qed.

Lemma watchdog_refreshes_REFRESH H m :
  watchdog_refreshes (SYS_WATCHDOG_REFRESH H m) = S (watchdog_refreshes m).
Proof. reflexivity. Qed.

Lemma calls_of_REFRESH H m : calls_of (SYS_WATCHDOG_REFRESH H m) = calls_of m.
Proof. reflexivity. Qed.

Section Handler.

Variable H : hw_h.
Variable cfg_at : Z -> sleep_mode_cfg.
Variable WakeupInit : sleep_mode_cfg -> machine -> machine.

(** The configuration the handler finds behind [ACS->GP_DATA], and the
    machine when it reaches the test of [app_addr]. *)
Definition found_cfg (m : machine) : sleep_mode_cfg :=
  cfg_at (regs (hw m) ACS_GP_DATA).

Definition woken (m : machine) : machine :=
  WakeupFromRAM_prologue H WakeupInit (found_cfg m) (emit disable_irq m).

Lemma WakeupFromRAM_unset m n :
  app_addr (found_cfg m) = 0 ->
  _Sys_PowerModes_WakeupFromRAM H cfg_at WakeupInit n m
  = Spinning (SYS_WATCHDOG_REFRESH H (woken m)).
Proof.
  intros E. unfold _Sys_PowerModes_WakeupFromRAM.
  change (cfg_at (regs (hw (emit disable_irq m)) ACS_GP_DATA))
    with (found_cfg m).
  cbv zeta. rewrite E. cbn [is_zero Z.eqb negb]. apply while_1_spins.
Qed.

Lemma WakeupFromRAM_set m n :
  app_addr (found_cfg m) <> 0 ->
  _Sys_PowerModes_WakeupFromRAM H cfg_at WakeupInit n m
  = Returned (emit (call (app_addr (found_cfg m))) (woken m)).
Proof.
  intros E. unfold _Sys_PowerModes_WakeupFromRAM.
  change (cfg_at (regs (hw (emit disable_irq m)) ACS_GP_DATA))
    with (found_cfg m).
  cbv zeta. unfold is_zero. apply Z.eqb_neq in E. now rewrite E.
Qed.

End Handler.

(** The handler refreshes the watchdog again and again: whenever it is
    observed, a later observation finds more refreshes. *)
Definition refreshes_periodically (observe : nat -> status) : Prop :=
  forall n, exists k,
    (n < k)%nat
    /\ (watchdog_refreshes (machine_of (observe n))
        < watchdog_refreshes (machine_of (observe k)))%nat.

(** C3, as amended.  With [app_addr] unset the handler calls nothing: it
    refreshes the watchdog once and then stays in its empty loop, so that
    however long it is observed the machine is the one that entered the
    loop, with one refresh more than at the test and no call made; with
    [app_addr] set it calls [app_addr] as its last action. *)
Theorem WakeupFromRAM_outcome H cfg_at WakeupInit m :
  (app_addr (found_cfg cfg_at m) = 0 ->
   forall n,
     _Sys_PowerModes_WakeupFromRAM H cfg_at WakeupInit n m
       = Spinning (SYS_WATCHDOG_REFRESH H (woken H cfg_at WakeupInit m))
     /\ calls_of (machine_of
                    (_Sys_PowerModes_WakeupFromRAM H cfg_at WakeupInit n m))
        = calls_of (woken H cfg_at WakeupInit m)
     /\ watchdog_refreshes
          (machine_of (_Sys_PowerModes_WakeupFromRAM H cfg_at WakeupInit n m))
        = S (watchdog_refreshes (woken H cfg_at WakeupInit m)))
  /\ (app_addr (found_cfg cfg_at m) <> 0 ->
      forall n,
        _Sys_PowerModes_WakeupFromRAM H cfg_at WakeupInit n m
          = Returned (emit (call (app_addr (found_cfg cfg_at m)))
                           (woken H cfg_at WakeupInit m))).
Proof.
  split.
  - intros E n. rewrite WakeupFromRAM_unset by assumption.
    cbn [machine_of].
    now rewrite calls_of_REFRESH, watchdog_refreshes_REFRESH.
  - intros E n. now apply WakeupFromRAM_set.
Qed.

(** The wake sequence for a configuration without BLE, reduced to what it
    does to the watchdog: the refresh it starts with. *)
Definition sample_WakeupInit (cfg : sleep_mode_cfg) (m : machine) : machine :=
  SYS_WATCHDOG_REFRESH sample_hw m.

Lemma WakeupFromRAM_outcome_witness :
  (app_addr (found_cfg (fun _ => sample_cfg 0) reset_machine) = 0
   /\ _Sys_PowerModes_WakeupFromRAM sample_hw (fun _ => sample_cfg 0)
        sample_WakeupInit 5 reset_machine
      = Spinning (SYS_WATCHDOG_REFRESH sample_hw
                    (woken sample_hw (fun _ => sample_cfg 0)
                           sample_WakeupInit reset_machine)))
  /\ (app_addr (found_cfg (fun _ => sample_cfg 0x1001) reset_machine) <> 0
      /\ _Sys_PowerModes_WakeupFromRAM sample_hw (fun _ => sample_cfg 0x1001)
           sample_WakeupInit 5 reset_machine
         = Returned (emit (call 0x1001)
                       (woken sample_hw (fun _ => sample_cfg 0x1001)
                              sample_WakeupInit reset_machine))).
Proof.
  split.
  - split; [reflexivity|].
    apply (proj1 (WakeupFromRAM_outcome sample_hw (fun _ => sample_cfg 0)
                    sample_WakeupInit reset_machine)).
    reflexivity.
  - split; [discriminate|].
    apply (proj2 (WakeupFromRAM_outcome sample_hw (fun _ => sample_cfg 0x1001)
                    sample_WakeupInit reset_machine)).
    discriminate.
Defined.

(** C3 fails as stated.  With [app_addr] unset the handler does not refresh
    the watchdog periodically: every observation of the loop finds the
    three refreshes of the way in (at the start of the handler, in the wake
    sequence and before the loop) and no more. *)
Lemma WakeupFromRAM_claim_counterexample :
  (forall n,
     watchdog_refreshes
       (machine_of (_Sys_PowerModes_WakeupFromRAM sample_hw
                      (fun _ => sample_cfg 0) sample_WakeupInit n
                      reset_machine)) = 3%nat)
  /\ ~ refreshes_periodically
         (fun n => _Sys_PowerModes_WakeupFromRAM sample_hw
                     (fun _ => sample_cfg 0) sample_WakeupInit n
                     reset_machine).
Proof.
  assert (Hn : forall n,
     watchdog_refreshes
       (machine_of (_Sys_PowerModes_WakeupFromRAM sample_hw
                      (fun _ => sample_cfg 0) sample_WakeupInit n
                      reset_machine)) = 3%nat).
  { intros n. rewrite WakeupFromRAM_unset by reflexivity. reflexivity. }
  split; [exact Hn|].
  intros Hp. destruct (Hp 0%nat) as (k & _ & Hlt).
  rewrite !Hn in Hlt. lia.
Qed.

End PowerModes.

(** * Further properties of the trim lookup (source/trim.c) *)

Module Lookup.

Import Trim.

(** One pass either hits, with [ERROR_NO_ERROR] and a 16-bit value, or
    misses, with [ERROR_NO_TRIM_FOUND] and 0xFFFF in [*trim_val]. *)
Lemma GetTrim_body_cases w key :
  (exists v, GetTrim_body w key = (true, ERROR_NO_ERROR, v)
             /\ 0 <= v <= 0xFFFF)
  \/ GetTrim_body w key = (false, ERROR_NO_TRIM_FOUND, 0xFFFF).
Proof.
  assert (Hv : 0 <= Z.land w TRIM_16_BIT_TRIM_MASK <= 0xFFFF).
  { pose proof (land_FFFF_range w). unfold TRIM_16_BIT_TRIM_MASK. lia. }
  assert (Hlo : 0 <= Z.land (Z.land w TRIM_16_BIT_TRIM_MASK) 0xFF <= 0xFFFF).
  { change 0xFF with (Z.ones 8). rewrite Z.land_ones by lia.
    pose proof (Z.mod_pos_bound (Z.land w TRIM_16_BIT_TRIM_MASK) (2 ^ 8)
                  ltac:(lia)). lia. }
  assert (Hhi : 0 <= Z.shiftr (Z.land (Z.land w TRIM_16_BIT_TRIM_MASK) 0xFF00) 8
                <= 0xFFFF).
  { rewrite shiftr_land_FF00 by lia. rewrite Z.shiftr_div_pow2 by lia.
    split; [apply Z.div_pos; lia|].
    assert (Z.land w TRIM_16_BIT_TRIM_MASK / 2 ^ 8
            <= Z.land w TRIM_16_BIT_TRIM_MASK); [|lia].
    apply Z.div_le_upper_bound; lia. }
  unfold GetTrim_body.
  repeat match goal with
         | |- context [if ?c then _ else _] => destruct c
         end;
    first [ right; reflexivity | left; eexists; split; [reflexivity|assumption] ].
Qed.

Lemma GetTrim_loop_cases addr key : forall n i ret_val trim_val,
  (0 < n)%nat ->
  (exists v, GetTrim_loop addr key n i ret_val trim_val = (ERROR_NO_ERROR, v)
             /\ 0 <= v <= 0xFFFF)
  \/ GetTrim_loop addr key n i ret_val trim_val = (ERROR_NO_TRIM_FOUND, 0xFFFF).
Proof.
  induction n as [|n IH]; intros i ret_val trim_val Hn; [lia|].
  cbn [GetTrim_loop].
  destruct (GetTrim_body_cases (uint32_t (addr i)) key) as [(v & -> & Hv)| ->].
  - left. now exists v.
  - destruct n as [|n']; [now right|]. apply IH. lia.
Qed.

Lemma GetTrim_cases (indeterminate : Z) (addr : words) (key : Z) (n : nat)
    (v0 : Z) :
  (0 < n)%nat ->
  (exists v,
     Sys_Trim_GetTrim indeterminate (Some addr) key n (Some v0)
       = (ERROR_NO_ERROR, Some v)
     /\ 0 <= v <= 0xFFFF)
  \/ Sys_Trim_GetTrim indeterminate (Some addr) key n (Some v0)
     = (ERROR_NO_TRIM_FOUND, Some 0xFFFF).
Proof.
  intros Hn. unfold Sys_Trim_GetTrim.
  destruct (GetTrim_loop_cases addr (uint16_t key) n 0 indeterminate v0 Hn)
    as [(v & -> & Hv)| ->].
  - left. now exists v.
  - now right.
Qed.

(** X1.  Called with non-null pointers on a table of at least one record,
    [Sys_Trim_GetTrim] has two outcomes only: [ERROR_NO_ERROR] with a value
    of at most 16 bits behind [trim_val], or [ERROR_NO_TRIM_FOUND] with
    0xFFFF behind [trim_val].  It returns neither [ERROR_INVALID_TRIM] nor
    [ERROR_NULL], and it always stores through [trim_val]. *)
Theorem GetTrim_outcome (indeterminate : Z) (addr : words) (key : Z) (n : nat)
    (v0 : Z) :
  (0 < n)%nat ->
  (exists v,
     Sys_Trim_GetTrim indeterminate (Some addr) key n (Some v0)
       = (ERROR_NO_ERROR, Some v)
     /\ 0 <= v <= 0xFFFF)
  \/ Sys_Trim_GetTrim indeterminate (Some addr) key n (Some v0)
     = (ERROR_NO_TRIM_FOUND, Some 0xFFFF).
Proof. apply GetTrim_cases. Qed.

Lemma GetTrim_outcome_witness :
  (exists v,
     Sys_Trim_GetTrim 0 (Some vddc_table) 115 3 (Some 0)
       = (ERROR_NO_ERROR, Some v)
     /\ 0 <= v <= 0xFFFF)
  \/ Sys_Trim_GetTrim 0 (Some vddc_table) 115 3 (Some 0)
     = (ERROR_NO_TRIM_FOUND, Some 0xFFFF).
Proof. apply (GetTrim_outcome 0 vddc_table 115 3 0). lia. Defined.

(** X2.  The first record that matches wins: when the records before
    record [k] are sentinels or do not match the key, and record [k] is no
    sentinel and matches, the lookup returns the value of record [k],
    whatever the records after it hold (other matches included). *)
Theorem GetTrim_first_match (indeterminate : Z) (addr : words) (key : Z)
    (n k : nat) (v0 : Z) :
  0 <= key <= 0xFFFF -> key <> 0 -> key <> 0xFF -> (k < n)%nat ->
  (forall j, (j < k)%nat ->
     sentinel (uint32_t (addr j)) = true
     \/ record_matches (uint32_t (addr j)) key = false) ->
  sentinel (uint32_t (addr k)) = false ->
  record_matches (uint32_t (addr k)) key = true ->
  Sys_Trim_GetTrim indeterminate (Some addr) key n (Some v0)
    = (ERROR_NO_ERROR, Some (record_value (uint32_t (addr k)) key)).
Proof.
  intros Hkey H0 HF Hk Hbefore Hs Hm.
  unfold Sys_Trim_GetTrim. rewrite uint16_t_small by assumption.
  rewrite (GetTrim_loop_first addr key k ERROR_NO_ERROR
             (record_value (uint32_t (addr k)) key) n 0 indeterminate v0);
    [reflexivity|lia| |].
  - intros j Hj. apply no_hit_of_no_match; auto. apply Hbefore. lia.
  - rewrite GetTrim_body_record by assumption. now rewrite Hm.
Qed.

(** Two records for the target 115, with the trims 0x12 and 0x34. *)
Definition doubled_table : words :=
  region_of [0xFFFFFFFF; 0x00730012; 0x00730034].

Lemma GetTrim_first_match_witness :
  Sys_Trim_GetTrim 0 (Some doubled_table) 115 3 (Some 0)
    = (ERROR_NO_ERROR, Some 0x12).
Proof.
  apply (GetTrim_first_match 0 doubled_table 115 3 1 0);
    [lia|lia|lia|lia| |reflexivity|reflexivity].
  intros j Hj. destruct j as [|j]; [left; reflexivity|lia].
Defined.

End Lookup.

(** * Further properties of the trim loaders (source/trim.c) *)

Module Loaders.

Import Trim.

(** ** Which registers a computation can change *)

(** Every register outside [rs] holds after [c] what it held before. *)
Definition frame {A} (rs : list reg) (c : M A) : Prop :=
  forall s r, ~ In r rs -> regs (snd (c s)) r = regs s r.

Lemma frame_ret {A} rs (a : A) : frame rs (ret a).
Proof. intros s r _. reflexivity. Qed.

Lemma frame_bind {A B} rs (c : M A) (k : A -> M B) :
  frame rs c -> (forall a, frame rs (k a)) -> frame rs (bind c k).
Proof.
  intros Hc Hk s r Hr. unfold bind.
  specialize (Hc s r Hr). destruct (c s) as [a s1]. cbn [snd] in Hc.
  now rewrite (Hk a s1 r Hr).
Qed.

Lemma frame_read32 rs r : frame rs (read32 r).
Proof. intros s x _. reflexivity. Qed.

Lemma frame_read8 rs b : frame rs (read8 b).
Proof. intros s x _. reflexivity. Qed.

Lemma frame_read_crc_final rs : frame rs read_crc_final.
Proof. intros s x _. reflexivity. Qed.

Lemma frame_write32 rs r v : In r rs -> frame rs (write32 r v).
Proof.
  intros Hin s x Hx. cbn. apply upd_other. intros ->. contradiction.
Qed.

Lemma frame_write8 rs b v : In (br_reg b) rs -> frame rs (write8 b v).
Proof.
  intros Hin s x Hx. cbn. apply upd_other. intros ->. contradiction.
Qed.

Lemma frame_crc_add rs slot data : In CRC_VALUE rs -> frame rs (crc_add slot data).
Proof.
  intros Hin s x Hx. cbn. apply upd_other. intros ->. contradiction.
Qed.

(** ** Running a bind *)

Lemma bind_read32 {A} r (k : Z -> M A) s :
  bind (read32 r) k s = k (regs s r) s.
Proof. reflexivity. Qed.

Lemma bind_eq {A B} (c : M A) (k : A -> M B) s :
  bind c k s = k (fst (c s)) (snd (c s)).
Proof. unfold bind. now destruct (c s). Qed.

Lemma bind_after {A B} (P : B * state -> Prop) (c : M A) (k : A -> M B) s :
  (forall a s1, P (k a s1)) -> P (bind c k s).
Proof. intros Hk. unfold bind. destruct (c s) as [a s1]. apply Hk. Qed.

Ltac in_list := cbn [In br_reg]; tauto.

Ltac frame_step :=
  first
    [ apply frame_ret
    | apply frame_read32
    | apply frame_read8
    | apply frame_read_crc_final
    | apply frame_write32; in_list
    | apply frame_write8; in_list
    | apply frame_crc_add; in_list
    | apply frame_bind; [|intros ?]
    | match goal with
      | |- frame _ (if ?b then _ else _) => destruct b
      | |- frame _ (let (_, _) := ?x in _) => destruct x
      | |- frame _ (match ?x with _ => _ end) => destruct x
      end ].

Ltac frame_all := repeat frame_step.

Section Frames.

Variable H : hw_h.
Variable indeterminate : Z.

Lemma frame_CheckCRC_loop rs r : In CRC_VALUE rs ->
  forall n i, frame rs (CheckCRC_loop r n i).
Proof.
  intros Hin. induction n as [|n IH]; intros i; cbn [CheckCRC_loop].
  - apply frame_ret.
  - apply frame_bind; [now apply frame_crc_add|intros _; apply IH].
Qed.

Lemma frame_CheckCRC r : frame [CRC_CFG; CRC_VALUE] (Sys_Trim_CheckCRC H r).
Proof.
  unfold Sys_Trim_CheckCRC. cbv zeta.
  apply frame_bind; [frame_all|intros _].
  apply frame_bind; [apply frame_CheckCRC_loop; in_list|intros _].
  frame_all.
Qed.

Lemma frame_VerifyTrims r :
  frame [CRC_CFG; CRC_VALUE] (Sys_Trim_VerifyTrims H (Some r)).
Proof.
  unfold Sys_Trim_VerifyTrims.
  apply frame_bind; [apply frame_CheckCRC|intros crc]. apply frame_ret.
Qed.

Lemma frame_weaken {A} rs rs' (c : M A) :
  (forall r, In r rs -> In r rs') -> frame rs c -> frame rs' c.
Proof. intros Hsub Hc s r Hr. apply Hc. intros Hin. apply Hr, Hsub, Hin. Qed.

(** The registers [Sys_Trim_LoadTrims] can change. *)
Definition trim_registers : list reg :=
  [ CRC_CFG; CRC_VALUE; ACS_BG_CTRL; ACS_VDDC_CTRL; ACS_VDDM_CTRL;
    ACS_VCC_CTRL; ACS_VDDRF_CTRL; ACS_VDDPA_CTRL; ACS_VDDIF_CTRL;
    ACS_VDDFLASH_CTRL; ACS_RCOSC_CTRL ].

Lemma frame_load_two rs table flag flag_standby vtrim standby_vtrim t ts :
  In (br_reg vtrim) rs -> In (br_reg standby_vtrim) rs ->
  frame rs (load_two H indeterminate table flag flag_standby vtrim
                     standby_vtrim t ts).
Proof.
  intros H1 H2. unfold load_two.
  destruct (GetTrim indeterminate (Some table) t (TRIM_RECORDS H) (Some 0)).
  destruct (GetTrim indeterminate (Some table) ts (TRIM_RECORDS H) (Some 0)).
  cbv zeta.
  apply frame_bind; [|intros _; apply frame_bind; [|intros _; apply frame_ret]].
  - destruct (is_zero _); [now apply frame_write8|apply frame_ret].
  - destruct (is_zero _); [now apply frame_write8|apply frame_ret].
Qed.

Lemma frame_load_byte rs table records dest t :
  In (br_reg dest) rs ->
  frame rs (load_byte indeterminate table records dest t).
Proof.
  intros Hd. unfold load_byte.
  destruct (GetTrim indeterminate (Some table) t records (Some 0)) as [e c].
  destruct (e =? ERROR_NO_ERROR).
  - apply frame_bind; [now apply frame_write8|intros _; apply frame_ret].
  - apply frame_ret.
Qed.

Lemma frame_LoadBandgap r tv ti :
  frame trim_registers (Sys_Trim_LoadBandgap_private H indeterminate (Some r) tv ti).
Proof.
  unfold Sys_Trim_LoadBandgap_private, trim_registers.
  destruct (GetTrim _ _ tv _ _). destruct (GetTrim _ _ ti _ _). cbv zeta.
  frame_all.
Qed.

Lemma frame_LoadVDDC r t ts :
  frame trim_registers (Sys_Trim_LoadVDDC_private H indeterminate (Some r) t ts).
Proof. apply frame_load_two; cbn; tauto. Qed.

Lemma frame_LoadVDDM r t ts :
  frame trim_registers (Sys_Trim_LoadVDDM_private H indeterminate (Some r) t ts).
Proof. apply frame_load_two; cbn; tauto. Qed.

Lemma frame_LoadDCDC r t :
  frame trim_registers (Sys_Trim_LoadDCDC_private H indeterminate (Some r) t).
Proof.
  unfold Sys_Trim_LoadDCDC_private, trim_registers.
  apply frame_bind; [apply frame_read32|intros vcc]. cbv zeta.
  destruct (GetTrim _ _ _ _ _). frame_all.
Qed.

Lemma frame_LoadVDDRF r t :
  frame trim_registers (Sys_Trim_LoadVDDRF_private H indeterminate (Some r) t).
Proof. apply frame_load_byte; cbn; tauto. Qed.

Lemma frame_LoadVDDPA r t :
  frame trim_registers (Sys_Trim_LoadVDDPA_private H indeterminate (Some r) t).
Proof.
  unfold Sys_Trim_LoadVDDPA_private, trim_registers.
  destruct (GetTrim _ _ _ _ _). cbv zeta. frame_all.
Qed.

Lemma frame_LoadVDDIF r t :
  frame trim_registers (Sys_Trim_LoadVDDIF H indeterminate (Some r) t).
Proof.
  unfold Sys_Trim_LoadVDDIF. destruct (RSL15_CID_defined H); [apply frame_ret|].
  apply frame_load_byte; cbn; tauto.
Qed.

Lemma frame_LoadVDDFLASH r t :
  frame trim_registers (Sys_Trim_LoadVDDFLASH_private H indeterminate (Some r) t).
Proof. apply frame_load_byte; cbn; tauto. Qed.

Lemma frame_LoadRCOSC r t :
  frame trim_registers (Sys_Trim_LoadRCOSC_private H indeterminate (Some r) t).
Proof. apply frame_load_byte; cbn; tauto. Qed.

Lemma frame_LoadRCOSC32 r t :
  frame trim_registers (Sys_Trim_LoadRCOSC32_private H indeterminate (Some r) t).
Proof.
  unfold Sys_Trim_LoadRCOSC32_private, trim_registers.
  apply frame_bind; [apply frame_read32|intros rc]. cbv zeta.
  destruct (GetTrim _ _ _ _ _). frame_all.
Qed.

Lemma frame_LoadTrims r targets_1 targets_2 :
  frame trim_registers
        (Sys_Trim_LoadTrims H indeterminate (Some r) targets_1 targets_2).
Proof.
  unfold Sys_Trim_LoadTrims.
  apply frame_bind.
  { apply (frame_weaken [CRC_CFG; CRC_VALUE]); [|apply frame_VerifyTrims].
    unfold trim_registers. cbn [In]. tauto. }
  intros v. apply frame_bind.
  { cbn [load_loop_2 load_trim_functions_2_args].
    apply frame_bind; [apply frame_LoadBandgap|intros ?].
    apply frame_bind; [apply frame_LoadVDDC|intros ?].
    apply frame_bind; [apply frame_LoadVDDM|intros ?].
    apply frame_ret. }
  intros v2. cbn [load_loop_1 load_trim_functions_1_arg].
  apply frame_bind; [apply frame_LoadDCDC|intros ?].
  apply frame_bind; [apply frame_LoadVDDRF|intros ?].
  apply frame_bind; [apply frame_LoadVDDPA|intros ?].
  apply frame_bind; [apply frame_LoadVDDIF|intros ?].
  apply frame_bind; [apply frame_LoadVDDFLASH|intros ?].
  apply frame_bind; [apply frame_LoadRCOSC|intros ?].
  apply frame_bind; [apply frame_LoadRCOSC32|intros ?].
  apply frame_ret.
Qed.

End Frames.

(** ** Error flags *)

(** Every bit of [y] is a bit of [x]. *)
Definition includes (x y : Z) : Prop := Z.land x y = y.

Lemma includes_lor_l a b : includes (Z.lor a b) a.
Proof.
  apply Z.bits_inj'. intros n _. rewrite Z.land_spec, Z.lor_spec.
  now destruct (Z.testbit a n), (Z.testbit b n).
Qed.

Lemma includes_lor_r a b : includes (Z.lor a b) b.
Proof.
  apply Z.bits_inj'. intros n _. rewrite Z.land_spec, Z.lor_spec.
  now destruct (Z.testbit a n), (Z.testbit b n).
Qed.

Lemma includes_trans x y z : includes x y -> includes y z -> includes x z.
Proof.
  unfold includes. intros Hxy Hyz. apply Z.bits_inj'. intros n _.
  apply (f_equal (fun v => Z.testbit v n)) in Hxy, Hyz.
  rewrite Z.land_spec in *.
  destruct (Z.testbit x n), (Z.testbit y n), (Z.testbit z n);
    cbn in *; congruence.
Qed.

Lemma load_loop_2_includes tr t : forall fs i acc s,
  includes (fst (load_loop_2 fs i tr t acc s)) acc.
Proof.
  induction fs as [|f fs IH]; intros i acc s; cbn [load_loop_2].
  - apply Z.land_diag.
  - unfold bind. destruct (f tr (fst (t i)) (snd (t i)) s) as [e s1].
    eapply includes_trans; [apply IH|apply includes_lor_l].
Qed.

Lemma load_loop_1_includes tr t : forall fs i acc s,
  includes (fst (load_loop_1 fs i tr t acc s)) acc.
Proof.
  induction fs as [|f fs IH]; intros i acc s; cbn [load_loop_1].
  - apply Z.land_diag.
  - unfold bind. destruct (f tr (t i) s) as [e s1].
    eapply includes_trans; [apply IH|apply includes_lor_l].
Qed.

Lemma load_loop_1_includes_constant tr t f c :
  (forall target s, fst (f tr target s) = c) ->
  forall fs i acc s, In f fs ->
  includes (fst (load_loop_1 fs i tr t acc s)) c.
Proof.
  intros Hf. induction fs as [|g fs IH]; intros i acc s Hin; [contradiction|].
  cbn [load_loop_1]. unfold bind.
  destruct Hin as [->|Hin].
  - pose proof (Hf (t i) s) as He.
    destruct (f tr (t i) s) as [e s1]. cbn [fst] in He. subst e.
    eapply includes_trans; [apply load_loop_1_includes|apply includes_lor_r].
  - destruct (g tr (t i) s) as [e s1]. now apply IH.
Qed.

(** X3.  [Sys_Trim_VerifyTrims] changes no register but the configuration
    and the value register of the CRC unit: verifying a region loads
    nothing. *)
Theorem VerifyTrims_changes_CRC_unit_only (H : hw_h) (r : TRIM_Type)
    (s : state) (x : reg) :
  x <> CRC_CFG -> x <> CRC_VALUE ->
  regs (snd (Sys_Trim_VerifyTrims H (Some r) s)) x = regs s x.
Proof.
  intros H1 H2. apply (frame_VerifyTrims H r s x). cbn [In].
  intuition congruence.
Qed.

Lemma VerifyTrims_changes_CRC_unit_only_witness :
  regs (snd (Sys_Trim_VerifyTrims (sample_hw true) (Some uniform_region)
                                  trimmed_state)) ACS_VDDC_CTRL
    = regs trimmed_state ACS_VDDC_CTRL.
Proof.
  apply (VerifyTrims_changes_CRC_unit_only (sample_hw true) uniform_region
           trimmed_state ACS_VDDC_CTRL); discriminate.
Defined.

(** X4.  [Sys_Trim_LoadTrims] changes no register outside the CRC unit and
    the nine trim registers of the loaders it calls (the bandgap, VDDC,
    VDDM, VCC, VDDRF, VDDPA, VDDIF, VDDFLASH and RCOSC control registers). *)
Theorem LoadTrims_changes_trim_registers_only (H : hw_h) (indeterminate : Z)
    (r : TRIM_Type) (targets_1 : nat -> Z) (targets_2 : nat -> Z * Z)
    (s : state) (x : reg) :
  ~ In x trim_registers ->
  regs (snd (Sys_Trim_LoadTrims H indeterminate (Some r) targets_1 targets_2 s))
       x
    = regs s x.
Proof. apply frame_LoadTrims. Qed.

(** The targets of [trim_args1] and [trim_args2]. *)
Definition trim_args1 : nat -> Z :=
  fun i => nth i [120; 110; 160; 180; 160; 3000; 32768] 0.
Definition trim_args2 : nat -> Z * Z :=
  fun i => nth i [(75, 100); (115, 80); (115, 80)] (0, 0).

Lemma LoadTrims_changes_trim_registers_only_witness :
  regs (snd (Sys_Trim_LoadTrims (sample_hw true) 0 (Some uniform_region)
                                trim_args1 trim_args2 reset_state))
       ACS_TEMP_CURR_CFG
    = regs reset_state ACS_TEMP_CURR_CFG.
Proof.
  apply (LoadTrims_changes_trim_registers_only (sample_hw true) 0
           uniform_region trim_args1 trim_args2 reset_state ACS_TEMP_CURR_CFG).
  unfold trim_registers. cbn [In]. intuition discriminate.
Defined.

(** X5.  The result of [Sys_Trim_LoadTrims] carries every flag that
    [Sys_Trim_VerifyTrims] raises for the region: the loaders run whatever
    the verification found, and none of them clears a flag. *)
Theorem LoadTrims_keeps_VerifyTrims_flags (H : hw_h) (indeterminate : Z)
    (r : TRIM_Type) (targets_1 : nat -> Z) (targets_2 : nat -> Z * Z)
    (s : state) :
  Z.land (fst (Sys_Trim_LoadTrims H indeterminate (Some r) targets_1
                                  targets_2 s))
         (fst (Sys_Trim_VerifyTrims H (Some r) s))
    = fst (Sys_Trim_VerifyTrims H (Some r) s).
Proof.
  unfold Sys_Trim_LoadTrims. unfold bind at 1.
  destruct (Sys_Trim_VerifyTrims H (Some r) s) as [v s1]. cbn [fst].
  unfold bind.
  pose proof (load_loop_2_includes (Some r) targets_2
                (load_trim_functions_2_args H indeterminate) 0%nat v s1) as H2.
  destruct (load_loop_2 (load_trim_functions_2_args H indeterminate) 0
                        (Some r) targets_2 v s1) as [v2 s2].
  cbn [fst] in H2.
  eapply includes_trans; [apply load_loop_1_includes|exact H2].
Qed.

(** X6.  In a build that defines RSL15_CID, [Sys_Trim_LoadTrims] never
    returns [ERROR_NO_ERROR] for a non-null region: the VDDIF entry of its
    loader table is the inline function of trim.h, whose
    [ERROR_NO_TRIM_FOUND] is or-ed into every result. *)
Theorem LoadTrims_RSL15_reports_NO_TRIM_FOUND (H : hw_h) (indeterminate : Z)
    (r : TRIM_Type) (targets_1 : nat -> Z) (targets_2 : nat -> Z * Z)
    (s : state) :
  RSL15_CID_defined H = true ->
  Z.land (fst (Sys_Trim_LoadTrims H indeterminate (Some r) targets_1
                                  targets_2 s))
         ERROR_NO_TRIM_FOUND
    = ERROR_NO_TRIM_FOUND
  /\ fst (Sys_Trim_LoadTrims H indeterminate (Some r) targets_1 targets_2 s)
     <> ERROR_NO_ERROR.
Proof.
  intros Hcid.
  assert (Hinc : includes
            (fst (Sys_Trim_LoadTrims H indeterminate (Some r) targets_1
                                     targets_2 s)) ERROR_NO_TRIM_FOUND).
  { unfold Sys_Trim_LoadTrims, bind.
    destruct (Sys_Trim_VerifyTrims H (Some r) s) as [v s1].
    destruct (load_loop_2 _ _ _ _ _ _) as [v2 s2].
    apply (load_loop_1_includes_constant (Some r) targets_1
             (Sys_Trim_LoadVDDIF H indeterminate)).
    - intros target s'. unfold Sys_Trim_LoadVDDIF. now rewrite Hcid.
    - unfold load_trim_functions_1_arg. cbn [In]. tauto. }
  split; [exact Hinc|].
  intros E. unfold includes in Hinc. rewrite E in Hinc. discriminate Hinc.
Qed.

Lemma LoadTrims_RSL15_reports_NO_TRIM_FOUND_witness :
  fst (Sys_Trim_LoadTrims (sample_hw true) 0 (Some uniform_region)
                          trim_args1 trim_args2 reset_state)
    <> ERROR_NO_ERROR.
Proof.
  apply (LoadTrims_RSL15_reports_NO_TRIM_FOUND (sample_hw true) 0
           uniform_region trim_args1 trim_args2 reset_state).
  reflexivity.
Defined.


(** ** A lookup that misses *)

Lemma GetTrim_miss indeterminate table t n :
  (0 < n)%nat ->
  fst (GetTrim indeterminate (Some table) t n (Some 0)) <> ERROR_NO_ERROR ->
  GetTrim indeterminate (Some table) t n (Some 0)
    = (ERROR_NO_TRIM_FOUND, Some 0xFFFF).
Proof.
  intros Hn Hmiss. unfold GetTrim in *.
  destruct (Lookup.GetTrim_cases indeterminate table t n 0 Hn)
    as [(v & E & _)|E]; rewrite E in *; [now cbn in Hmiss|reflexivity].
Qed.

Lemma load_byte_miss indeterminate table n dest t s :
  (0 < n)%nat ->
  fst (GetTrim indeterminate (Some table) t n (Some 0)) <> ERROR_NO_ERROR ->
  load_byte indeterminate table n dest t s = (ERROR_NO_TRIM_FOUND, s).
Proof.
  intros Hn Hmiss. unfold load_byte.
  now rewrite (GetTrim_miss indeterminate table t n Hn Hmiss).
Qed.

(** The lookup of [target] in the table of [records] records at
    [member_offset] of the region runs and fails. *)
Definition misses (indeterminate : Z) (r : TRIM_Type)
    (member_offset records : nat) (target : Z) : Prop :=
  (0 < records)%nat
  /\ fst (GetTrim indeterminate (Some (member r member_offset)) target
                  records (Some 0)) <> ERROR_NO_ERROR.

Section Misses.

Variable H : hw_h.
Variable indeterminate : Z.
Variable r : TRIM_Type.
Variable t : Z.
Variable s : state.

Lemma LoadDCDC_miss :
  misses indeterminate r (o_dcdc H) (TRIM_RECORDS H) t ->
  Sys_Trim_LoadDCDC H indeterminate (Some r) t s
    = (Z.lor ERROR_NO_TRIM_FOUND ERROR_DCDC_INVALID, s).
Proof.
  intros [Hn Hmiss].
  unfold Sys_Trim_LoadDCDC, Sys_Trim_LoadDCDC_private, bind, read32.
  now rewrite (GetTrim_miss _ _ _ _ Hn Hmiss).
Qed.

Lemma LoadVDDPA_miss :
  misses indeterminate r (o_vddpa H) (TRIM_RECORDS H) t ->
  Sys_Trim_LoadVDDPA H indeterminate (Some r) t s
    = (Z.lor ERROR_VDDPA_INVALID ERROR_NO_TRIM_FOUND, s).
Proof.
  intros [Hn Hmiss]. unfold Sys_Trim_LoadVDDPA, Sys_Trim_LoadVDDPA_private.
  now rewrite (GetTrim_miss _ _ _ _ Hn Hmiss).
Qed.

Lemma LoadVDDRF_miss :
  misses indeterminate r (o_vddrf H) (TRIM_RECORDS H) t ->
  Sys_Trim_LoadVDDRF H indeterminate (Some r) t s = (ERROR_NO_TRIM_FOUND, s).
Proof. intros [Hn Hmiss]. now apply load_byte_miss. Qed.

Lemma LoadVDDFLASH_miss :
  misses indeterminate r (o_vddflash H) (TRIM_RECORDS H) t ->
  Sys_Trim_LoadVDDFLASH H indeterminate (Some r) t s
    = (ERROR_NO_TRIM_FOUND, s).
Proof. intros [Hn Hmiss]. now apply load_byte_miss. Qed.

Lemma LoadRCOSC32_miss :
  misses indeterminate r (o_rcosc32 H) (TRIM_RECORDS H) t ->
  Sys_Trim_LoadRCOSC32 H indeterminate (Some r) t s
    = (ERROR_NO_TRIM_FOUND, s).
Proof.
  intros [Hn Hmiss].
  unfold Sys_Trim_LoadRCOSC32, Sys_Trim_LoadRCOSC32_private, bind, read32.
  now rewrite (GetTrim_miss _ _ _ _ Hn Hmiss).
Qed.

Lemma LoadRCOSC_miss :
  misses indeterminate r (o_rcosc H) (TRIM_RC_RECORDS H * 4) t ->
  Sys_Trim_LoadRCOSC H indeterminate (Some r) t s = (ERROR_NO_TRIM_FOUND, s).
Proof. intros [Hn Hmiss]. now apply load_byte_miss. Qed.

Lemma LoadThermistor_miss :
  misses indeterminate r (o_thermistor H) (TRIM_THERMISTOR_RECORDS H)
         (uint16_t t) ->
  Sys_Trim_LoadThermistor H indeterminate (Some r) t s
    = (ERROR_NO_TRIM_FOUND, s).
Proof.
  intros [Hn Hmiss].
  unfold Sys_Trim_LoadThermistor, Sys_Trim_LoadThermistor_private, bind,
    read32.
  now rewrite (GetTrim_miss _ _ _ _ Hn Hmiss).
Qed.

End Misses.

(** X7.  A single-target loader whose lookup misses writes nothing: the
    state after the call is the state before it.  [Sys_Trim_LoadDCDC] then
    returns [ERROR_NO_TRIM_FOUND | ERROR_DCDC_INVALID] and
    [Sys_Trim_LoadVDDPA] returns [ERROR_VDDPA_INVALID |
    ERROR_NO_TRIM_FOUND], whereas [Sys_Trim_LoadVDDRF],
    [Sys_Trim_LoadVDDFLASH], [Sys_Trim_LoadRCOSC32], [Sys_Trim_LoadRCOSC]
    and [Sys_Trim_LoadThermistor] return the bare [ERROR_NO_TRIM_FOUND],
    without a flag of their domain. *)
Theorem loader_miss_writes_nothing (H : hw_h) (indeterminate : Z)
    (r : TRIM_Type) (t : Z) (s : state) :
  (misses indeterminate r (o_dcdc H) (TRIM_RECORDS H) t ->
     Sys_Trim_LoadDCDC H indeterminate (Some r) t s
       = (Z.lor ERROR_NO_TRIM_FOUND ERROR_DCDC_INVALID, s))
  /\ (misses indeterminate r (o_vddpa H) (TRIM_RECORDS H) t ->
     Sys_Trim_LoadVDDPA H indeterminate (Some r) t s
       = (Z.lor ERROR_VDDPA_INVALID ERROR_NO_TRIM_FOUND, s))
  /\ (misses indeterminate r (o_vddrf H) (TRIM_RECORDS H) t ->
     Sys_Trim_LoadVDDRF H indeterminate (Some r) t s
       = (ERROR_NO_TRIM_FOUND, s))
  /\ (misses indeterminate r (o_vddflash H) (TRIM_RECORDS H) t ->
     Sys_Trim_LoadVDDFLASH H indeterminate (Some r) t s
       = (ERROR_NO_TRIM_FOUND, s))
  /\ (misses indeterminate r (o_rcosc32 H) (TRIM_RECORDS H) t ->
     Sys_Trim_LoadRCOSC32 H indeterminate (Some r) t s
       = (ERROR_NO_TRIM_FOUND, s))
  /\ (misses indeterminate r (o_rcosc H) (TRIM_RC_RECORDS H * 4) t ->
     Sys_Trim_LoadRCOSC H indeterminate (Some r) t s
       = (ERROR_NO_TRIM_FOUND, s))
  /\ (misses indeterminate r (o_thermistor H) (TRIM_THERMISTOR_RECORDS H)
             (uint16_t t) ->
     Sys_Trim_LoadThermistor H indeterminate (Some r) t s
       = (ERROR_NO_TRIM_FOUND, s)).
Proof.
  repeat split.
  - apply LoadDCDC_miss.
  - apply LoadVDDPA_miss.
  - apply LoadVDDRF_miss.
  - apply LoadVDDFLASH_miss.
  - apply LoadRCOSC32_miss.
  - apply LoadRCOSC_miss.
  - apply LoadThermistor_miss.
Qed.

Lemma loader_miss_writes_nothing_witness :
  Sys_Trim_LoadVDDRF (sample_hw true) 0 (Some uniform_region) 80 trimmed_state
    = (ERROR_NO_TRIM_FOUND, trimmed_state).
Proof.
  destruct (loader_miss_writes_nothing (sample_hw true) 0 uniform_region 80
              trimmed_state) as (_ & _ & Hrf & _).
  apply Hrf. split; [cbn; lia|vm_compute; discriminate].
Defined.


(** ** The bandgap register *)

Lemma testbit_field j k n :
  0 <= j -> 0 <= k ->
  Z.testbit (Z.shiftl (Z.ones k) j) n = (j <=? n) && (n <? j + k).
Proof.
  intros Hj Hk.
  destruct (Z.leb_spec j n) as [Hjn|Hjn]; cbn [andb].
  - rewrite Z.shiftl_spec by lia.
    destruct (Z.ltb_spec n (j + k)).
    + apply Z.ones_spec_low. lia.
    + apply Z.ones_spec_high. lia.
  - destruct (Z.leb_spec 0 n).
    + rewrite Z.shiftl_spec by lia. apply Z.testbit_neg_r. lia.
    + apply Z.testbit_neg_r. lia.
Qed.

Lemma testbit_uint32_t x n :
  Z.testbit (uint32_t x) n = (n <? 32) && Z.testbit x n.
Proof.
  unfold uint32_t. destruct (Z.ltb_spec n 32); cbn [andb].
  - destruct (Z.leb_spec 0 n).
    + apply Z.mod_pow2_bits_low. lia.
    + now rewrite !Z.testbit_neg_r by lia.
  - apply Z.mod_pow2_bits_high. lia.
Qed.

Ltac mask_bits :=
  change 0xFFFF0000 with (Z.shiftl (Z.ones 16) 16);
  change 0x0000FFFF with (Z.shiftl (Z.ones 16) 0);
  change 0xFF000000 with (Z.shiftl (Z.ones 8) 24);
  change 0x00FF0000 with (Z.shiftl (Z.ones 8) 16);
  change 0x0000FF00 with (Z.shiftl (Z.ones 8) 8);
  change 0x000000FF with (Z.shiftl (Z.ones 8) 0);
  apply Z.bits_inj'; intros n Hn;
  repeat first [ rewrite Z.land_spec | rewrite Z.lor_spec
               | rewrite testbit_uint32_t
               | rewrite testbit_field by lia ];
  repeat match goal with
         | |- context [?a <=? ?b] => destruct (Z.leb_spec a b)
         | |- context [?a <? ?b] => destruct (Z.ltb_spec a b)
         end;
  try lia; cbn [andb orb];
  rewrite ?andb_false_r, ?andb_true_r, ?orb_false_r, ?orb_false_l;
  try reflexivity.

Ltac finish_bits :=
  repeat match goal with
         | |- context [Z.testbit ?x ?n] => destruct (Z.testbit x n)
         end;
  reflexivity.

(** What [Sys_Trim_LoadBandgap] makes of a voltage trim and of a current
    trim: the lower and the upper half of ACS->BG_CTRL.  With a 16-bit
    CHECKSUM ([legacy]) the record is in the older format, two separate
    bytes per half. *)
Definition voltage_half (legacy : bool) (trim_voltage : Z) : Z :=
  if legacy
  then Z.lor (Z.land trim_voltage 0x0000FF00)
             (Z.land (Z.shiftr trim_voltage 2) 0x000000FF)
  else Z.land trim_voltage 0x0000FFFF.

Definition current_half (legacy : bool) (pos trim_current : Z) : Z :=
  if legacy
  then Z.lor (Z.land (Z.shiftl trim_current pos) 0xFF000000)
             (Z.land (Z.shiftl trim_current (pos - 2)) 0x00FF0000)
  else Z.land (Z.shiftl trim_current pos) 0xFFFF0000.

Lemma upper_of_voltage_store legacy bg v :
  Z.land (uint32_t (Z.lor (Z.land bg 0xFFFF0000) (voltage_half legacy v)))
         0xFFFF0000
  = Z.land (uint32_t bg) 0xFFFF0000.
Proof. unfold voltage_half. destruct legacy; mask_bits; finish_bits. Qed.

Lemma lower_of_voltage_store legacy hi v :
  Z.land (uint32_t (Z.lor (Z.land hi 0xFFFF0000) (voltage_half legacy v)))
         0x0000FFFF
  = voltage_half legacy v.
Proof. unfold voltage_half. destruct legacy; mask_bits; finish_bits. Qed.

Lemma lower_of_current_store legacy pos bg c :
  Z.land (uint32_t (Z.lor (Z.land bg 0x0000FFFF) (current_half legacy pos c)))
         0x0000FFFF
  = Z.land bg 0x0000FFFF.
Proof. unfold current_half. destruct legacy; mask_bits; finish_bits. Qed.

Lemma upper_of_current_store legacy pos lo c :
  Z.land (uint32_t (Z.lor (Z.land lo 0x0000FFFF) (current_half legacy pos c)))
         0xFFFF0000
  = current_half legacy pos c.
Proof. unfold current_half. destruct legacy; mask_bits; finish_bits. Qed.

Lemma lower_of_full_store legacy pos c v :
  Z.land (uint32_t (Z.lor (current_half legacy pos c) (voltage_half legacy v)))
         0x0000FFFF
  = voltage_half legacy v.
Proof.
  unfold current_half, voltage_half. destruct legacy; mask_bits; finish_bits.
Qed.

Lemma upper_of_full_store legacy pos c v :
  Z.land (uint32_t (Z.lor (current_half legacy pos c) (voltage_half legacy v)))
         0xFFFF0000
  = current_half legacy pos c.
Proof.
  unfold current_half, voltage_half. destruct legacy; mask_bits; finish_bits.
Qed.

(** The stores of [Sys_Trim_LoadBandgap_private], by what was found. *)
Definition bandgap_value (legacy : bool) (pos bg : Z) (found_v found_i : option Z)
    : option Z :=
  match found_v, found_i with
  | Some v, Some c => Some (Z.lor (current_half legacy pos c)
                                  (voltage_half legacy v))
  | Some v, None => Some (Z.lor (Z.land bg 0xFFFF0000) (voltage_half legacy v))
  | None, Some c => Some (Z.lor (Z.land bg 0x0000FFFF)
                                (current_half legacy pos c))
  | None, None => None
  end.

Lemma LoadBandgap_stores H indeterminate r target_v target_i s :
  let voltage :=
    GetTrim indeterminate (Some (member r (o_bandgap H))) target_v
            (TRIM_RECORDS H) (Some 0) in
  let current :=
    GetTrim indeterminate
            (Some (member r (o_bandgap H + TRIM_BANDGAP_CURRENT_OFFSET H)))
            target_i (TRIM_RECORDS H) (Some 0) in
  let legacy := word_at r (o_CHECKSUM H) <=? MAX_16_BIT in
  let found := fun (x : Z * option Z) =>
    if fst x =? ERROR_NO_ERROR then Some (cell (snd x)) else None in
  Sys_Trim_LoadBandgap H indeterminate (Some r) target_v target_i s
  = (Z.lor (if fst voltage =? ERROR_NO_ERROR then 0 else ERROR_BG_V_INVALID)
           (if fst current =? ERROR_NO_ERROR then 0 else ERROR_BG_I_INVALID),
     match bandgap_value legacy (ACS_BG_CTRL_ITRIM_Pos H) (regs s ACS_BG_CTRL)
                         (found voltage) (found current) with
     | Some w => snd (write32 ACS_BG_CTRL w s)
     | None => s
     end).
Proof.
  cbv zeta.
  unfold Sys_Trim_LoadBandgap, Sys_Trim_LoadBandgap_private.
  destruct (GetTrim indeterminate (Some (member r (o_bandgap H))) target_v
                    (TRIM_RECORDS H) (Some 0)) as [ev cv].
  destruct (GetTrim indeterminate
              (Some (member r (o_bandgap H + TRIM_BANDGAP_CURRENT_OFFSET H)))
              target_i (TRIM_RECORDS H) (Some 0)) as [ei ci].
  cbn [fst snd]. unfold flag_on_error, ERROR_NO_ERROR.
  destruct (Z.eqb_spec ev 0) as [->|Hv]; destruct (Z.eqb_spec ei 0) as [->|Hi];
    cbn [negb Z.eqb bandgap_value].
  - change (Z.lor 0 0 =? 0) with true. cbv iota.
    unfold current_half, voltage_half, bind, ret, write32.
    destruct (word_at r (o_CHECKSUM H) <=? MAX_16_BIT); cbn [fst snd];
      rewrite ?Z.lor_assoc; reflexivity.
  - change (Z.lor 0 ERROR_BG_I_INVALID =? 0) with false.
    change (is_zero (Z.land (Z.lor 0 ERROR_BG_I_INVALID) ERROR_BG_I_INVALID))
      with false.
    change (is_zero (Z.land (Z.lor 0 ERROR_BG_I_INVALID) ERROR_BG_V_INVALID))
      with true.
    cbv iota. unfold voltage_half, bind, read32, ret, write32.
    destruct (word_at r (o_CHECKSUM H) <=? MAX_16_BIT); cbn [fst snd];
      rewrite ?Z.lor_assoc; reflexivity.
  - change (Z.lor ERROR_BG_V_INVALID 0 =? 0) with false.
    change (is_zero (Z.land (Z.lor ERROR_BG_V_INVALID 0) ERROR_BG_I_INVALID))
      with true.
    cbv iota. unfold current_half, bind, read32, ret, write32.
    destruct (word_at r (o_CHECKSUM H) <=? MAX_16_BIT); cbn [fst snd];
      rewrite ?Z.lor_assoc; reflexivity.
  - change (Z.lor ERROR_BG_V_INVALID ERROR_BG_I_INVALID =? 0) with false.
    change (is_zero (Z.land (Z.lor ERROR_BG_V_INVALID ERROR_BG_I_INVALID)
                            ERROR_BG_I_INVALID)) with false.
    change (is_zero (Z.land (Z.lor ERROR_BG_V_INVALID ERROR_BG_I_INVALID)
                            ERROR_BG_V_INVALID)) with false.
    reflexivity.
Qed.

(** X8.  [Sys_Trim_LoadBandgap] loads what it finds, each trim into its
    half of ACS->BG_CTRL, and touches no other register.  When both
    lookups miss it writes nothing and returns [ERROR_BG_V_INVALID |
    ERROR_BG_I_INVALID].  When only the voltage trim [v] is found it
    returns exactly [ERROR_BG_I_INVALID], the lower half of the register
    becomes the voltage trim and the upper half (the current trim) is as
    before; when only the current trim [c] is found it returns exactly
    [ERROR_BG_V_INVALID], the upper half becomes the current trim and the
    lower half is as before; when both are found it returns
    [ERROR_NO_ERROR] and both halves are loaded. *)
Theorem LoadBandgap_partial (H : hw_h) (indeterminate : Z) (r : TRIM_Type)
    (target_v target_i : Z) (s : state) :
  let voltage :=
    GetTrim indeterminate (Some (member r (o_bandgap H))) target_v
            (TRIM_RECORDS H) (Some 0) in
  let current :=
    GetTrim indeterminate
            (Some (member r (o_bandgap H + TRIM_BANDGAP_CURRENT_OFFSET H)))
            target_i (TRIM_RECORDS H) (Some 0) in
  let legacy := word_at r (o_CHECKSUM H) <=? MAX_16_BIT in
  let result :=
    Sys_Trim_LoadBandgap H indeterminate (Some r) target_v target_i s in
  let lower := fun st => Z.land (regs st ACS_BG_CTRL) 0x0000FFFF in
  let upper := fun st => Z.land (regs st ACS_BG_CTRL) 0xFFFF0000 in
  (forall x, x <> ACS_BG_CTRL -> regs (snd result) x = regs s x)
  /\ (fst voltage <> ERROR_NO_ERROR -> fst current <> ERROR_NO_ERROR ->
     result = (Z.lor ERROR_BG_V_INVALID ERROR_BG_I_INVALID, s))
  /\ (forall v, voltage = (ERROR_NO_ERROR, Some v) ->
     fst current <> ERROR_NO_ERROR ->
     fst result = ERROR_BG_I_INVALID
     /\ lower (snd result) = voltage_half legacy v
     /\ upper (snd result) = Z.land (uint32_t (regs s ACS_BG_CTRL)) 0xFFFF0000)
  /\ (forall c, fst voltage <> ERROR_NO_ERROR ->
     current = (ERROR_NO_ERROR, Some c) ->
     fst result = ERROR_BG_V_INVALID
     /\ upper (snd result) = current_half legacy (ACS_BG_CTRL_ITRIM_Pos H) c
     /\ lower (snd result) = Z.land (regs s ACS_BG_CTRL) 0x0000FFFF)
  /\ (forall v c, voltage = (ERROR_NO_ERROR, Some v) ->
     current = (ERROR_NO_ERROR, Some c) ->
     fst result = ERROR_NO_ERROR
     /\ lower (snd result) = voltage_half legacy v
     /\ upper (snd result) = current_half legacy (ACS_BG_CTRL_ITRIM_Pos H) c).
Proof.
  cbv zeta. rewrite LoadBandgap_stores.
  destruct (GetTrim indeterminate (Some (member r (o_bandgap H))) target_v
                    (TRIM_RECORDS H) (Some 0)) as [ev cv].
  destruct (GetTrim indeterminate
              (Some (member r (o_bandgap H + TRIM_BANDGAP_CURRENT_OFFSET H)))
              target_i (TRIM_RECORDS H) (Some 0)) as [ei ci].
  cbn [fst snd]. unfold ERROR_NO_ERROR.
  split; [|split; [|split; [|split]]].
  - intros x Hx.
    destruct (bandgap_value _ _ _ _ _); [|reflexivity].
    cbn [write32 snd regs]. now apply upd_other.
  - intros Hv Hi. apply Z.eqb_neq in Hv, Hi. rewrite Hv, Hi. reflexivity.
  - intros v Ev Hi. injection Ev as -> ->. apply Z.eqb_neq in Hi. rewrite Hi.
    cbn [Z.eqb cell bandgap_value write32 snd regs].
    rewrite upd_same. split; [reflexivity|]. split.
    + apply lower_of_voltage_store.
    + apply upper_of_voltage_store.
  - intros c Hv Ec. injection Ec as -> ->. apply Z.eqb_neq in Hv. rewrite Hv.
    cbn [Z.eqb cell bandgap_value write32 snd regs].
    rewrite upd_same. split; [reflexivity|]. split.
    + apply upper_of_current_store.
    + apply lower_of_current_store.
  - intros v c Ev Ec. injection Ev as -> ->. injection Ec as -> ->.
    cbn [Z.eqb cell bandgap_value write32 snd regs].
    rewrite upd_same. split; [reflexivity|]. split.
    + apply lower_of_full_store.
    + apply upper_of_full_store.
Qed.

(** The bandgap table of a region: a record for 750 mV with the trim
    0x0A12, then erased words, and no record for the current. *)
Definition voltage_only_region : TRIM_Type := region_of [0x004B0A12].

Lemma LoadBandgap_partial_witness :
  fst (Sys_Trim_LoadBandgap (sample_hw true) 0 (Some voltage_only_region)
                            75 100 trimmed_state) = ERROR_BG_I_INVALID
  /\ Z.land (regs (snd (Sys_Trim_LoadBandgap (sample_hw true) 0
                          (Some voltage_only_region) 75 100 trimmed_state))
                  ACS_BG_CTRL) 0x0000FFFF
     = 0x0A12.
Proof.
  destruct (LoadBandgap_partial (sample_hw true) 0 voltage_only_region 75 100
              trimmed_state) as (_ & _ & Hv & _).
  destruct (Hv 0x0A12) as (Hres & Hlow & _);
    [reflexivity|vm_compute; discriminate|].
  split; [exact Hres|]. rewrite Hlow. reflexivity.
Defined.

(** ** A lookup that hits *)

(** The lookup of [target] in the table of [records] records at
    [member_offset] of the region finds the value [v]. *)
Definition finds (indeterminate : Z) (r : TRIM_Type)
    (member_offset records : nat) (target v : Z) : Prop :=
  GetTrim indeterminate (Some (member r member_offset)) target records
          (Some 0) = (ERROR_NO_ERROR, Some v).

(** From [s] to [s'] the byte [dest] has become the low byte of [v], and
    nothing else has changed: neither the other bytes of its register nor
    any other register. *)
Definition stored_in (dest : bytereg) (v : Z) (s s' : state) : Prop :=
  get_lane (regs s' (br_reg dest)) (br_lane dest) = Z.land v 0xFF
  /\ (forall l, 0 <= l < 4 -> l <> br_lane dest ->
        get_lane (regs s' (br_reg dest)) l = get_lane (regs s (br_reg dest)) l)
  /\ (forall x, x <> br_reg dest -> regs s' x = regs s x).

Lemma land_FF_idem v : Z.land (uint8_t (Z.land v 0xFF)) 0xFF = Z.land v 0xFF.
Proof.
  unfold uint8_t. change 0xFF with (Z.ones 8). rewrite !Z.land_ones by lia.
  now rewrite !Z.mod_mod by lia.
Qed.

Lemma load_byte_hit indeterminate table n dest t v s :
  0 <= br_lane dest < 4 ->
  GetTrim indeterminate (Some table) t n (Some 0) = (ERROR_NO_ERROR, Some v) ->
  fst (load_byte indeterminate table n dest t s) = ERROR_NO_ERROR
  /\ stored_in dest v s (snd (load_byte indeterminate table n dest t s)).
Proof.
  intros Hlane Hfind. unfold load_byte. rewrite Hfind.
  change (ERROR_NO_ERROR =? ERROR_NO_ERROR) with true. cbv iota.
  unfold TRIM_8_BIT_TRIM_MASK.
  cbn [cell bind write8 ret fst snd regs].
  split; [reflexivity|]. unfold stored_in. split; [|split].
  - cbn [regs]. rewrite upd_same, get_set_lane_same by assumption.
    apply land_FF_idem.
  - intros l Hl Hne. cbn [regs]. rewrite upd_same.
    now apply get_set_lane_other.
  - intros x Hx. cbn [regs]. now apply upd_other.
Qed.

(** X23.  A lookup that hits is loaded and nothing else is touched: when
    the table of the region holds the value [v] for the target,
    [Sys_Trim_LoadVDDRF], [Sys_Trim_LoadVDDFLASH] and [Sys_Trim_LoadRCOSC]
    return [ERROR_NO_ERROR], the trim byte of the domain then reads back
    the low byte of [v], and the other bytes of its register and all
    other registers are as before. *)
Theorem loader_hit_stores_trim (H : hw_h) (indeterminate : Z)
    (r : TRIM_Type) (t v : Z) (s : state) :
  (0 <= VDDRF_VTRIM_lane H < 4 ->
   finds indeterminate r (o_vddrf H) (TRIM_RECORDS H) t v ->
   fst (Sys_Trim_LoadVDDRF H indeterminate (Some r) t s) = ERROR_NO_ERROR
   /\ stored_in (ACS_VDDRF_CTRL_VTRIM_BYTE H) v s
        (snd (Sys_Trim_LoadVDDRF H indeterminate (Some r) t s)))
  /\ (0 <= VDDFLASH_VTRIM_lane H < 4 ->
   finds indeterminate r (o_vddflash H) (TRIM_RECORDS H) t v ->
   fst (Sys_Trim_LoadVDDFLASH H indeterminate (Some r) t s) = ERROR_NO_ERROR
   /\ stored_in (ACS_VDDFLASH_CTRL_VTRIM_BYTE H) v s
        (snd (Sys_Trim_LoadVDDFLASH H indeterminate (Some r) t s)))
  /\ (0 <= RC_FTRIM_lane H < 4 ->
   finds indeterminate r (o_rcosc H) (TRIM_RC_RECORDS H * 4) t v ->
   fst (Sys_Trim_LoadRCOSC H indeterminate (Some r) t s) = ERROR_NO_ERROR
   /\ stored_in (ACS_RCOSC_CTRL_RC_FTRIM_BYTE H) v s
        (snd (Sys_Trim_LoadRCOSC H indeterminate (Some r) t s))).
Proof.
  split; [|split]; intros Hlane Hfind.
  - now apply load_byte_hit.
  - now apply load_byte_hit.
  - now apply load_byte_hit.
Qed.

Lemma loader_hit_stores_trim_witness :
  fst (Sys_Trim_LoadVDDRF (sample_hw true) 0 (Some uniform_region) 115
                          reset_state) = ERROR_NO_ERROR
  /\ stored_in (ACS_VDDRF_CTRL_VTRIM_BYTE (sample_hw true)) 0x12 reset_state
       (snd (Sys_Trim_LoadVDDRF (sample_hw true) 0 (Some uniform_region) 115
                                reset_state)).
Proof.
  destruct (loader_hit_stores_trim (sample_hw true) 0 uniform_region 115 0x12
              reset_state) as (Hrf & _).
  apply Hrf; [cbn; lia|reflexivity].
Defined.

End Loaders.

(** * The remaining lookups and loaders of source/trim.c *)

Module SingleTrim.

Import Trim.

(** The members of [TrimName_t] that [Trim] has no use for. *)
Definition TRIM_VDDIF : nat := 6.
Definition TRIM_FLASH : nat := 7.
Definition TRIM_RCOSC : nat := 8.
Definition TRIM_RCOSC32 : nat := 9.

Definition LSAD_GAIN : nat := 0x04.
Definition LSAD_OFFSET_MASK : Z := 0xFF.
Definition LSAD_GAIN_MASK : Z := 0x3FF.

(** ** Sys_Trim_GetLSADTrim

    [addr + LSAD_GAIN] is pointer arithmetic on a [uint32_t *]: the word
    read is [addr[4]].  The out-parameters carry the content of their
    cells, as [trim_val] does in [Sys_Trim_GetTrim]. *)
Definition Sys_Trim_GetLSADTrim (addr : option words) (gain offset : option Z)
    : Z * option Z * option Z :=
  let ret_val := ERROR_NO_ERROR in
  let ret_val :=
    match addr, gain, offset with
    | Some a, Some _, Some _ =>
        if ((uint32_t (a 0%nat) =? MIN_32_BIT)
            || (uint32_t (a 0%nat) =? MAX_32_BIT)
            || (uint32_t (a LSAD_GAIN) =? MIN_32_BIT)
            || (uint32_t (a LSAD_GAIN) =? MAX_32_BIT))
           && (ret_val =? ERROR_NO_ERROR)
        then ERROR_NO_TRIM_FOUND else ret_val
    | _, _, _ => ERROR_NULL
    end in
  if ret_val =? ERROR_NO_ERROR then
    match addr with
    | Some a =>
        (ret_val,
         option_map (fun _ => uint32_t (Z.land (uint32_t (a 0%nat))
                                               LSAD_OFFSET_MASK)) gain,
         option_map (fun _ => uint32_t (Z.land (uint32_t (a LSAD_GAIN))
                                               LSAD_GAIN_MASK)) offset)
    | None => (ret_val, gain, offset)
    end
  else (ret_val, gain, offset).

Section Functions.

Variable H : hw_h.
Variable indeterminate : Z.

(** The regions behind [TRIM_SUPPLEMENTAL] and [TRIM], both non-null. *)
Variable TRIM_SUPPLEMENTAL : TRIM_Type.
Variable TRIM : TRIM_Type.

(** ** Sys_Trim_LoadSingleTrim *)

Definition Sys_Trim_LoadSingleTrim_private (trim_region : option TRIM_Type)
    (target_name target_value1 target_value2 : Z) : M Z :=
  let ret_val := 0 in
  if target_name =? Z.of_nat TRIM_BANDGAP then
    Sys_Trim_LoadBandgap H indeterminate trim_region target_value1
                         target_value2
  else if target_name =? Z.of_nat TRIM_DCDC then
    Sys_Trim_LoadDCDC H indeterminate trim_region target_value1
  else if target_name =? Z.of_nat TRIM_VDDC then
    Sys_Trim_LoadVDDC H indeterminate trim_region target_value1 target_value2
  else if target_name =? Z.of_nat TRIM_VDDM then
    Sys_Trim_LoadVDDM H indeterminate trim_region target_value1 target_value2
  else if target_name =? Z.of_nat TRIM_VDDRF then
    Sys_Trim_LoadVDDRF H indeterminate trim_region target_value1
  else if target_name =? Z.of_nat TRIM_VDDPA then
    Sys_Trim_LoadVDDPA H indeterminate trim_region target_value1
  else if target_name =? Z.of_nat TRIM_FLASH then
    Sys_Trim_LoadVDDFLASH H indeterminate trim_region target_value1
  else if target_name =? Z.of_nat TRIM_RCOSC then
    Sys_Trim_LoadRCOSC H indeterminate trim_region target_value1
  else if target_name =? Z.of_nat TRIM_RCOSC32 then
    Sys_Trim_LoadRCOSC32 H indeterminate trim_region target_value1
  else ret ret_val.

Definition Sys_Trim_LoadSingleTrim
    (target_name target_value1 target_value2 : Z) : M Z :=
  ret_val <- Sys_Trim_LoadSingleTrim_private (Some TRIM_SUPPLEMENTAL)
               target_name target_value1 target_value2 ;;
  if negb (ret_val =? ERROR_NO_ERROR) then
    Sys_Trim_LoadSingleTrim_private (Some TRIM) target_name target_value1
                                    target_value2
  else ret ret_val.

End Functions.


(** X9.  [Sys_Trim_LoadSingleTrim] has no case for [TRIM_VDDIF] nor for a
    name beyond [TRIM_RCOSC32]: for these it loads nothing, in either
    region, and returns [ERROR_NO_ERROR]. *)
Theorem LoadSingleTrim_unhandled_name (H : hw_h) (indeterminate : Z)
    (TRIM_SUPPLEMENTAL TRIM : TRIM_Type) (target_name v1 v2 : Z) (s : state) :
  target_name = Z.of_nat TRIM_VDDIF \/ Z.of_nat TRIM_RCOSC32 < target_name ->
  Sys_Trim_LoadSingleTrim H indeterminate TRIM_SUPPLEMENTAL TRIM
                          target_name v1 v2 s
    = (ERROR_NO_ERROR, s).
Proof.
  intros Hname.
  assert (Hp : forall region,
            Sys_Trim_LoadSingleTrim_private H indeterminate region
                                            target_name v1 v2 s
            = (ERROR_NO_ERROR, s)).
  { intros region. unfold Sys_Trim_LoadSingleTrim_private.
    unfold TRIM_VDDIF, TRIM_RCOSC32, TRIM_BANDGAP, TRIM_DCDC, TRIM_VDDC,
      TRIM_VDDM, TRIM_VDDRF, TRIM_VDDPA, TRIM_FLASH, TRIM_RCOSC in *.
    repeat match goal with
           | |- context [target_name =? ?k] =>
               destruct (Z.eqb_spec target_name k); [lia|]
           end.
    reflexivity. }
  unfold Sys_Trim_LoadSingleTrim, bind. now rewrite Hp.
Qed.

Lemma LoadSingleTrim_unhandled_name_witness :
  Sys_Trim_LoadSingleTrim (sample_hw false) 0 uniform_region uniform_region
                          6 115 0 reset_state
    = (ERROR_NO_ERROR, reset_state).
Proof.
  apply (LoadSingleTrim_unhandled_name (sample_hw false) 0 uniform_region
           uniform_region 6 115 0 reset_state).
  left. reflexivity.
Defined.

(** X10.  The supplemental region comes first and the default region is a
    fallback.  For the VDDRF, VDDFLASH, DCDC, VDDPA and RCOSC32 trims: when
    the target is missing from the supplemental region,
    [Sys_Trim_LoadSingleTrim] does exactly what the public loader does on
    the default region, error code included, and nothing of the failed
    attempt shows; when the loader succeeds on the supplemental region,
    the default region is not consulted. *)
Theorem LoadSingleTrim_fallback (H : hw_h) (indeterminate : Z)
    (TRIM_SUPPLEMENTAL TRIM : TRIM_Type) (v1 v2 : Z) (s : state) :
  let single := Sys_Trim_LoadSingleTrim H indeterminate TRIM_SUPPLEMENTAL TRIM in
  let missing := fun member_offset =>
    Loaders.misses indeterminate TRIM_SUPPLEMENTAL member_offset
                   (TRIM_RECORDS H) v1 in
  (missing (o_vddrf H) ->
     single (Z.of_nat TRIM_VDDRF) v1 v2 s
       = Sys_Trim_LoadVDDRF H indeterminate (Some TRIM) v1 s)
  /\ (missing (o_vddflash H) ->
     single (Z.of_nat TRIM_FLASH) v1 v2 s
       = Sys_Trim_LoadVDDFLASH H indeterminate (Some TRIM) v1 s)
  /\ (missing (o_dcdc H) ->
     single (Z.of_nat TRIM_DCDC) v1 v2 s
       = Sys_Trim_LoadDCDC H indeterminate (Some TRIM) v1 s)
  /\ (missing (o_vddpa H) ->
     single (Z.of_nat TRIM_VDDPA) v1 v2 s
       = Sys_Trim_LoadVDDPA H indeterminate (Some TRIM) v1 s)
  /\ (missing (o_rcosc32 H) ->
     single (Z.of_nat TRIM_RCOSC32) v1 v2 s
       = Sys_Trim_LoadRCOSC32 H indeterminate (Some TRIM) v1 s)
  /\ (forall name,
        fst (Sys_Trim_LoadSingleTrim_private H indeterminate
               (Some TRIM_SUPPLEMENTAL) name v1 v2 s) = ERROR_NO_ERROR ->
        single name v1 v2 s
          = Sys_Trim_LoadSingleTrim_private H indeterminate
              (Some TRIM_SUPPLEMENTAL) name v1 v2 s).
Proof.
  cbv zeta. unfold Sys_Trim_LoadSingleTrim, bind.
  repeat split.
  - intros Hm. cbn -[Sys_Trim_LoadVDDRF].
    now rewrite (Loaders.LoadVDDRF_miss H indeterminate _ _ s Hm).
  - intros Hm. cbn -[Sys_Trim_LoadVDDFLASH].
    now rewrite (Loaders.LoadVDDFLASH_miss H indeterminate _ _ s Hm).
  - intros Hm. cbn -[Sys_Trim_LoadDCDC].
    now rewrite (Loaders.LoadDCDC_miss H indeterminate _ _ s Hm).
  - intros Hm. cbn -[Sys_Trim_LoadVDDPA].
    now rewrite (Loaders.LoadVDDPA_miss H indeterminate _ _ s Hm).
  - intros Hm. cbn -[Sys_Trim_LoadRCOSC32].
    now rewrite (Loaders.LoadRCOSC32_miss H indeterminate _ _ s Hm).
  - intros name He.
    destruct (Sys_Trim_LoadSingleTrim_private H indeterminate
                (Some TRIM_SUPPLEMENTAL) name v1 v2 s) as [e s1].
    cbn [fst] in He. subst e. reflexivity.
Qed.


Lemma LoadSingleTrim_fallback_witness :
  Sys_Trim_LoadSingleTrim (sample_hw true) 0 (region_of []) uniform_region
                          (Z.of_nat TRIM_VDDRF) 115 0 reset_state
    = Sys_Trim_LoadVDDRF (sample_hw true) 0 (Some uniform_region) 115
                         reset_state.
Proof.
  destruct (LoadSingleTrim_fallback (sample_hw true) 0 (region_of [])
              uniform_region 115 0 reset_state) as (Hrf & _).
  apply Hrf. split; [cbn; lia|vm_compute; discriminate].
Defined.

(** ** Sys_Trim_GetLSADTrim *)

Lemma uint32_t_land_ones x k :
  0 <= k <= 32 -> uint32_t (Z.land x (Z.ones k)) = Z.land x (Z.ones k).
Proof.
  intros Hk. rewrite Z.land_ones by lia. unfold uint32_t.
  apply Z.mod_small.
  pose proof (Z.mod_pos_bound x (2 ^ k) ltac:(lia)).
  assert (2 ^ k <= 2 ^ 32) by (apply Z.pow_le_mono_r; lia). lia.
Qed.

(** X11.  [Sys_Trim_GetLSADTrim] succeeds exactly when neither [addr[0]]
    nor [addr[4]] is all zeros or all ones.  It then stores the low 8 bits
    of [addr[0]] through [gain] and the low 10 bits of [addr[4]] through
    [offset]; otherwise it returns [ERROR_NO_TRIM_FOUND], or [ERROR_NULL]
    when one of the three pointers is null, and leaves both cells as they
    were. *)
Theorem GetLSADTrim_outcome (addr : words) (g o : Z) :
  let w0 := uint32_t (addr 0%nat) in
  let w4 := uint32_t (addr 4%nat) in
  (sentinel w0 = false -> sentinel w4 = false ->
     Sys_Trim_GetLSADTrim (Some addr) (Some g) (Some o)
       = (ERROR_NO_ERROR, Some (Z.land w0 0xFF), Some (Z.land w4 0x3FF)))
  /\ (sentinel w0 = true \/ sentinel w4 = true ->
     Sys_Trim_GetLSADTrim (Some addr) (Some g) (Some o)
       = (ERROR_NO_TRIM_FOUND, Some g, Some o))
  /\ Sys_Trim_GetLSADTrim None (Some g) (Some o)
     = (ERROR_NULL, Some g, Some o)
  /\ Sys_Trim_GetLSADTrim (Some addr) None (Some o)
     = (ERROR_NULL, None, Some o)
  /\ Sys_Trim_GetLSADTrim (Some addr) (Some g) None
     = (ERROR_NULL, Some g, None).
Proof.
  cbv zeta. unfold Sys_Trim_GetLSADTrim, sentinel, LSAD_GAIN, MIN_32_BIT,
    MAX_32_BIT, LSAD_OFFSET_MASK, LSAD_GAIN_MASK.
  change (Pos.to_nat 4) with 4%nat.
  split; [|split; [|repeat split]].
  - intros H0 H4. rewrite <- orb_assoc, H0, H4. cbn [orb andb option_map].
    change (ERROR_NO_ERROR =? ERROR_NO_ERROR) with true. cbv iota.
    change 0xFF with (Z.ones 8). change 0x3FF with (Z.ones 10).
    now rewrite !uint32_t_land_ones by lia.
  - intros Hs. rewrite <- orb_assoc.
    assert (((uint32_t (addr 0%nat) =? 0)
             || (uint32_t (addr 0%nat) =? 0xFFFFFFFF))
            || ((uint32_t (addr 4%nat) =? 0)
                || (uint32_t (addr 4%nat) =? 0xFFFFFFFF)) = true) as ->.
    { apply orb_true_iff. exact Hs. }
    reflexivity.
Qed.

(** The LSAD words of a region: offset word 0x12345678 and, four words
    on, gain word 0x0000ABCD. *)
Definition lsad_words : words :=
  region_of [0x12345678; 0; 0; 0; 0x0000ABCD].

Lemma GetLSADTrim_outcome_witness :
  Sys_Trim_GetLSADTrim (Some lsad_words) (Some 0) (Some 0)
    = (ERROR_NO_ERROR, Some 0x78, Some 0x3CD).
Proof.
  destruct (GetLSADTrim_outcome lsad_words 0 0) as (Hok & _).
  apply Hok; reflexivity.
Defined.

End SingleTrim.

(** * The custom trim record (Sys_Trim_LoadCustom, source/trim.c) *)

Module Custom.

Import Trim.

Definition MAX_4_BIT : Z := 0xF.
Definition ERROR_TRIM_CUSTOM_SIGNATURE_INVALID : Z := Z.shiftl 1 26.
Definition ERROR_TRIM_CUSTOM_ICH_INVALID : Z := Z.shiftl 1 27.
Definition ERROR_TRIM_CUSTOM_XTAL_INVALID : Z := Z.shiftl 1 28.
Definition TRIM_CUSTOM_SIP1_SIGNATURE : Z := 0x53495031.
Definition TRIM_CUSTOM_CUST_SIGNATURE : Z := 0x43555354.

(** What the function takes from hw.h. *)
Record hw_h : Type := mkHw {
  TRIM_CUSTOM_BASE : Z;
  TRIM_CUSTOM_SIGNATURE_OFFSET : Z;
  TRIM_CUSTOM_CRC_OFFSET : Z;
  TRIM_CUSTOM_ICH_OFFSET : Z;
  TRIM_CUSTOM_XTAL_OFFSET : Z;
  ACS_VCC_CTRL_ICH_TRIM_Mask : Z;
  ACS_VCC_CTRL_ICH_TRIM_Pos : Z;
  RF_REG2E_XTAL_TRIM_XTAL_TRIM_INIT_Mask : Z;
  RF_REG2E_XTAL_TRIM_XTAL_TRIM_INIT_Pos : Z;
  RF_REG2E_XTAL_TRIM_XTAL_TRIM_Mask : Z;
  RF_REG2E_XTAL_TRIM_XTAL_TRIM_Pos : Z;
  CRC_32 : Z;
  CRC_32_INIT_VALUE : Z
}.

(** The peripherals of [MMIO] and, beside them, the register RF->REG2E
    with the values stored to it (newest first). *)
Record rf_state : Type := mkRf {
  core : state;
  RF_REG2E : Z;
  RF_REG2E_stores : list Z
}.

Definition write_RF_REG2E (v : Z) (st : rf_state) : rf_state :=
  mkRf (core st) (uint32_t v) (uint32_t v :: RF_REG2E_stores st).

Definition on_core {A} (c : M A) (st : rf_state) : A * rf_state :=
  let (a, s) := c (core st) in (a, mkRf s (RF_REG2E st) (RF_REG2E_stores st)).

Section Functions.

Variable H : hw_h.

(** The flash, read as 32-bit words by byte address. *)
Variable flash : Z -> Z.

Definition load (a : Z) : Z := uint32_t (flash a).

(** [for (addr = BASE; addr <= BASE + CRC_OFFSET - 1; addr++)
    SYS_CRC_ADD( *addr, 32)] on a [uint32_t *]: [n] words are left from the
    byte address [a]. *)
Fixpoint Custom_CRC_loop (n : nat) (a : Z) : M unit :=
  match n with
  | O => ret tt
  | S n' => crc_add (Z.shiftr 32 3) (load a) ;; Custom_CRC_loop n' (a + 4)
  end.

(** The number of passes of the loop: the words that begin at or before
    byte [TRIM_CUSTOM_CRC_OFFSET - 1] of the record. *)
Definition crc_words : nat := Z.to_nat ((TRIM_CUSTOM_CRC_OFFSET H + 3) / 4).

Definition Sys_Trim_LoadCustom (st : rf_state) : Z * rf_state :=
  let ret_val := ERROR_NO_ERROR in
  let value := load (TRIM_CUSTOM_BASE H + TRIM_CUSTOM_SIGNATURE_OFFSET H) in
  if negb (value =? TRIM_CUSTOM_SIP1_SIGNATURE)
     && negb (value =? TRIM_CUSTOM_CUST_SIGNATURE)
  then (ERROR_TRIM_CUSTOM_SIGNATURE_INVALID, st)
  else
    let (final, st) :=
      on_core (write32 CRC_CFG (CRC_32 H) ;;
               write32 CRC_VALUE (CRC_32_INIT_VALUE H) ;;
               Custom_CRC_loop crc_words (TRIM_CUSTOM_BASE H) ;;
               read_crc_final) st in
    let value := load (TRIM_CUSTOM_BASE H + TRIM_CUSTOM_CRC_OFFSET H) in
    if negb (value =? final) then (ERROR_INVALID_CRC, st)
    else
      let value := load (TRIM_CUSTOM_BASE H + TRIM_CUSTOM_ICH_OFFSET H) in
      let (ret_val, st) :=
        if value >? MAX_4_BIT
        then (Z.lor ret_val ERROR_TRIM_CUSTOM_ICH_INVALID, st)
        else
          (ret_val,
           snd (on_core
                  (vcc <- read32 ACS_VCC_CTRL ;;
                   write32 ACS_VCC_CTRL
                     (Z.lor (Z.land vcc (not32 (ACS_VCC_CTRL_ICH_TRIM_Mask H)))
                            (Z.shiftl value (ACS_VCC_CTRL_ICH_TRIM_Pos H))))
                  st)) in
      let value := load (TRIM_CUSTOM_BASE H + TRIM_CUSTOM_XTAL_OFFSET H) in
      if value >? MAX_8_BIT
      then (Z.lor ret_val ERROR_TRIM_CUSTOM_XTAL_INVALID, st)
      else
        let st :=
          write_RF_REG2E
            (Z.lor (Z.land (RF_REG2E st)
                           (not32 (RF_REG2E_XTAL_TRIM_XTAL_TRIM_INIT_Mask H)))
                   (Z.shiftl value (RF_REG2E_XTAL_TRIM_XTAL_TRIM_INIT_Pos H)))
            st in
        let st :=
          write_RF_REG2E
            (Z.lor (Z.land (RF_REG2E st)
                           (not32 (RF_REG2E_XTAL_TRIM_XTAL_TRIM_Mask H)))
                   (Z.shiftl value (RF_REG2E_XTAL_TRIM_XTAL_TRIM_Pos H)))
            st in
        (ret_val, st).

(** The signature, checksum and trim words of the record. *)
Definition signature : Z :=
  load (TRIM_CUSTOM_BASE H + TRIM_CUSTOM_SIGNATURE_OFFSET H).
Definition checksum : Z :=
  load (TRIM_CUSTOM_BASE H + TRIM_CUSTOM_CRC_OFFSET H).
Definition ich_trim : Z :=
  load (TRIM_CUSTOM_BASE H + TRIM_CUSTOM_ICH_OFFSET H).
Definition xtal_trim : Z :=
  load (TRIM_CUSTOM_BASE H + TRIM_CUSTOM_XTAL_OFFSET H).

Definition signed : bool :=
  (signature =? TRIM_CUSTOM_SIP1_SIGNATURE)
  || (signature =? TRIM_CUSTOM_CUST_SIGNATURE).

(** The CRC the unit computes over the record. *)
Definition record_crc (st : rf_state) : Z :=
  fst (on_core (write32 CRC_CFG (CRC_32 H) ;;
                write32 CRC_VALUE (CRC_32_INIT_VALUE H) ;;
                Custom_CRC_loop crc_words (TRIM_CUSTOM_BASE H) ;;
                read_crc_final) st).

End Functions.


Lemma frame_Custom_CRC_loop flash rs : In CRC_VALUE rs ->
  forall n a, Loaders.frame rs (Custom_CRC_loop flash n a).
Proof.
  intros Hin. induction n as [|n IH]; intros a; cbn [Custom_CRC_loop].
  - apply Loaders.frame_ret.
  - apply Loaders.frame_bind;
      [now apply Loaders.frame_crc_add|intros _; apply IH].
Qed.

(** The CRC computation leaves RF->REG2E and every register of the core but
    those of the CRC unit. *)
Lemma crc_block H flash st :
  let st1 := snd (on_core (write32 CRC_CFG (CRC_32 H) ;;
                           write32 CRC_VALUE (CRC_32_INIT_VALUE H) ;;
                           Custom_CRC_loop flash (crc_words H)
                                           (TRIM_CUSTOM_BASE H) ;;
                           read_crc_final) st) in
  RF_REG2E st1 = RF_REG2E st
  /\ RF_REG2E_stores st1 = RF_REG2E_stores st
  /\ forall r, r <> CRC_CFG -> r <> CRC_VALUE ->
       regs (core st1) r = regs (core st) r.
Proof.
  cbv zeta. unfold on_core.
  assert (Hf : Loaders.frame [CRC_CFG; CRC_VALUE]
                 (write32 CRC_CFG (CRC_32 H) ;;
                  write32 CRC_VALUE (CRC_32_INIT_VALUE H) ;;
                  Custom_CRC_loop flash (crc_words H) (TRIM_CUSTOM_BASE H) ;;
                  read_crc_final)).
  { apply Loaders.frame_bind;
      [apply Loaders.frame_write32; cbn [In]; tauto|intros _].
    apply Loaders.frame_bind;
      [apply Loaders.frame_write32; cbn [In]; tauto|intros _].
    apply Loaders.frame_bind;
      [apply frame_Custom_CRC_loop; cbn [In]; tauto|intros _].
    apply Loaders.frame_read_crc_final. }
  specialize (Hf (core st)).
  destruct ((write32 CRC_CFG (CRC_32 H) ;;
             write32 CRC_VALUE (CRC_32_INIT_VALUE H) ;;
             Custom_CRC_loop flash (crc_words H) (TRIM_CUSTOM_BASE H) ;;
             read_crc_final) (core st)) as [final s1].
  cbn [snd core RF_REG2E RF_REG2E_stores] in *.
  repeat split. intros r H1 H2. apply Hf. cbn [In]. intuition congruence.
Qed.

(** X12.  [Sys_Trim_LoadCustom] writes no trim unless the record is signed
    and its CRC is right.  With a wrong signature it returns
    [ERROR_TRIM_CUSTOM_SIGNATURE_INVALID] and touches nothing, not even the
    CRC unit; with a wrong CRC it returns [ERROR_INVALID_CRC] and leaves
    ACS->VCC_CTRL and RF->REG2E as they were.  Otherwise the two trims are
    range-checked on their own: the result is the or of
    [ERROR_TRIM_CUSTOM_ICH_INVALID] (ICH trim above 15) and
    [ERROR_TRIM_CUSTOM_XTAL_INVALID] (XTAL trim above 255), an ICH trim out
    of range leaves ACS->VCC_CTRL, one in range is stored to its field,
    and an XTAL trim out of range leaves RF->REG2E. *)
Theorem LoadCustom_checks (H : hw_h) (flash : Z -> Z) (st : rf_state) :
  let result := Sys_Trim_LoadCustom H flash st in
  let VCC_CTRL := fun st => regs (core st) ACS_VCC_CTRL in
  (signed H flash = false ->
     result = (ERROR_TRIM_CUSTOM_SIGNATURE_INVALID, st))
  /\ (signed H flash = true -> checksum H flash <> record_crc H flash st ->
     fst result = ERROR_INVALID_CRC
     /\ VCC_CTRL (snd result) = VCC_CTRL st
     /\ RF_REG2E (snd result) = RF_REG2E st
     /\ RF_REG2E_stores (snd result) = RF_REG2E_stores st)
  /\ (signed H flash = true -> checksum H flash = record_crc H flash st ->
     fst result
       = Z.lor (if ich_trim H flash >? MAX_4_BIT
                then ERROR_TRIM_CUSTOM_ICH_INVALID else ERROR_NO_ERROR)
               (if xtal_trim H flash >? MAX_8_BIT
                then ERROR_TRIM_CUSTOM_XTAL_INVALID else ERROR_NO_ERROR)
     /\ VCC_CTRL (snd result)
        = (if ich_trim H flash >? MAX_4_BIT then VCC_CTRL st
           else uint32_t
                  (Z.lor (Z.land (VCC_CTRL st)
                                 (not32 (ACS_VCC_CTRL_ICH_TRIM_Mask H)))
                         (Z.shiftl (ich_trim H flash)
                                   (ACS_VCC_CTRL_ICH_TRIM_Pos H))))
     /\ (xtal_trim H flash > MAX_8_BIT ->
         RF_REG2E (snd result) = RF_REG2E st
         /\ RF_REG2E_stores (snd result) = RF_REG2E_stores st)).
Proof.
  cbv zeta. unfold Sys_Trim_LoadCustom.
  fold (signature H flash) (checksum H flash) (ich_trim H flash)
       (xtal_trim H flash).
  rewrite <- negb_orb. fold (signed H flash).
  pose proof (crc_block H flash st) as Hblock. cbv zeta in Hblock.
  unfold record_crc.
  destruct (on_core (write32 CRC_CFG (CRC_32 H) ;;
                     write32 CRC_VALUE (CRC_32_INIT_VALUE H) ;;
                     Custom_CRC_loop flash (crc_words H) (TRIM_CUSTOM_BASE H) ;;
                     read_crc_final) st) as [final st1].
  cbn [fst snd] in *. destruct Hblock as (Hrf & Hlog & Hregs).
  split; [|split].
  - intros ->. reflexivity.
  - intros -> Hcrc. cbn [negb].
    apply Z.eqb_neq in Hcrc. rewrite Hcrc. cbn [negb fst snd].
    repeat split; try assumption. now apply Hregs.
  - intros -> Hcrc. cbn [negb].
    apply Z.eqb_eq in Hcrc. rewrite Hcrc. cbn [negb].
    destruct (ich_trim H flash >? MAX_4_BIT);
      destruct (Z.gtb_spec (xtal_trim H flash) MAX_8_BIT) as [Hx|Hx];
      cbn [fst snd core RF_REG2E RF_REG2E_stores write_RF_REG2E on_core];
      (split; [reflexivity|]);
      (split; [|intros Hgt; try lia; now split]).
    + now apply Hregs.
    + now apply Hregs.
    + unfold on_core, bind, read32, write32.
      cbn [fst snd core regs]. rewrite upd_same.
      now rewrite Hregs by discriminate.
    + unfold on_core, bind, read32, write32.
      cbn [fst snd core regs RF_REG2E]. rewrite upd_same.
      now rewrite Hregs by discriminate.
Qed.

(** A layout of the record and a flash to run the function: signature,
    ICH trim and XTAL trim in the first three words, then the checksum. *)
Definition sample_hw : hw_h :=
  {| TRIM_CUSTOM_BASE := 0x00080800;
     TRIM_CUSTOM_SIGNATURE_OFFSET := 0;
     TRIM_CUSTOM_ICH_OFFSET := 4;
     TRIM_CUSTOM_XTAL_OFFSET := 8;
     TRIM_CUSTOM_CRC_OFFSET := 12;
     ACS_VCC_CTRL_ICH_TRIM_Mask := 0xF00;
     ACS_VCC_CTRL_ICH_TRIM_Pos := 8;
     RF_REG2E_XTAL_TRIM_XTAL_TRIM_INIT_Mask := 0xFF;
     RF_REG2E_XTAL_TRIM_XTAL_TRIM_INIT_Pos := 0;
     RF_REG2E_XTAL_TRIM_XTAL_TRIM_Mask := 0xFF00;
     RF_REG2E_XTAL_TRIM_XTAL_TRIM_Pos := 8;
     CRC_32 := 1; CRC_32_INIT_VALUE := 0xFFFFFFFF |}.

(** A record with a good signature and checksum (for the running sum of
    [sample_device]), an ICH trim out of range and an XTAL trim in
    range. *)
Definition sample_flash (a : Z) : Z :=
  if a =? 0x00080800 then TRIM_CUSTOM_CUST_SIGNATURE
  else if a =? 0x00080804 then 0x1F
  else if a =? 0x00080808 then 0x42
  else if a =? 0x0008080C then 0x435553B4
  else 0xFFFFFFFF.

Definition sample_state : rf_state :=
  {| core := reset_state; RF_REG2E := 0; RF_REG2E_stores := [] |}.

Lemma LoadCustom_checks_witness :
  fst (Sys_Trim_LoadCustom sample_hw sample_flash sample_state)
    = ERROR_TRIM_CUSTOM_ICH_INVALID
  /\ regs (core (snd (Sys_Trim_LoadCustom sample_hw sample_flash
                                           sample_state))) ACS_VCC_CTRL
     = regs (core sample_state) ACS_VCC_CTRL.
Proof.
  destruct (LoadCustom_checks sample_hw sample_flash sample_state)
    as (_ & _ & Hok).
  destruct Hok as (Hres & Hvcc & _); [reflexivity|vm_compute; reflexivity|].
  split; [exact Hres|exact Hvcc].
Defined.

End Custom.

(** * Further properties of the clock dividers (source/clock.c) *)

Module Dividers.

Import Clock.

Lemma prescale_bounds clk freq :
  0 < clk < 2 ^ 32 -> 0 < freq ->
  clk <= freq * (prescale clk freq + 1)
  /\ (0 < prescale clk freq -> freq * prescale clk freq < clk).
Proof.
  intros Hclk Hfreq. rewrite prescale_floor by assumption.
  unfold floor_divisor.
  pose proof (Z.div_mod clk freq ltac:(lia)) as Hdm.
  pose proof (Z.mod_pos_bound clk freq ltac:(lia)) as Hm.
  destruct (Z.eqb_spec (clk mod freq) 0) as [Hex|Hex]; nia.
Qed.

(** [d] is the least divisor for which [clk], divided by [d + 1], does not
    exceed [f]. *)
Definition fits (clk f d : Z) : Prop :=
  clk <= f * (d + 1) /\ (0 < d -> f * d < clk).

(** X13.  The divisors of [Sys_Clocks_DividerConfig] that are taken from
    SystemCoreClock keep the divided clock at or below the target, and are
    the least that do: with [d] the divisor for the target [f],
    SystemCoreClock <= f * (d + 1), and f * d < SystemCoreClock unless [d]
    is 0.  This holds for SLOWCLK, BBCLK, UARTCLK and DCCLK, for SENSORCLK
    in a build that defines RSL15_CID and for USERCLK sourced from
    SYSCLK. *)
Theorem divisors_do_not_exceed_target (H : hw_h)
    (SystemCoreClock uartclk_freq sensorclk_freq userclk_freq : Z)
    (s : state) :
  0 < SystemCoreClock < 2 ^ 32 ->
  0 < uartclk_freq -> 0 < sensorclk_freq -> 0 < userclk_freq ->
  fits SystemCoreClock 1000000 (slowclk_div SystemCoreClock)
  /\ fits SystemCoreClock 8000000 (bbclk_div SystemCoreClock)
  /\ fits SystemCoreClock uartclk_freq
        (uartclk_div SystemCoreClock uartclk_freq)
  /\ fits SystemCoreClock 4000000 (dcclk_div SystemCoreClock)
  /\ (RSL15_CID_defined H = true ->
      fits SystemCoreClock sensorclk_freq
        (sensorclk_div H SystemCoreClock sensorclk_freq))
  /\ (userclk_from_rf H SystemCoreClock userclk_freq s = false ->
      fits SystemCoreClock userclk_freq
        (userclk_div H SystemCoreClock userclk_freq s)).
Proof.
  intros Hclk Hu Hs Hq.
  unfold slowclk_div, bbclk_div, uartclk_div, dcclk_div.
  split; [apply prescale_bounds; lia|].
  split; [apply prescale_bounds; lia|].
  split; [apply prescale_bounds; lia|].
  split; [apply prescale_bounds; lia|].
  split.
  - intros Hcid. unfold sensorclk_div. rewrite Hcid.
    apply prescale_bounds; lia.
  - intros Hsrc. unfold userclk_div. rewrite Hsrc.
    apply prescale_bounds; lia.
Qed.

Lemma divisors_do_not_exceed_target_witness :
  fits 48000000 900000 (uartclk_div 48000000 900000).
Proof.
  destruct (divisors_do_not_exceed_target (sample_hw true) 48000000 900000
              1000000 1000000 rf_ready_state
              ltac:(lia) ltac:(lia) ltac:(lia) ltac:(lia))
    as (_ & _ & Huart & _).
  exact Huart.
Defined.

(** X14.  When USERCLK is sourced from the RF clock, the divisor is the
    integer quotient of the RF clock (48 MHz over the CK_DIV_1_6 prescaler)
    by the target and is never decremented: the exactness test is made on
    SystemCoreClock, which is below the target there.  So a target that
    divides the RF clock exactly gets the divisor of the SYSCLK rule plus
    one. *)
Theorem userclk_from_rf_not_decremented (H : hw_h)
    (SystemCoreClock userclk_freq : Z) (s : state) :
  0 < SystemCoreClock ->
  userclk_from_rf H SystemCoreClock userclk_freq s = true ->
  let rfclk := 48000000 / fst (read8 (RF0_REG33_CK_DIV_1_6_CK_DIV_1_6_BYTE H) s)
  in
  userclk_div H SystemCoreClock userclk_freq s = rfclk / userclk_freq
  /\ (0 < rfclk < 2 ^ 32 -> rfclk mod userclk_freq = 0 ->
      userclk_div H SystemCoreClock userclk_freq s
        = prescale rfclk userclk_freq + 1).
Proof.
  intros Hclk Hrf. cbv zeta.
  assert (Hgt : SystemCoreClock < userclk_freq).
  { unfold userclk_from_rf in Hrf. apply andb_prop in Hrf.
    destruct Hrf as [Hgt _]. lia. }
  assert (Hdiv : userclk_div H SystemCoreClock userclk_freq s
                 = 48000000
                   / fst (read8 (RF0_REG33_CK_DIV_1_6_CK_DIV_1_6_BYTE H) s)
                   / userclk_freq).
  { unfold userclk_div. rewrite Hrf.
    rewrite (Z.mod_small SystemCoreClock userclk_freq) by lia.
    destruct (Z.eqb_spec SystemCoreClock 0); [lia|reflexivity]. }
  split; [exact Hdiv|].
  intros Hr Hex. rewrite Hdiv, prescale_floor by lia.
  unfold floor_divisor. rewrite Hex. cbn. lia.
Qed.

Lemma userclk_from_rf_not_decremented_witness :
  userclk_div (sample_hw true) 3000000 16000000 rf_ready_state
    = prescale 48000000 16000000 + 1.
Proof.
  destruct (userclk_from_rf_not_decremented (sample_hw true) 3000000 16000000
              rf_ready_state ltac:(lia) ltac:(reflexivity)) as [_ Hex].
  apply Hex; [vm_compute; split; reflexivity|reflexivity].
Defined.

(** ** The sensor clock of the builds without RSL15_CID *)

(** X15.  In a build without RSL15_CID the sensor clock prescaler is the
    binary logarithm, rounded up, of the integer quotient 1000000 /
    sensorclk_freq: the least [d] with 1000000 / sensorclk_freq <= 2 ^ d.
    For a target above 1 MHz it is 0. *)
Theorem sensorclk_div_is_log2_up (H : hw_h)
    (SystemCoreClock sensorclk_freq : Z) :
  RSL15_CID_defined H = false -> 0 < sensorclk_freq ->
  sensorclk_div H SystemCoreClock sensorclk_freq
    = Z.log2_up (1000000 / sensorclk_freq).
Proof.
  intros Hcid Hf. unfold sensorclk_div. rewrite Hcid.
  now apply sensorclk_log2_log2_up.
Qed.

Lemma sensorclk_div_is_log2_up_witness :
  sensorclk_div (sample_hw false) 48000000 300000 = Z.log2_up (1000000 / 300000).
Proof.
  apply (sensorclk_div_is_log2_up (sample_hw false) 48000000 300000);
    [reflexivity|lia].
Defined.

End Dividers.

(** * Further properties of the TX power setting (source/rffe.c) *)

From Stdlib Require Import Permutation.

Module TXPower.

Import RFFE.
Import Loaders.

(** ** Sys_RFFE_GetMedian *)

(** X16.  [Sys_RFFE_GetMedian] returns the middle one of its three
    arguments: the arguments are, in some order, a value not above the
    result, the result, and a value not below it. *)
Theorem GetMedian_is_median (a b c : Z) :
  exists lo hi,
    Permutation [a; b; c] [lo; Sys_RFFE_GetMedian a b c; hi]
    /\ lo <= Sys_RFFE_GetMedian a b c <= hi.
Proof.
  unfold Sys_RFFE_GetMedian.
  destruct (Z.gtb_spec a b) as [Hab|Hab].
  - destruct (Z.gtb_spec a c) as [Hac|Hac].
    + destruct (Z.gtb_spec b c) as [Hbc|Hbc].
      * exists c, a. split; [|lia].
        apply perm_trans with [a; c; b]; [apply perm_skip, perm_swap|].
        apply perm_trans with [c; a; b]; [apply perm_swap|].
        apply perm_skip, perm_swap.
      * exists b, a. split; [|lia].
        apply perm_trans with [b; a; c]; [apply perm_swap|].
        apply perm_skip, perm_swap.
    + exists b, c. split; [|lia]. apply perm_swap.
  - destruct (Z.gtb_spec b c) as [Hbc|Hbc].
    + destruct (Z.gtb_spec a c) as [Hac|Hac].
      * exists c, b. split; [|lia].
        apply perm_trans with [a; c; b]; [apply perm_skip, perm_swap|].
        apply perm_swap.
      * exists a, b. split; [|lia]. apply perm_skip, perm_swap.
    + exists a, c. split; [|lia]. apply Permutation_refl.
Qed.

(** ** The result of Sys_RFFE_SetTXPower *)

Section Results.

Variable H : hw_h.
Variable trims : Trim.TRIM_Type.
Variable supply_mV : Z -> Z -> Z -> Z.
Variable float_to_uint8 : Z -> Z.

Lemma NoVDDPA_boost_result target ch s :
  fst (fst (NoVDDPA_boost H trims supply_mV target ch s)) = ERROR_NO_ERROR
  \/ fst (fst (NoVDDPA_boost H trims supply_mV target ch s))
     = ERRNO_RFFE_VCC_INSUFFICIENT.
Proof.
  unfold NoVDDPA_boost.
  rewrite bind_read32.
  apply (bind_after (fun x => fst (fst x) = _ \/ fst (fst x) = _)).
  intros _ s1.
  apply (bind_after (fun x => fst (fst x) = _ \/ fst (fst x) = _)).
  intros vcc s2. cbv zeta.
  destruct (_ <? _); [right; reflexivity|].
  do 4 (apply (bind_after (fun x => fst (fst x) = _ \/ fst (fst x) = _));
        intros ? ?).
  left. reflexivity.
Qed.

Lemma NoVDDPA_nominal_result target s :
  fst (fst (NoVDDPA_nominal H trims float_to_uint8 target s)) = ERROR_NO_ERROR.
Proof.
  unfold NoVDDPA_nominal.
  do 3 (apply (bind_after (fun x => fst (fst x) = _)); intros ? ?).
  cbv zeta.
  do 2 (apply (bind_after (fun x => fst (fst x) = _)); intros ? ?).
  reflexivity.
Qed.

Lemma restore_result (a b c ch p e : Z) (s : state) :
  fst ((write32 LSAD_CFG a ;; write32 ACS_AOUT_CTRL b ;;
        write32 (LSAD_INPUT_SEL ch) c ;;
        commit_pa_pwr H p ;; ret e) s) = e.
Proof.
  do 4 (apply (bind_after (fun x => fst x = _)); intros ? ?). reflexivity.
Qed.

Lemma NoVDDPA_result target ch s :
  fst (Sys_RFFE_SetTXPower_NoVDDPA H trims supply_mV float_to_uint8
         target ch s) = ERROR_NO_ERROR
  \/ (fst (Sys_RFFE_SetTXPower_NoVDDPA H trims supply_mV float_to_uint8
             target ch s) = ERRNO_RFFE_VCC_INSUFFICIENT
      /\ RF_NO_VDDPA_TYPICAL_POWER < target).
Proof.
  unfold Sys_RFFE_SetTXPower_NoVDDPA.
  rewrite !bind_read32.
  do 2 (apply (bind_after (fun x => fst x = _ \/ (fst x = _ /\ _)));
        intros ? ?).
  rewrite bind_read32.
  apply (bind_after (fun x => fst x = _ \/ (fst x = _ /\ _))); intros ? ?.
  rewrite bind_read32.
  apply (bind_after (fun x => fst x = _ \/ (fst x = _ /\ _))); intros ? ?.
  rewrite bind_eq.
  destruct (Z.gtb_spec target RF_NO_VDDPA_TYPICAL_POWER) as [Hgt|Hle].
  - pose proof (NoVDDPA_boost_result target ch s3) as Hb.
    destruct (NoVDDPA_boost H trims supply_mV target ch s3) as [[e p] s4].
    cbn [fst snd] in *. rewrite restore_result.
    destruct Hb as [->| ->]; [now left|right; now split].
  - pose proof (NoVDDPA_nominal_result target s3) as Hn.
    destruct (NoVDDPA_nominal H trims float_to_uint8 target s3) as [[e p] s4].
    cbn [fst snd] in *. rewrite restore_result. now left.
Qed.

Lemma VDDPA_result target ch s :
  fst (Sys_RFFE_SetTXPower_VDDPA H trims float_to_uint8 target ch s)
    = ERROR_NO_ERROR.
Proof.
  unfold Sys_RFFE_SetTXPower_VDDPA.
  do 6 (apply (bind_after (fun x => fst x = _)); intros ? ?).
  cbv zeta.
  do 2 (apply (bind_after (fun x => fst x = _)); intros ? ?).
  reflexivity.
Qed.

Definition invalid_setting (target lsad_channel : Z) : Prop :=
  MAX_LSAD_CHANNEL < lsad_channel
  \/ RF_MAX_POWER < target \/ target < RF_MIN_POWER.

Lemma invalid_setting_dec target ch :
  invalid_setting target ch \/ ~ invalid_setting target ch.
Proof. unfold invalid_setting. lia. Qed.

Lemma SetTXPower_invalid target ch pa_en s :
  invalid_setting target ch ->
  Sys_RFFE_SetTXPower H trims supply_mV float_to_uint8 target ch pa_en s
    = (ERRNO_RFFE_INVALIDSETTING_ERROR, s).
Proof.
  unfold invalid_setting, MAX_LSAD_CHANNEL, RF_MAX_POWER, RF_MIN_POWER.
  intros Hinv. unfold Sys_RFFE_SetTXPower.
  unfold MAX_LSAD_CHANNEL, RF_MAX_POWER, RF_MIN_POWER.
  destruct (Z.gtb_spec ch 7); [reflexivity|]. cbn [orb].
  change (ERROR_NO_ERROR =? ERRNO_RFFE_INVALIDSETTING_ERROR) with false.
  cbn iota.
  destruct (Z.gtb_spec target 6); [reflexivity|].
  destruct (Z.ltb_spec target (-17)); [reflexivity|]. lia.
Qed.

Lemma SetTXPower_valid target ch pa_en s :
  ~ invalid_setting target ch ->
  Sys_RFFE_SetTXPower H trims supply_mV float_to_uint8 target ch pa_en s
    = (if (negb pa_en && (target <=? RF_MAX_POWER_NO_VDDPA) && (target >? 0))
          || (target <=? 0)
       then
         let (e, s1) := Sys_RFFE_SetTXPower_NoVDDPA H trims supply_mV
                          float_to_uint8 target ch s in
         if e =? ERRNO_RFFE_VCC_INSUFFICIENT then
           let (e2, s2) := Sys_RFFE_SetTXPower_VDDPA H trims float_to_uint8
                             target ch s1 in
           (Z.lor e e2, s2)
         else (e, s1)
       else Sys_RFFE_SetTXPower_VDDPA H trims float_to_uint8 target ch s).
Proof.
  unfold invalid_setting, MAX_LSAD_CHANNEL, RF_MAX_POWER, RF_MIN_POWER.
  intros Hval. unfold Sys_RFFE_SetTXPower.
  unfold MAX_LSAD_CHANNEL, RF_MAX_POWER, RF_MIN_POWER.
  assert ((ch >? 7) = false) as -> by lia.
  assert ((target >? 6) = false) as -> by lia.
  assert ((target <? -17) = false) as -> by lia.
  assert ((target <=? 6) = true) as -> by lia.
  assert ((target >=? -17) = true) as -> by lia.
  change (ERROR_NO_ERROR =? ERRNO_RFFE_INVALIDSETTING_ERROR) with false.
  cbn [orb andb].
  destruct (_ || _); [|reflexivity].
  unfold bind at 1.
  destruct (Sys_RFFE_SetTXPower_NoVDDPA H trims supply_mV float_to_uint8
              target ch s) as [e s1].
  destruct (e =? ERRNO_RFFE_VCC_INSUFFICIENT); [|reflexivity].
  unfold bind, ret.
  now destruct (Sys_RFFE_SetTXPower_VDDPA H trims float_to_uint8 target ch s1).
Qed.

(** X17.  [Sys_RFFE_SetTXPower] returns [ERRNO_RFFE_INVALIDSETTING_ERROR]
    exactly when the LSAD channel is above 7 or the target is outside
    -17 .. 6 dBm, and then it leaves the hardware state as it was.  For a
    valid setting the result is [ERROR_NO_ERROR] or
    [ERRNO_RFFE_VCC_INSUFFICIENT]; the latter only for a target of 1 or
    2 dBm without [pa_en], and then the call has gone on to
    [Sys_RFFE_SetTXPower_VDDPA], whose success does not clear the
    reported error. *)
Theorem SetTXPower_result (target lsad_channel : Z) (pa_en : bool)
    (s : state) :
  let r := Sys_RFFE_SetTXPower H trims supply_mV float_to_uint8 target
             lsad_channel pa_en s in
  (fst r = ERRNO_RFFE_INVALIDSETTING_ERROR
   <-> invalid_setting target lsad_channel)
  /\ (invalid_setting target lsad_channel -> snd r = s)
  /\ (~ invalid_setting target lsad_channel ->
      fst r = ERROR_NO_ERROR
      \/ (fst r = ERRNO_RFFE_VCC_INSUFFICIENT
          /\ 0 < target <= RF_MAX_POWER_NO_VDDPA /\ pa_en = false
          /\ r = (ERRNO_RFFE_VCC_INSUFFICIENT,
                  snd (Sys_RFFE_SetTXPower_VDDPA H trims float_to_uint8
                         target lsad_channel
                         (snd (Sys_RFFE_SetTXPower_NoVDDPA H trims supply_mV
                                 float_to_uint8 target lsad_channel s)))))).
Proof.
  cbv zeta.
  assert (Hvalid : ~ invalid_setting target lsad_channel ->
    fst (Sys_RFFE_SetTXPower H trims supply_mV float_to_uint8 target
           lsad_channel pa_en s) = ERROR_NO_ERROR
    \/ (fst (Sys_RFFE_SetTXPower H trims supply_mV float_to_uint8 target
               lsad_channel pa_en s) = ERRNO_RFFE_VCC_INSUFFICIENT
        /\ 0 < target <= RF_MAX_POWER_NO_VDDPA /\ pa_en = false
        /\ Sys_RFFE_SetTXPower H trims supply_mV float_to_uint8 target
             lsad_channel pa_en s
           = (ERRNO_RFFE_VCC_INSUFFICIENT,
              snd (Sys_RFFE_SetTXPower_VDDPA H trims float_to_uint8
                     target lsad_channel
                     (snd (Sys_RFFE_SetTXPower_NoVDDPA H trims supply_mV
                             float_to_uint8 target lsad_channel s)))))).
  { intros Hval. rewrite (SetTXPower_valid _ _ _ _ Hval).
    destruct ((negb pa_en && (target <=? RF_MAX_POWER_NO_VDDPA)
               && (target >? 0)) || (target <=? 0)) eqn:Hsel.
    - pose proof (NoVDDPA_result target lsad_channel s) as Hno.
      destruct (Sys_RFFE_SetTXPower_NoVDDPA H trims supply_mV float_to_uint8
                  target lsad_channel s) as [e s1].
      cbn [fst snd] in *.
      destruct Hno as [->|[-> Hgt]]; [now left|].
      change (ERRNO_RFFE_VCC_INSUFFICIENT =? ERRNO_RFFE_VCC_INSUFFICIENT)
        with true. cbn iota.
      pose proof (VDDPA_result target lsad_channel s1) as Hpa.
      destruct (Sys_RFFE_SetTXPower_VDDPA H trims float_to_uint8 target
                  lsad_channel s1) as [e2 s2].
      cbn [fst snd] in *. subst e2. right.
      unfold RF_NO_VDDPA_TYPICAL_POWER in Hgt.
      assert ((target <=? 0) = false) as Hle by lia.
      rewrite Hle, orb_false_r in Hsel.
      apply andb_prop in Hsel. destruct Hsel as [Hsel _].
      apply andb_prop in Hsel. destruct Hsel as [Hpa Hmax].
      repeat split; try reflexivity; try lia.
      now destruct pa_en.
    - left. apply VDDPA_result. }
  split; [split|split].
  - intros Hres. destruct (invalid_setting_dec target lsad_channel) as [Hi|Hv];
      [assumption|].
    destruct (Hvalid Hv) as [Hr|[Hr _]]; rewrite Hr in Hres; discriminate.
  - intros Hinv. now rewrite SetTXPower_invalid.
  - intros Hinv. now rewrite SetTXPower_invalid.
  - exact Hvalid.
Qed.

(** ** The registers Sys_RFFE_SetTXPower changes *)

(** The registers that set the TX power. *)
Definition power_registers : list reg :=
  [ SYSCTRL_VDDPA_CFG0; ACS_VDDPA_CTRL; ACS_VDDRF_CTRL; RF0_BIAS_0_2;
    RF0_REG1A ].

(** With them, the registers the supply measurement borrows. *)
Definition touched_registers (lsad_channel : Z) : list reg :=
  LSAD_CFG :: LSAD_INPUT_SEL lsad_channel :: ACS_AOUT_CTRL :: power_registers.

Lemma frame_read_lsad_data rs ch : frame rs (read_lsad_data ch).
Proof. intros s x _. reflexivity. Qed.

Ltac unfold_bytes :=
  unfold SYSCTRL_VDDPA_CFG0_DYNAMIC_CTRL_BYTE,
    SYSCTRL_VDDPA_CFG0_SW_CTRL_DELAY_BYTE,
    SYSCTRL_VDDPA_CFG0_RAMPUP_DELAY_BYTE,
    SYSCTRL_VDDPA_CFG0_DISABLE_DELAY_BYTE, ACS_VDDRF_CTRL_VTRIM_BYTE,
    ACS_VDDPA_CTRL_VTRIM_BYTE, RF0_BIAS_0_2_BIAS_0_IQ_RXTX_BYTE,
    RF0_REG1A_PA_PWR_PA_PWR_BYTE.

Ltac frame_power :=
  unfold touched_registers, power_registers; unfold_bytes; frame_all.

Lemma frame_MeasureSupply rs ch :
  frame rs (Sys_RFFE_MeasureSupply H trims supply_mV ch).
Proof.
  unfold Sys_RFFE_MeasureSupply.
  do 3 (apply frame_bind; [apply frame_read_lsad_data|intros ?]).
  apply frame_ret.
Qed.

Lemma frame_commit_pa_pwr rs p :
  In RF0_REG1A rs -> frame rs (commit_pa_pwr H p).
Proof.
  intros Hin. unfold commit_pa_pwr.
  destruct (negb _); [now apply frame_write8|apply frame_ret].
Qed.

Lemma frame_compensate_vddrf rs target p :
  In ACS_VDDRF_CTRL rs ->
  frame rs (compensate_vddrf H float_to_uint8 target p).
Proof.
  intros Hin. unfold compensate_vddrf.
  apply frame_bind; [apply frame_read8|intros ?]. now apply frame_write8.
Qed.

Lemma frame_NoVDDPA_boost target ch :
  frame (touched_registers ch) (NoVDDPA_boost H trims supply_mV target ch).
Proof.
  unfold NoVDDPA_boost.
  apply frame_bind; [apply frame_read32|intros ?].
  apply frame_bind; [frame_power|intros ?].
  apply frame_bind; [apply frame_MeasureSupply|intros ?].
  cbv zeta. frame_power.
Qed.

Lemma frame_NoVDDPA_nominal target ch :
  frame (touched_registers ch) (NoVDDPA_nominal H trims float_to_uint8 target).
Proof.
  unfold NoVDDPA_nominal.
  do 3 (apply frame_bind; [frame_power|intros ?]).
  cbv zeta.
  apply frame_bind; [|intros ?; frame_power].
  destruct (is_zero _).
  - apply frame_bind; [|intros ?; apply frame_ret].
    apply frame_compensate_vddrf. cbn; tauto.
  - destruct (is_zero _); [|apply frame_ret].
    apply frame_bind; [|intros ?; apply frame_ret].
    apply frame_compensate_vddrf. cbn; tauto.
Qed.

Lemma frame_NoVDDPA target ch :
  frame (touched_registers ch)
        (Sys_RFFE_SetTXPower_NoVDDPA H trims supply_mV float_to_uint8
           target ch).
Proof.
  unfold Sys_RFFE_SetTXPower_NoVDDPA.
  do 9 (apply frame_bind; [frame_power|intros ?]).
  apply frame_bind.
  - destruct (_ >? _);
      [apply frame_NoVDDPA_boost|apply frame_NoVDDPA_nominal].
  - intros [e p].
    do 3 (apply frame_bind; [frame_power|intros ?]).
    apply frame_bind; [|intros ?; apply frame_ret].
    apply frame_commit_pa_pwr. cbn; tauto.
Qed.

Lemma frame_VDDPA target ch :
  frame power_registers
        (Sys_RFFE_SetTXPower_VDDPA H trims float_to_uint8 target ch).
Proof.
  unfold Sys_RFFE_SetTXPower_VDDPA.
  do 6 (apply frame_bind; [frame_power|intros ?]).
  cbv zeta.
  apply frame_bind; [frame_power|intros ?].
  apply frame_bind; [|intros ?; apply frame_ret].
  apply frame_commit_pa_pwr. cbn; tauto.
Qed.

(** The end of [Sys_RFFE_SetTXPower_NoVDDPA] puts the saved values back. *)
Lemma restore_regs (a b c ch p e : Z) (s : state) :
  let s' := snd ((write32 LSAD_CFG a ;; write32 ACS_AOUT_CTRL b ;;
                  write32 (LSAD_INPUT_SEL ch) c ;;
                  commit_pa_pwr H p ;; ret e) s) in
  regs s' LSAD_CFG = uint32_t a
  /\ regs s' ACS_AOUT_CTRL = uint32_t b
  /\ regs s' (LSAD_INPUT_SEL ch) = uint32_t c.
Proof.
  cbv zeta. unfold commit_pa_pwr, RF0_REG1A_PA_PWR_PA_PWR_BYTE.
  destruct (negb _); cbn [bind write32 write8 ret snd fst regs br_reg];
    repeat split;
    repeat first [rewrite upd_same | rewrite upd_other by discriminate];
    reflexivity.
Qed.

Definition restored (ch : Z) (s : state) (x : Z * state) : Prop :=
  regs (snd x) LSAD_CFG = uint32_t (regs s LSAD_CFG)
  /\ regs (snd x) ACS_AOUT_CTRL = uint32_t (regs s ACS_AOUT_CTRL)
  /\ regs (snd x) (LSAD_INPUT_SEL ch) = uint32_t (regs s (LSAD_INPUT_SEL ch)).

Lemma NoVDDPA_restores target ch s :
  restored ch s
    (Sys_RFFE_SetTXPower_NoVDDPA H trims supply_mV float_to_uint8 target ch s).
Proof.
  unfold Sys_RFFE_SetTXPower_NoVDDPA.
  rewrite !bind_read32.
  do 2 (apply (bind_after (restored ch s)); intros ? ?).
  rewrite bind_read32.
  apply (bind_after (restored ch s)); intros ? ?.
  rewrite bind_read32.
  apply (bind_after (restored ch s)); intros ? ?.
  apply (bind_after (restored ch s)); intros [e p] s4.
  apply restore_regs.
Qed.

Lemma NoVDDPA_keeps target ch s r :
  wf_regs s -> ~ In r power_registers ->
  regs (snd (Sys_RFFE_SetTXPower_NoVDDPA H trims supply_mV float_to_uint8
               target ch s)) r = regs s r.
Proof.
  intros Hwf Hr.
  destruct (NoVDDPA_restores target ch s) as (Hcfg & Haout & Hsel).
  destruct (reg_eq_dec r LSAD_CFG) as [->|Hn1];
    [now rewrite Hcfg, <- Hwf|].
  destruct (reg_eq_dec r ACS_AOUT_CTRL) as [->|Hn2];
    [now rewrite Haout, <- Hwf|].
  destruct (reg_eq_dec r (LSAD_INPUT_SEL ch)) as [->|Hn3];
    [now rewrite Hsel, <- Hwf|].
  apply frame_NoVDDPA. unfold touched_registers. cbn [In].
  intuition congruence.
Qed.

(** X18.  Whatever the setting and the path taken, [Sys_RFFE_SetTXPower]
    leaves every register other than SYSCTRL->VDDPA_CFG0, ACS->VDDPA_CTRL,
    ACS->VDDRF_CTRL, RF0->BIAS_0_2 and RF0->REG1A at its value before the
    call; in particular LSAD->CFG, LSAD->INPUT_SEL[lsad_channel] and
    ACS->AOUT_CTRL, which the supply measurement reprograms, are restored
    (registers hold 32-bit values). *)
Theorem SetTXPower_changes_power_registers_only
    (target lsad_channel : Z) (pa_en : bool) (s : state) (r : reg) :
  wf_regs s -> ~ In r power_registers ->
  regs (snd (Sys_RFFE_SetTXPower H trims supply_mV float_to_uint8 target
               lsad_channel pa_en s)) r = regs s r.
Proof.
  intros Hwf Hr.
  destruct (invalid_setting_dec target lsad_channel) as [Hinv|Hval].
  - now rewrite SetTXPower_invalid.
  - rewrite (SetTXPower_valid _ _ _ _ Hval).
    destruct (_ || _).
    + pose proof (NoVDDPA_keeps target lsad_channel s r Hwf Hr) as Hno.
      destruct (Sys_RFFE_SetTXPower_NoVDDPA H trims supply_mV float_to_uint8
                  target lsad_channel s) as [e s1].
      cbn [snd] in Hno.
      destruct (e =? ERRNO_RFFE_VCC_INSUFFICIENT); [|exact Hno].
      pose proof (frame_VDDPA target lsad_channel s1 r Hr) as Hpa.
      destruct (Sys_RFFE_SetTXPower_VDDPA H trims float_to_uint8 target
                  lsad_channel s1) as [e2 s2].
      cbn [snd] in *. now rewrite Hpa.
    + now apply frame_VDDPA.
Qed.

End Results.

Lemma SetTXPower_result_witness :
  snd (Sys_RFFE_SetTXPower sample_hw calibrated_region ideal_supply_mV
         wrapping_float_to_uint8 0 8 false (state_reading 0))
    = state_reading 0.
Proof.
  destruct (SetTXPower_result sample_hw calibrated_region ideal_supply_mV
              wrapping_float_to_uint8 0 8 false (state_reading 0))
    as (_ & Hsame & _).
  apply Hsame. left. reflexivity.
Defined.

Lemma SetTXPower_changes_power_registers_only_witness :
  regs (snd (Sys_RFFE_SetTXPower sample_hw calibrated_region ideal_supply_mV
               wrapping_float_to_uint8 1 6 false (state_reading 0)))
       ACS_AOUT_CTRL = 0.
Proof.
  apply (SetTXPower_changes_power_registers_only sample_hw calibrated_region
           ideal_supply_mV wrapping_float_to_uint8 1 6 false
           (state_reading 0) ACS_AOUT_CTRL).
  - intros r. reflexivity.
  - cbn. intuition discriminate.
Defined.

End TXPower.

(** * Further properties of the power modes (source/power_modes.c) *)

Module Sleep.

Import PowerModes.

(** ** Sys_PowerModes_Wakeup_ConfigEnable and _ConfigDisable *)

(** The cell [*p_wakeup_cfg] of the caller's configuration structure and
    the register ACS->WAKEUP_CFG. *)
Record wakeup : Type := mkWakeup {
  p_wakeup_cfg : Z;
  ACS_WAKEUP_CFG : Z
}.

Definition Sys_PowerModes_Wakeup_ConfigEnable (acs_wakeup_cfg : Z)
    (w : wakeup) : wakeup :=
  let cell := uint32_t (Z.lor (p_wakeup_cfg w) acs_wakeup_cfg) in
  mkWakeup cell cell.

Definition Sys_PowerModes_Wakeup_ConfigDisable (acs_wakeup_cfg : Z)
    (w : wakeup) : wakeup :=
  let cell := uint32_t (Z.land (p_wakeup_cfg w) (not32 acs_wakeup_cfg)) in
  mkWakeup cell cell.

Lemma testbit_32 x k :
  0 <= x < 2 ^ 32 -> 32 <= k -> Z.testbit x k = false.
Proof.
  intros Hx Hk. rewrite <- (Z.mod_small x (2 ^ 32)) by assumption.
  apply Z.mod_pow2_bits_high. lia.
Qed.

Ltac bitwise :=
  apply Z.bits_inj'; intros k Hk;
  repeat first
    [ rewrite Loaders.testbit_uint32_t
    | rewrite Z.land_spec | rewrite Z.lor_spec | rewrite Z.bits_0 ];
  destruct (Z.ltb_spec k 32);
  [ rewrite ?Trim.testbit_not32 by lia
  | rewrite ?testbit_32 by (assumption || lia) ];
  repeat match goal with
         | |- context [Z.testbit ?x k] => destruct (Z.testbit x k)
         end;
  reflexivity.

(** X19.  [Sys_PowerModes_Wakeup_ConfigEnable] and [_ConfigDisable] leave
    the same value in the caller's cell and in ACS->WAKEUP_CFG, change no
    bit outside [acs_wakeup_cfg], and undo each other on the bits of
    [acs_wakeup_cfg]: disabling after enabling gives what disabling alone
    gives, and enabling after disabling what enabling alone gives. *)
Theorem Wakeup_Config_enable_disable (acs_wakeup_cfg : Z) (w : wakeup) :
  0 <= acs_wakeup_cfg < 2 ^ 32 -> 0 <= p_wakeup_cfg w < 2 ^ 32 ->
  let on := Sys_PowerModes_Wakeup_ConfigEnable acs_wakeup_cfg in
  let off := Sys_PowerModes_Wakeup_ConfigDisable acs_wakeup_cfg in
  ACS_WAKEUP_CFG (on w) = p_wakeup_cfg (on w)
  /\ ACS_WAKEUP_CFG (off w) = p_wakeup_cfg (off w)
  /\ Z.land (p_wakeup_cfg (on w)) acs_wakeup_cfg = acs_wakeup_cfg
  /\ Z.land (p_wakeup_cfg (off w)) acs_wakeup_cfg = 0
  /\ Z.land (p_wakeup_cfg (on w)) (not32 acs_wakeup_cfg)
     = Z.land (p_wakeup_cfg w) (not32 acs_wakeup_cfg)
  /\ Z.land (p_wakeup_cfg (off w)) (not32 acs_wakeup_cfg)
     = Z.land (p_wakeup_cfg w) (not32 acs_wakeup_cfg)
  /\ off (on w) = off w
  /\ on (off w) = on w.
Proof.
  intros Hcfg Hcell. cbv zeta.
  unfold Sys_PowerModes_Wakeup_ConfigEnable,
    Sys_PowerModes_Wakeup_ConfigDisable.
  cbn [p_wakeup_cfg ACS_WAKEUP_CFG].
  split; [reflexivity|]. split; [reflexivity|].
  split; [bitwise|]. split; [bitwise|].
  split; [bitwise|]. split; [bitwise|].
  assert (E1 : uint32_t (Z.land (uint32_t (Z.lor (p_wakeup_cfg w)
                                               acs_wakeup_cfg))
                                (not32 acs_wakeup_cfg))
               = uint32_t (Z.land (p_wakeup_cfg w) (not32 acs_wakeup_cfg)))
    by bitwise.
  assert (E2 : uint32_t (Z.lor (uint32_t (Z.land (p_wakeup_cfg w)
                                            (not32 acs_wakeup_cfg)))
                               acs_wakeup_cfg)
               = uint32_t (Z.lor (p_wakeup_cfg w) acs_wakeup_cfg))
    by bitwise.
  rewrite E1, E2. split; reflexivity.
Qed.

Lemma Wakeup_Config_enable_disable_witness :
  Sys_PowerModes_Wakeup_ConfigDisable 0x30
    (Sys_PowerModes_Wakeup_ConfigEnable 0x30 (mkWakeup 0x11 0))
  = mkWakeup 0x01 0x01.
Proof.
  destruct (Wakeup_Config_enable_disable 0x30 (mkWakeup 0x11 0)
              ltac:(lia) ltac:(cbn; lia))
    as (_ & _ & _ & _ & _ & _ & Hoff & _).
  rewrite Hoff. reflexivity.
Defined.

(** ** _Sys_PowerModes_Sleep_CoreRetention *)

(** What the function takes from hw.h beyond the constants of
    [PowerModes.hw_h], and the configuration of the trim loader it
    calls. *)
Record core_hw_h : Type := mkCoreHw {
  power_h : hw_h;
  trim_h : Trim.hw_h;
  VDDC_TRIM_1P10V_BYTE : Z;
  VCC_TRIM_1P10V : Z;
  VDDCRET_ENABLE : Z
}.

(** include/trim.h *)
Definition TARGET_DCDC_1120 : Z := 112.

(** The file-scope variables of power_modes.c the function uses. *)
Record statics : Type := mkStatics {
  ACS_VCC_CTRL_backup : Z;    (* uint32_t *)
  vddc_trim_backup : Z;       (* uint8_t *)
  restore_trim : Z            (* uint8_t, 0 at reset *)
}.

Section CoreRetention.

Variable H : core_hw_h.

(** The value of the uninitialised local of [Sys_Trim_GetTrim]. *)
Variable indeterminate : Z.

(** The calibration region behind the pointer [TRIM] of hw.h. *)
Variable TRIM : Trim.TRIM_Type.

(** [__wfi_for_power_mode], an external routine: what the registers are
    when the core runs again. *)
Variable __wfi_for_power_mode : state -> state.

Definition ACS_VDDC_CTRL_VTRIM_BYTE : bytereg :=
  Trim.ACS_VDDC_CTRL_VTRIM_BYTE (trim_h H).

(** [if (ACS_VDDC_CTRL->VTRIM_BYTE < VDDC_TRIM_1P10V_BYTE) { ... }] *)
Definition raise_VDDC (st : statics) : M statics :=
  vtrim <- read8 ACS_VDDC_CTRL_VTRIM_BYTE ;;
  if vtrim <? VDDC_TRIM_1P10V_BYTE H then
    let st := mkStatics (ACS_VCC_CTRL_backup st) (vddc_trim_backup st) 1 in
    vtrim <- read8 ACS_VDDC_CTRL_VTRIM_BYTE ;;
    let st := mkStatics (ACS_VCC_CTRL_backup st) (uint8_t vtrim)
                        (restore_trim st) in
    vcc <- read32 ACS_VCC_CTRL ;;
    st <- (if Z.land vcc (Trim.ACS_VCC_CTRL_VTRIM_Mask (trim_h H))
              <? VCC_TRIM_1P10V H
           then
             vcc <- read32 ACS_VCC_CTRL ;;
             let st := mkStatics (uint32_t vcc) (vddc_trim_backup st)
                                 (restore_trim st) in
             Trim.Sys_Trim_LoadDCDC (trim_h H) indeterminate (Some TRIM)
                                    TARGET_DCDC_1120 ;;
             ret st
           else ret st) ;;
    write8 ACS_VDDC_CTRL_VTRIM_BYTE (VDDC_TRIM_1P10V_BYTE H) ;;
    ret st
  else ret st.

(** The stores up to [ACS->PWR_MODES_CTRL = PWR_SLEEP_MODE]. *)
Definition enter_sleep (cfg : sleep_mode_cfg) : M unit :=
  let r := vddret_ctrl cfg in
  let P := power_h H in
  write32 ACS_VDDRET_CTRL
    (Z.lor (Z.lor (Z.lor (Z.lor (Z.lor
       (Z.shiftl (vddm_ret_trim r) (ACS_VDDRET_CTRL_VDDMRET_VTRIM_Pos P))
       (VDDMRET_ENABLE P))
       (Z.shiftl (vddacs_ret_trim r) (ACS_VDDRET_CTRL_VDDACS_VTRIM_Pos P)))
       (Z.shiftl (vddt_ret r) (ACS_VDDRET_CTRL_VDDTRET_ENABLE_Pos P)))
       (Z.shiftl (vddc_ret_trim r) (ACS_VDDRET_CTRL_VDDCRET_VTRIM_Pos P)))
       (VDDCRET_ENABLE H)) ;;
  v <- read32 SYSCTRL_MEM_ACCESS_CFG ;;
  write32 ACS_BOOT_GP_DATA v ;;
  write32 ACS_PWR_MODES_CTRL (PWR_SLEEP_MODE P).

(** [if (restore_trim) { ... }] *)
Definition restore_VDDC (st : statics) : M statics :=
  if negb (is_zero (restore_trim st)) then
    write32 ACS_VCC_CTRL (ACS_VCC_CTRL_backup st) ;;
    write8 ACS_VDDC_CTRL_VTRIM_BYTE (vddc_trim_backup st) ;;
    ret (mkStatics (ACS_VCC_CTRL_backup st) (vddc_trim_backup st) 0)
  else ret st.

Definition _Sys_PowerModes_Sleep_CoreRetention (cfg : sleep_mode_cfg)
    (st : statics) : M statics :=
  st <- raise_VDDC st ;;
  enter_sleep cfg ;;
  (fun s => (tt, __wfi_for_power_mode s)) ;;
  restore_VDDC st.

(** The registers when the core goes to sleep. *)
Definition asleep (cfg : sleep_mode_cfg) (st : statics) (s : state) : state :=
  snd ((raise_VDDC st ;; enter_sleep cfg) s).

End CoreRetention.

Lemma get_lane_range w l : 0 <= get_lane w l <= 0xFF.
Proof.
  unfold get_lane.
  replace (Z.land (Z.shiftr w (8 * l)) 0xFF)
    with (Z.shiftr w (8 * l) mod 2 ^ 8)
    by (change 0xFF with (Z.ones 8); now rewrite Z.land_ones by lia).
  pose proof (Z.mod_pos_bound (Z.shiftr w (8 * l)) (2 ^ 8) ltac:(lia)). lia.
Qed.

Lemma uint8_t_small x : 0 <= x <= 0xFF -> uint8_t x = x.
Proof. intros Hx. unfold uint8_t. apply Z.mod_small. lia. Qed.

Section CoreRetentionFacts.

Variable H : core_hw_h.
Variable indeterminate : Z.
Variable TRIM : Trim.TRIM_Type.
Variable wfi : state -> state.

Hypothesis lane : 0 <= Trim.VDDC_VTRIM_lane (trim_h H) < 4.

Definition entry_vtrim (s : state) : Z :=
  fst (read8 (ACS_VDDC_CTRL_VTRIM_BYTE H) s).

Definition vcc_low (s : state) : bool :=
  Z.land (regs s ACS_VCC_CTRL) (Trim.ACS_VCC_CTRL_VTRIM_Mask (trim_h H))
    <? VCC_TRIM_1P10V H.

Lemma raise_VDDC_low st s :
  entry_vtrim s < VDDC_TRIM_1P10V_BYTE H ->
  fst (raise_VDDC H indeterminate TRIM st s)
    = mkStatics (if vcc_low s then uint32_t (regs s ACS_VCC_CTRL)
                 else ACS_VCC_CTRL_backup st)
                (entry_vtrim s) 1
  /\ get_lane (regs (snd (raise_VDDC H indeterminate TRIM st s))
                    ACS_VDDC_CTRL)
              (Trim.VDDC_VTRIM_lane (trim_h H))
     = Z.land (uint8_t (VDDC_TRIM_1P10V_BYTE H)) 0xFF.
Proof.
  intros Hlt. unfold raise_VDDC. rewrite Loaders.bind_eq.
  fold (entry_vtrim s). cbn [snd read8].
  assert ((entry_vtrim s <? VDDC_TRIM_1P10V_BYTE H) = true) as -> by lia.
  cbv zeta. rewrite Loaders.bind_eq. fold (entry_vtrim s). cbn [snd read8].
  rewrite Loaders.bind_read32. fold (vcc_low s).
  cbn [ACS_VCC_CTRL_backup vddc_trim_backup restore_trim].
  rewrite uint8_t_small by apply get_lane_range.
  rewrite Loaders.bind_eq.
  destruct (vcc_low s).
  - rewrite Loaders.bind_read32.
    cbn [ACS_VCC_CTRL_backup vddc_trim_backup restore_trim].
    rewrite (Loaders.bind_eq (Trim.Sys_Trim_LoadDCDC _ _ _ _)).
    cbn [ret fst snd].
    rewrite Loaders.bind_eq. cbn [ret fst snd].
    split; [reflexivity|].
    unfold write8, ACS_VDDC_CTRL_VTRIM_BYTE, Trim.ACS_VDDC_CTRL_VTRIM_BYTE.
    cbn [snd regs br_reg br_lane]. rewrite upd_same.
    now apply Trim.get_set_lane_same.
  - cbn [ret fst snd]. rewrite Loaders.bind_eq. cbn [ret fst snd].
    split; [reflexivity|].
    unfold write8, ACS_VDDC_CTRL_VTRIM_BYTE, Trim.ACS_VDDC_CTRL_VTRIM_BYTE.
    cbn [snd regs br_reg br_lane]. rewrite upd_same.
    now apply Trim.get_set_lane_same.
Qed.

Lemma enter_sleep_keeps_VDDC cfg s :
  regs (snd (enter_sleep H cfg s)) ACS_VDDC_CTRL = regs s ACS_VDDC_CTRL.
Proof.
  unfold enter_sleep. cbv zeta.
  cbn [bind write32 read32 snd fst regs].
  now rewrite !upd_other by discriminate.
Qed.

Lemma restore_VDDC_set st s :
  restore_trim st <> 0 ->
  fst (restore_VDDC H st s)
    = mkStatics (ACS_VCC_CTRL_backup st) (vddc_trim_backup st) 0
  /\ regs (snd (restore_VDDC H st s)) ACS_VCC_CTRL
     = uint32_t (ACS_VCC_CTRL_backup st)
  /\ get_lane (regs (snd (restore_VDDC H st s)) ACS_VDDC_CTRL)
              (Trim.VDDC_VTRIM_lane (trim_h H))
     = Z.land (uint8_t (vddc_trim_backup st)) 0xFF.
Proof.
  intros Hset. unfold restore_VDDC, is_zero.
  apply Z.eqb_neq in Hset. rewrite Hset. cbn [negb].
  unfold ACS_VDDC_CTRL_VTRIM_BYTE, Trim.ACS_VDDC_CTRL_VTRIM_BYTE.
  cbn [bind write32 write8 ret snd fst regs br_reg br_lane].
  split; [reflexivity|]. split.
  - rewrite upd_other by discriminate. apply upd_same.
  - rewrite upd_same. now apply Trim.get_set_lane_same.
Qed.

Lemma CoreRetention_eq cfg st s :
  _Sys_PowerModes_Sleep_CoreRetention H indeterminate TRIM wfi cfg st s
  = restore_VDDC H (fst (raise_VDDC H indeterminate TRIM st s))
      (wfi (asleep H indeterminate TRIM cfg st s)).
Proof.
  unfold _Sys_PowerModes_Sleep_CoreRetention, asleep.
  rewrite !Loaders.bind_eq. cbn [snd]. rewrite ?Loaders.bind_eq. reflexivity.
Qed.

(** X20.  [_Sys_PowerModes_Sleep_CoreRetention] with a VDDC trim below
    [VDDC_TRIM_1P10V_BYTE] at entry: the core sleeps with the VDDC trim
    byte at [VDDC_TRIM_1P10V_BYTE], and after the wake-up the byte is back
    at its entry value and [restore_trim] is cleared.  ACS->VCC_CTRL is
    then written from [ACS_VCC_CTRL_backup] in either case: that is the
    entry value of the register when its VTRIM field was below
    [VCC_TRIM_1P10V], and otherwise whatever the variable held before the
    call, which the function never set. *)
Theorem CoreRetention_low_VDDC (cfg : sleep_mode_cfg) (st : statics)
    (s : state) :
  0 <= VDDC_TRIM_1P10V_BYTE H <= 0xFF ->
  entry_vtrim s < VDDC_TRIM_1P10V_BYTE H ->
  let r := _Sys_PowerModes_Sleep_CoreRetention H indeterminate TRIM wfi
             cfg st s in
  get_lane (regs (asleep H indeterminate TRIM cfg st s) ACS_VDDC_CTRL)
           (Trim.VDDC_VTRIM_lane (trim_h H))
    = VDDC_TRIM_1P10V_BYTE H
  /\ get_lane (regs (snd r) ACS_VDDC_CTRL) (Trim.VDDC_VTRIM_lane (trim_h H))
     = entry_vtrim s
  /\ restore_trim (fst r) = 0
  /\ regs (snd r) ACS_VCC_CTRL
     = uint32_t (if vcc_low s then regs s ACS_VCC_CTRL
                 else ACS_VCC_CTRL_backup st).
Proof.
  intros Hbyte Hlow. cbv zeta.
  destruct (raise_VDDC_low st s Hlow) as [Hst Hraised].
  rewrite CoreRetention_eq, Hst.
  destruct (restore_VDDC_set
              (mkStatics (if vcc_low s then uint32_t (regs s ACS_VCC_CTRL)
                          else ACS_VCC_CTRL_backup st) (entry_vtrim s) 1)
              (wfi (asleep H indeterminate TRIM cfg st s)))
    as (Hfst & Hvcc & Hvddc); [cbn; discriminate|].
  cbn [ACS_VCC_CTRL_backup vddc_trim_backup] in *.
  split; [|split; [|split]].
  - unfold asleep. rewrite Loaders.bind_eq. cbn [snd].
    rewrite enter_sleep_keeps_VDDC, Hraised.
    rewrite uint8_t_small, Trim.land_FF_small by lia. reflexivity.
  - rewrite Hvddc.
    rewrite uint8_t_small, Trim.land_FF_small
      by (unfold entry_vtrim, read8; cbn [fst]; apply get_lane_range).
    reflexivity.
  - now rewrite Hfst.
  - rewrite Hvcc. destruct (vcc_low s); [apply Trim.uint32_t_idem|].
    reflexivity.
Qed.

End CoreRetentionFacts.

Definition sample_core_hw : core_hw_h :=
  {| power_h := sample_hw; trim_h := Trim.sample_hw true;
     VDDC_TRIM_1P10V_BYTE := 0x1A; VCC_TRIM_1P10V := 0x0C;
     VDDCRET_ENABLE := 0x1000000 |}.

(** VDDC is trimmed below 1.1 V (0x12) and the VCC trim field is at its
    maximum. *)
Definition low_VDDC_state : state :=
  {| dev := Trim.sample_device;
     regs := fun x => if reg_eqb x ACS_VDDC_CTRL then 0x12
                      else if reg_eqb x ACS_VCC_CTRL
                           then Trim.ACS_VCC_CTRL_VTRIM_Mask
                                  (Trim.sample_hw true)
                           else 0;
     stores := []; lsad_reads := 0 |}.

Lemma CoreRetention_low_VDDC_witness :
  regs low_VDDC_state ACS_VCC_CTRL
    = Trim.ACS_VCC_CTRL_VTRIM_Mask (Trim.sample_hw true)
  /\ regs (snd (_Sys_PowerModes_Sleep_CoreRetention sample_core_hw 0
                  Trim.uniform_region (fun s => s) (sample_cfg 0)
                  (mkStatics 0 0 0) low_VDDC_state)) ACS_VCC_CTRL = 0.
Proof.
  split; [reflexivity|].
  destruct (CoreRetention_low_VDDC sample_core_hw 0 Trim.uniform_region
              (fun s => s) ltac:(cbn; lia) (sample_cfg 0) (mkStatics 0 0 0)
              low_VDDC_state ltac:(cbn; lia) ltac:(vm_compute; reflexivity))
    as (_ & _ & _ & Hvcc).
  rewrite Hvcc. vm_compute. reflexivity.
Defined.

(** ** From _Sys_PowerModes_Sleep_MemoryRetention to the wake handler *)

Lemma overlay_outside base x mem : forall ws i,
  (forall j, (i <= j < i + length ws)%nat -> x <> base + 4 * Z.of_nat j) ->
  overlay base i ws mem x = mem x.
Proof.
  intros ws. revert mem.
  induction ws as [|w ws IH]; intros mem i Hout; cbn [overlay];
    [reflexivity|].
  rewrite IH by (intros j Hj; apply Hout; cbn [length]; lia).
  rewrite (proj2 (Z.eqb_neq _ _)); [reflexivity|].
  apply Hout. cbn [length]. lia.
Qed.

Lemma GP_DATA_set H L p cfg m :
  regs (hw (_Sys_PowerModes_Sleep_MemoryRetention H L p cfg m)) ACS_GP_DATA
  = uint32_t p.
Proof.
  rewrite MemoryRetention_unfold, hw_emit.
  rewrite regs_do_hw_write32, upd_other by discriminate.
  rewrite regs_do_hw_write32. apply upd_same.
Qed.

Lemma trace_emit e m : trace (emit e m) = e :: trace m.
Proof. reflexivity. Qed.

Lemma trace_do_hw c m : trace (do_hw c m) = trace m.
Proof. apply trace_on_hw. Qed.

Lemma trace_store a v m : trace (store a v m) = trace m.
Proof. reflexivity. Qed.

Lemma trace_block_stored H L cfg m : trace (block_stored H L cfg m) = trace m.
Proof.
  unfold block_stored. cbv zeta. rewrite !trace_store. apply trace_do_hw.
Qed.

Lemma trace_MemoryRetention H L p cfg m :
  trace (_Sys_PowerModes_Sleep_MemoryRetention H L p cfg m) = WFI :: trace m.
Proof.
  rewrite MemoryRetention_unfold, trace_emit, !trace_do_hw, trace_store.
  destruct (CalculateCRC_spec H L (block_stored H L cfg m))
    as (_ & _ & Htrace & _).
  now rewrite Htrace, trace_block_stored.
Qed.

(** X21.  [_Sys_PowerModes_Sleep_MemoryRetention] writes no RAM outside
    the eight words of the wake block at [app_ptr], and the only thing
    the core does besides its loads and stores is the final WFI. *)
Theorem MemoryRetention_writes_block_only (H : hw_h) (L : linker) (p : Z)
    (cfg : sleep_mode_cfg) (m : machine) (x : Z) :
  (forall i, (i < 8)%nat -> x <> app_ptr L + 4 * Z.of_nat i) ->
  ram (_Sys_PowerModes_Sleep_MemoryRetention H L p cfg m) x = ram m x
  /\ trace (_Sys_PowerModes_Sleep_MemoryRetention H L p cfg m)
     = WFI :: trace m.
Proof.
  intros Hout. split; [|apply trace_MemoryRetention].
  rewrite ram_MemoryRetention.
  rewrite (proj2 (Z.eqb_neq _ _)) by (apply (Hout 7%nat); lia).
  apply overlay_outside. intros j Hj. apply Hout.
  cbn [block_words length] in Hj. lia.
Qed.

Lemma MemoryRetention_writes_block_only_witness :
  ram (_Sys_PowerModes_Sleep_MemoryRetention sample_hw sample_linker
         0x20001000 (sample_cfg 0x101) reset_machine) 0x20000020
  = ram reset_machine 0x20000020.
Proof.
  apply (MemoryRetention_writes_block_only sample_hw sample_linker
           0x20001000 (sample_cfg 0x101) reset_machine 0x20000020).
  intros i Hi. cbn [app_ptr sample_linker]. lia.
Defined.

(** X22.  The configuration pointer given to
    [_Sys_PowerModes_Sleep_MemoryRetention] is the one
    [_Sys_PowerModes_WakeupFromRAM] works with after the wake-up, provided
    ACS->GP_DATA is retained over the sleep: the handler runs the wake
    sequence for the structure behind that pointer and then calls its
    [app_addr], or refreshes the watchdog and spins when [app_addr] is
    null. *)
Theorem wake_recovers_configuration (H : hw_h) (L : linker)
    (cfg_at : Z -> sleep_mode_cfg)
    (WakeupInit : sleep_mode_cfg -> machine -> machine)
    (p : Z) (m woke_up : machine) (n : nat) :
  0 <= p < 2 ^ 32 ->
  regs (hw woke_up) ACS_GP_DATA
    = regs (hw (_Sys_PowerModes_Sleep_MemoryRetention H L p (cfg_at p) m))
           ACS_GP_DATA ->
  let resumed := WakeupFromRAM_prologue H WakeupInit (cfg_at p)
                   (emit disable_irq woke_up) in
  _Sys_PowerModes_WakeupFromRAM H cfg_at WakeupInit n woke_up
  = if app_addr (cfg_at p) =? 0
    then Spinning (SYS_WATCHDOG_REFRESH H resumed)
    else Returned (emit (call (app_addr (cfg_at p))) resumed).
Proof.
  intros Hp Hkept. cbv zeta.
  rewrite GP_DATA_set in Hkept.
  unfold uint32_t in Hkept. rewrite Z.mod_small in Hkept by assumption.
  assert (Hcfg : found_cfg cfg_at woke_up = cfg_at p)
    by (unfold found_cfg; now rewrite Hkept).
  destruct (Z.eqb_spec (app_addr (cfg_at p)) 0) as [E|E].
  - rewrite WakeupFromRAM_unset by (now rewrite Hcfg).
    unfold woken. now rewrite Hcfg.
  - rewrite WakeupFromRAM_set by (now rewrite Hcfg).
    unfold woken. now rewrite Hcfg.
Qed.

Lemma wake_recovers_configuration_witness :
  calls_of (machine_of
    (_Sys_PowerModes_WakeupFromRAM sample_hw
       (fun _ => sample_cfg 0x101) sample_WakeupInit 0
       (_Sys_PowerModes_Sleep_MemoryRetention sample_hw sample_linker
          0x20001000 (sample_cfg 0x101) reset_machine)))
  = [0x101].
Proof.
  rewrite (wake_recovers_configuration sample_hw sample_linker
             (fun _ => sample_cfg 0x101) sample_WakeupInit 0x20001000
             reset_machine
             (_Sys_PowerModes_Sleep_MemoryRetention sample_hw sample_linker
                0x20001000 (sample_cfg 0x101) reset_machine) 0
             ltac:(lia) eq_refl).
  vm_compute. reflexivity.
Defined.

End Sleep.
